(** * Billogram v2 API client library: a shallow embedding of
      [billogram_api.py] and the properties of its response classifier,
      remote objects, queries and the create-and-send composition. *)

From Stdlib Require Import ZArith List String Ascii Bool Lia QArith Qround.
From Stdlib Require Import DecimalString.
Import ListNotations.
Set Warnings "-register-all".
Close Scope Q_scope.
Local Open Scope string_scope.
Local Open Scope Z_scope.

(** ** Python values

    The values the library handles are what [json] decoding produces:
    [None], booleans, integers, strings, lists and dicts with string keys.
    A dict is kept as an association list in insertion order; lookups take
    the first binding of a key. *)

Inductive json : Type :=
| JNull
| JBool (b : bool)
| JInt (n : Z)
| JStr (s : string)
| JArr (items : list json)
| JObj (members : list (string * json)).

Definition dict : Type := list (string * json).

Fixpoint dict_get (k : string) (d : dict) : option json :=
  match d with
  | [] => None
  | (k', v) :: d' => if String.eqb k k' then Some v else dict_get k d'
  end.

Definition dict_has (k : string) (d : dict) : bool :=
  match dict_get k d with Some _ => true | None => false end.

(** [del d[k]] *)
Definition dict_del (k : string) (d : dict) : dict :=
  filter (fun kv => negb (String.eqb k (fst kv))) d.

(** [d[k] = v]: an existing key keeps its position. *)
Fixpoint dict_set (k : string) (v : json) (d : dict) : dict :=
  match d with
  | [] => [(k, v)]
  | (k', v') :: d' =>
      if String.eqb k k' then (k', v) :: d' else (k', v') :: dict_set k v d'
  end.

(** [d.update(e)] *)
Definition dict_update (d e : dict) : dict :=
  fold_left (fun acc kv => dict_set (fst kv) (snd kv) acc) e d.

(** Truth value of a Python object, as tested by [if v:] and [not v]. *)
Definition truthy (v : json) : bool :=
  match v with
  | JNull => false
  | JBool b => b
  | JInt n => negb (n =? 0)
  | JStr s => negb (String.eqb s "")
  | JArr l => match l with [] => false | _ => true end
  | JObj d => match d with [] => false | _ => true end
  end.

(** [v is None] *)
Definition is_None (v : json) : bool :=
  match v with JNull => true | _ => false end.

(** Numeric value of the numbers: [bool] is a subclass of [int]. *)
Definition as_int (v : json) : option Z :=
  match v with
  | JBool b => Some (if b then 1 else 0)
  | JInt n => Some n
  | _ => None
  end.

(** Python's [==] on decoded values; dict equality ignores order. *)
Fixpoint py_eq (a b : json) {struct a} : bool :=
  match a, b with
  | JNull, JNull => true
  | JStr s, JStr t => String.eqb s t
  | JArr xs, JArr ys =>
      (fix go (xs ys : list json) : bool :=
         match xs, ys with
         | [], [] => true
         | x :: xs', y :: ys' => py_eq x y && go xs' ys'
         | _, _ => false
         end) xs ys
  | JObj d, JObj e =>
      Nat.eqb (List.length d) (List.length e) &&
      (fix go (d : dict) : bool :=
         match d with
         | [] => true
         | (k, v) :: d' =>
             match dict_get k e with
             | Some w => py_eq v w
             | None => false
             end && go d'
         end) d
  | _, _ =>
      match as_int a, as_int b with
      | Some m, Some n => m =? n
      | _, _ => false
      end
  end.

(** [v == 'literal'] *)
Definition eq_str (v : json) (lit : string) : bool := py_eq v (JStr lit).

(** [v in (lit1, lit2, ...)] for a tuple of string literals. *)
Definition in_strs (v : json) (lits : list string) : bool :=
  existsb (eq_str v) lits.

(** ** Errors *)

(** The exception classes of the module. *)
Inductive error_class : Type :=
| BillogramAPIError
| ServiceMalfunctioningError
| RequestFormError
| PermissionDeniedError
| InvalidAuthenticationError
| NotAuthorizedError
| RequestDataError
| UnknownFieldError
| MissingFieldError
| InvalidFieldCombinationError
| InvalidFieldValueError
| ReadOnlyFieldError
| InvalidObjectStateError
| ObjectNotFoundError
| ObjectNotAvailableYetError.

Definition error_class_eqb (a b : error_class) : bool :=
  match a, b with
  | BillogramAPIError, BillogramAPIError
  | ServiceMalfunctioningError, ServiceMalfunctioningError
  | RequestFormError, RequestFormError
  | PermissionDeniedError, PermissionDeniedError
  | InvalidAuthenticationError, InvalidAuthenticationError
  | NotAuthorizedError, NotAuthorizedError
  | RequestDataError, RequestDataError
  | UnknownFieldError, UnknownFieldError
  | MissingFieldError, MissingFieldError
  | InvalidFieldCombinationError, InvalidFieldCombinationError
  | InvalidFieldValueError, InvalidFieldValueError
  | ReadOnlyFieldError, ReadOnlyFieldError
  | InvalidObjectStateError, InvalidObjectStateError
  | ObjectNotFoundError, ObjectNotFoundError
  | ObjectNotAvailableYetError, ObjectNotAvailableYetError => true
  | _, _ => false
  end.

(** The base class named in each [class X(Base)] header. *)
Definition base_class (c : error_class) : option error_class :=
  match c with
  | BillogramAPIError => None
  | ServiceMalfunctioningError => Some BillogramAPIError
  | RequestFormError => Some BillogramAPIError
  | PermissionDeniedError => Some BillogramAPIError
  | InvalidAuthenticationError => Some PermissionDeniedError
  | NotAuthorizedError => Some PermissionDeniedError
  | RequestDataError => Some BillogramAPIError
  | UnknownFieldError => Some RequestDataError
  | MissingFieldError => Some RequestDataError
  | InvalidFieldCombinationError => Some RequestDataError
  | InvalidFieldValueError => Some RequestDataError
  | ReadOnlyFieldError => Some RequestDataError
  | InvalidObjectStateError => Some RequestDataError
  | ObjectNotFoundError => Some RequestDataError
  | ObjectNotAvailableYetError => Some ObjectNotFoundError
  end.

Fixpoint issubclass_upto (depth : nat) (c of_ : error_class) : bool :=
  error_class_eqb c of_ ||
  match depth with
  | O => false
  | S depth' =>
      match base_class c with
      | Some b => issubclass_upto depth' b of_
      | None => false
      end
  end.

(** [issubclass(c, of_)]; the hierarchy is three classes deep. *)
Definition issubclass (c of_ : error_class) : bool := issubclass_upto 3 c of_.

(** An instance of one of the API error classes, with the attributes that
    [BillogramAPIError.__init__] sets. *)
Record api_error : Type := mk_api_error {
  err_class : error_class;
  err_message : json;
  err_field : json;
  err_field_path : json;
  err_extra_data : json
}.

(** The built-in exceptions the code can run into. *)
Inductive builtin_error : Type :=
| TypeError
| KeyError
| AttributeError
| ValueError
| AssertionError
| ZeroDivisionError
| RecursionError.

Inductive exn : Type :=
| APIError (e : api_error)
| Builtin (e : builtin_error)
| TransportError (reason : string).

(** [except cls:] catches this exception. *)
Definition caught_by (cls : error_class) (e : exn) : bool :=
  match e with
  | APIError a => issubclass (err_class a) cls
  | _ => false
  end.

Inductive result (A : Type) : Type :=
| Ok (a : A)
| Raise (e : exn).
Arguments Ok {A} a.
Arguments Raise {A} e.

Definition rbind {A B : Type} (r : result A) (k : A -> result B) : result B :=
  match r with
  | Ok a => k a
  | Raise e => Raise e
  end.

Declare Scope result_scope.
Delimit Scope result_scope with res.
Notation "x <- r ;; k" := (rbind r (fun x => k))
  (at level 61, r at next level, right associativity) : result_scope.

(** [d.get(k)] on a decoded value: only dicts have the method. *)
Definition py_get (v : json) (k : string) : result json :=
  match v with
  | JObj d => Ok (match dict_get k d with Some x => x | None => JNull end)
  | _ => Raise (Builtin AttributeError)
  end.

(** [v[k]] with a string key. *)
Definition py_getitem (v : json) (k : string) : result json :=
  match v with
  | JObj d =>
      match dict_get k d with
      | Some x => Ok x
      | None => Raise (Builtin KeyError)
      end
  | _ => Raise (Builtin TypeError)
  end.

(** [kwargs.get(k, None)] *)
Definition kw_get (k : string) (kwargs : dict) : json :=
  match dict_get k kwargs with Some x => x | None => JNull end.

(** The body of [BillogramAPIError.__init__(self, message, **kwargs)]. *)
Definition BillogramAPIError__init__
    (cls : error_class) (message : json) (kwargs : dict) : api_error :=
  let field := kw_get "field" kwargs in
  let field_path := kw_get "field_path" kwargs in
  let extra_data := kwargs in
  let extra_data :=
    if dict_has "field" extra_data then dict_del "field" extra_data
    else extra_data in
  let extra_data :=
    if dict_has "field_path" extra_data then dict_del "field_path" extra_data
    else extra_data in
  let extra_data :=
    if negb (truthy (JObj extra_data)) then JNull else JObj extra_data in
  mk_api_error cls message field field_path extra_data.

(** Calling an error class: argument binding against the signature
    [(self, message, **kwargs)], then the constructor body.  A keyword
    named [self] collides with the bound instance, and [message] must be
    given exactly once. *)
Definition new_error
    (cls : error_class) (args : list json) (kwargs : dict) : result api_error :=
  if dict_has "self" kwargs then Raise (Builtin TypeError)
  else
    match args with
    | [] =>
        match dict_get "message" kwargs with
        | Some m => Ok (BillogramAPIError__init__ cls m (dict_del "message" kwargs))
        | None => Raise (Builtin TypeError)
        end
    | [m] =>
        if dict_has "message" kwargs then Raise (Builtin TypeError)
        else Ok (BillogramAPIError__init__ cls m kwargs)
    | _ => Raise (Builtin TypeError)
    end.

(** [raise cls('text')] *)
Definition raise_msg {A : Type} (cls : error_class) (text : string) : result A :=
  match new_error cls [JStr text] [] with
  | Ok e => Raise (APIError e)
  | Raise e => Raise e
  end.

(** [raise cls( **v )]: the operand of the double star must be a mapping. *)
Definition raise_splat {A : Type} (cls : error_class) (v : json) : result A :=
  match v with
  | JObj d =>
      match new_error cls [] d with
      | Ok e => Raise (APIError e)
      | Raise e => Raise e
      end
  | _ => Raise (Builtin TypeError)
  end.

(** ** HTTP responses *)

(** What the classifier reads of a [requests] response: the status code,
    [headers['content-type']] (absent: [KeyError]), the value [json()]
    decodes (undecodable body: [ValueError]) and the raw [content]. *)
Record Response : Type := mk_response {
  status_code : Z;
  content_type : option string;
  json_body : option json;
  content : string
}.

(** [resp.ok] of the [requests] library: no 4xx or 5xx status. *)
Definition ok (resp : Response) : bool :=
  negb ((400 <=? status_code resp) && (status_code resp <? 600)).

(** [n in range(lo, hi)] *)
Definition in_range (n lo hi : Z) : bool := (lo <=? n) && (n <? hi).

Definition resp_header_content_type (resp : Response) : result string :=
  match content_type resp with
  | Some ct => Ok ct
  | None => Raise (Builtin KeyError)
  end.

Definition resp_json (resp : Response) : result json :=
  match json_body resp with
  | Some v => Ok v
  | None => Raise (Builtin ValueError)
  end.

(** What a transport call returns: the decoded envelope, or the raw
    content of a response that was not expected to be JSON. *)
Inductive retval : Type :=
| Decoded (data : json)
| RawContent (bytes : string).

(** [resp[k]] on the value a transport call returned. *)
Definition retval_getitem (r : retval) (k : string) : result json :=
  match r with
  | Decoded v => py_getitem v k
  | RawContent _ => Raise (Builtin TypeError)
  end.

(** The literal table of the classifier's last statement. *)
Definition status_table : list (string * error_class) :=
  [ ("MISSING_QUERY_PARAMETER", RequestFormError);
    ("INVALID_QUERY_PARAMETER", RequestFormError);
    ("INVALID_PARAMETER", InvalidFieldValueError);
    ("INVALID_PARAMETER_COMBINATION", InvalidFieldCombinationError);
    ("READ_ONLY_PARAMETER", ReadOnlyFieldError);
    ("UNKNOWN_PARAMETER", UnknownFieldError);
    ("INVALID_OBJECT_STATE", InvalidObjectStateError) ].

Fixpoint assoc_class (s : string) (t : list (string * error_class))
  : option error_class :=
  match t with
  | [] => None
  | (k, c) :: t' => if String.eqb s k then Some c else assoc_class s t'
  end.

(** [{...}.get(status, RequestDataError)]: the key is hashed first, and
    lists and dicts are unhashable; no other non-string equals a key. *)
Definition status_table_get (status : json) : result error_class :=
  match status with
  | JStr s =>
      Ok (match assoc_class s status_table with
          | Some c => c
          | None => RequestDataError
          end)
  | JArr _ | JObj _ => Raise (Builtin TypeError)
  | _ => Ok RequestDataError
  end.

(** ** Requests, connections and the state of the client *)

Inductive http_method : Type := GET | POST | PUT | DELETE.

(** One call of [requests.get/post/put/delete]: [req_params] is the
    [params] argument ([None] when not given) and [req_data] the value
    handed to [json.dumps] for the body. *)
Record Request : Type := mk_request {
  req_method : http_method;
  req_url : string;
  req_auth : string * string;
  req_params : json;
  req_data : option json;
  req_headers : list (string * string)
}.

(** What the HTTP stack gives back: a response, or an exception of its
    own (connection refused, timeout, ...). *)
Inductive reply : Type :=
| Reply (resp : Response)
| NoReply (reason : string).

(** The requests issued so far, oldest first. *)
Definition world : Type := list Request.

Definition API_URL_BASE : string := "https://billogram.com/api/v2".
Definition USER_AGENT : string := "Billogram API Python Library/1.00".

Module BillogramAPI.
Record t : Type := mk {
  _auth : string * string;
  _user_agent : string;
  _api_base : string
}.

(** [BillogramAPI(auth_user, auth_key, user_agent=None, api_base=None)] *)
Definition __init__ (auth_user auth_key : string)
    (user_agent api_base : option string) : t :=
  {| _auth := (auth_user, auth_key);
     _user_agent := match user_agent with
                    | Some u => if String.eqb u "" then USER_AGENT else u
                    | None => USER_AGENT
                    end;
     _api_base := match api_base with
                  | Some b => if String.eqb b "" then API_URL_BASE else b
                  | None => API_URL_BASE
                  end |}.
End BillogramAPI.

(** The Python class of a remote object. *)
Inductive object_class : Type :=
| SingletonObject
| SimpleObject
| BillogramObject.

Module SimpleClass.
Record t : Type := mk {
  _api : BillogramAPI.t;
  _url_name : string;
  _object_id_field : string;
  _object_class : object_class
}.

(** [SimpleClass(api, url_name, object_id_field)] *)
Definition __init__ (api : BillogramAPI.t) (url_name object_id_field : string)
  : t :=
  mk api url_name object_id_field SimpleObject.
End SimpleClass.

(** [BillogramClass(api)]: the constructor passes ['billogram'] and ['id']
    up, and the class attribute [_object_class] is [BillogramObject]. *)
Definition BillogramClass (api : BillogramAPI.t) : SimpleClass.t :=
  SimpleClass.mk api "billogram" "id" BillogramObject.

Module RemoteObject.
(** The slot [_object_class] holds the URL name for a singleton and the
    collection wrapper for a member of a collection. *)
Inductive owner : Type :=
| UrlName (url_name : string)
| Class (c : SimpleClass.t).

Record t : Type := mk {
  _api : BillogramAPI.t;
  _object_class : owner;
  _data : json
}.

Definition with_data (self : t) (d : json) : t :=
  mk (_api self) (_object_class self) d.
End RemoteObject.

(** Dict objects live in a store and are named by their index, so that
    two queries can hold the same dict. *)
Definition ref : Type := nat.
Definition heap : Type := list dict.

Definition deref (h : heap) (r : ref) : dict := nth r h [].

(** A new dict object with the given contents. *)
Definition alloc (h : heap) (d : dict) : heap * ref :=
  ((h ++ [d])%list, List.length h).

Module Query.
Record t : Type := mk {
  _type_class : SimpleClass.t;
  _filter : ref;
  _count_cached : json;
  _page_size : Z;
  _order : ref
}.
End Query.

(** The state a query method runs in: the query object itself, the store
    of dict objects and the requests issued so far. *)
Record qstate : Type := mk_qstate {
  q_self : Query.t;
  q_heap : heap;
  q_log : world
}.

(** ** Stateful computations that may raise *)

Definition M (S A : Type) : Type := S -> result A * S.

Definition ret {S A : Type} (a : A) : M S A := fun s => (Ok a, s).

Definition throw {S A : Type} (e : exn) : M S A := fun s => (Raise e, s).

Definition bind {S A B : Type} (m : M S A) (k : A -> M S B) : M S B :=
  fun s =>
    match m s with
    | (Ok a, s') => k a s'
    | (Raise e, s') => (Raise e, s')
    end.

Definition lift {S A : Type} (r : result A) : M S A := fun s => (r, s).

(** [assert b] *)
Definition assert_ {S : Type} (b : bool) : M S unit :=
  if b then ret tt else throw (Builtin AssertionError).

(** [try: body  except Exception as e: handler(e)] *)
Definition try_except {S A : Type} (body : M S A) (handler : exn -> M S A)
  : M S A :=
  fun s =>
    match body s with
    | (Ok a, s') => (Ok a, s')
    | (Raise e, s') => handler e s'
    end.

Declare Scope prog_scope.
Delimit Scope prog_scope with prog.
Notation "x <- m ;; k" := (bind m (fun x => k))
  (at level 61, m at next level, right associativity) : prog_scope.
Notation "m ;; k" := (bind m (fun _ => k))
  (at level 61, right associativity) : prog_scope.

(** A transport call made from a method of an object [O]. *)
Definition on_world {O A : Type} (m : M world A) : M (O * world) A :=
  fun s =>
    let '(r, w') := m (snd s) in (r, (fst s, w')).

Definition get_self {O : Type} : M (O * world) O := fun s => (Ok (fst s), s).

Definition put_self {O : Type} (o : O) : M (O * world) unit :=
  fun s => (Ok tt, (o, snd s)).

(** Running the methods of a local object [o] from a caller that only
    has the world; the object is handed back as the calls left it. *)
Definition with_object {O A : Type} (o : O) (m : M (O * world) A)
  : M world O :=
  fun w =>
    match m (o, w) with
    | (Ok _, (o', w')) => (Ok o', w')
    | (Raise e, (_, w')) => (Raise e, w')
    end.

(** ** The connection object and its lazily built sub-resources *)

Module Connection.
(** The whole of a [BillogramAPI] instance: the settings of the
    connection and the six slots that hold the wrappers once built. *)
Record t : Type := mk {
  api : BillogramAPI.t;
  _items : option SimpleClass.t;
  _customers : option SimpleClass.t;
  _billogram : option SimpleClass.t;
  _settings : option RemoteObject.t;
  _logotype : option RemoteObject.t;
  _reports : option SimpleClass.t
}.

(** [BillogramAPI(auth_user, auth_key, user_agent=None, api_base=None)]:
    every slot starts as [None]. *)
Definition __init__ (auth_user auth_key : string)
    (user_agent api_base : option string) : t :=
  mk (BillogramAPI.__init__ auth_user auth_key user_agent api_base)
    None None None None None None.

(** The [items] property. *)
Definition items (self : t) : SimpleClass.t * t :=
  match _items self with
  | Some c => (c, self)
  | None =>
      let c := SimpleClass.__init__ (api self) "item" "item_no" in
      (c, mk (api self) (Some c) (_customers self) (_billogram self)
            (_settings self) (_logotype self) (_reports self))
  end.

(** The [customers] property. *)
Definition customers (self : t) : SimpleClass.t * t :=
  match _customers self with
  | Some c => (c, self)
  | None =>
      let c := SimpleClass.__init__ (api self) "customer" "customer_no" in
      (c, mk (api self) (_items self) (Some c) (_billogram self)
            (_settings self) (_logotype self) (_reports self))
  end.

(** The [billogram] property. *)
Definition billogram (self : t) : SimpleClass.t * t :=
  match _billogram self with
  | Some c => (c, self)
  | None =>
      let c := BillogramClass (api self) in
      (c, mk (api self) (_items self) (_customers self) (Some c)
            (_settings self) (_logotype self) (_reports self))
  end.

(** The [settings] property. *)
Definition settings (self : t) : RemoteObject.t * t :=
  match _settings self with
  | Some o => (o, self)
  | None =>
      let o := RemoteObject.mk (api self) (RemoteObject.UrlName "settings")
                 JNull in
      (o, mk (api self) (_items self) (_customers self) (_billogram self)
            (Some o) (_logotype self) (_reports self))
  end.

(** The [logotype] property. *)
Definition logotype (self : t) : RemoteObject.t * t :=
  match _logotype self with
  | Some o => (o, self)
  | None =>
      let o := RemoteObject.mk (api self) (RemoteObject.UrlName "logotype")
                 JNull in
      (o, mk (api self) (_items self) (_customers self) (_billogram self)
            (_settings self) (Some o) (_reports self))
  end.

(** The [reports] property. *)
Definition reports (self : t) : SimpleClass.t * t :=
  match _reports self with
  | Some c => (c, self)
  | None =>
      let c := SimpleClass.__init__ (api self) "report" "filename" in
      (c, mk (api self) (_items self) (_customers self) (_billogram self)
            (_settings self) (_logotype self) (Some c))
  end.

(** The six properties by name, and what each slot holds. *)
Inductive subresource : Type :=
| Items | Customers | Billogram | Settings | Logotype | Reports.

Inductive wrapper : Type :=
| Collection (c : SimpleClass.t)
| Singleton (o : RemoteObject.t).

Definition access (r : subresource) (self : t) : wrapper * t :=
  match r with
  | Items => let '(c, self') := items self in (Collection c, self')
  | Customers => let '(c, self') := customers self in (Collection c, self')
  | Billogram => let '(c, self') := billogram self in (Collection c, self')
  | Settings => let '(o, self') := settings self in (Singleton o, self')
  | Logotype => let '(o, self') := logotype self in (Singleton o, self')
  | Reports => let '(c, self') := reports self in (Collection c, self')
  end.

Definition slot (r : subresource) (self : t) : option wrapper :=
  match r with
  | Items => option_map Collection (_items self)
  | Customers => option_map Collection (_customers self)
  | Billogram => option_map Collection (_billogram self)
  | Settings => option_map Singleton (_settings self)
  | Logotype => option_map Singleton (_logotype self)
  | Reports => option_map Collection (_reports self)
  end.

(** The object in the settings slot after a method changed it in
    place. *)
Definition with_settings (self : t) (o : RemoteObject.t) : t :=
  mk (api self) (_items self) (_customers self) (_billogram self)
    (Some o) (_logotype self) (_reports self).
End Connection.

(** [api.settings.<method>(...)]: the property hands out the object kept
    in the slot, and the method works on that very object. *)
Definition on_settings {A : Type} (m : M (RemoteObject.t * world) A)
  : M (Connection.t * world) A :=
  fun s =>
    let '(o, c) := Connection.settings (fst s) in
    let '(r, (o', w')) := m (o, snd s) in
    (r, (Connection.with_settings c o', w')).

(** ** The status table as the documentation words it *)

(** Server status to error kind, row by row; anything unlisted is a
    generic request-data error. *)
Definition documented_kind (status : string) : error_class :=
  if String.eqb status "MISSING_QUERY_PARAMETER" then RequestFormError
  else if String.eqb status "INVALID_QUERY_PARAMETER" then RequestFormError
  else if String.eqb status "INVALID_PARAMETER" then InvalidFieldValueError
  else if String.eqb status "INVALID_PARAMETER_COMBINATION"
       then InvalidFieldCombinationError
  else if String.eqb status "READ_ONLY_PARAMETER" then ReadOnlyFieldError
  else if String.eqb status "UNKNOWN_PARAMETER" then UnknownFieldError
  else if String.eqb status "INVALID_OBJECT_STATE" then InvalidObjectStateError
  else RequestDataError.

(** The effective expected content type is JSON: none was asked for, JSON
    was asked for, or the request failed. *)
Definition expects_json (resp : Response) (expect_content_type : option string)
  : Prop :=
  expect_content_type = None
  \/ expect_content_type = Some "application/json"
  \/ ok resp = false.

(** The status code reaches the last branch of the classifier. *)
Definition table_branch_code (code : Z) : Prop :=
  in_range code 500 600 = false /\ code <> 403 /\ code <> 404 /\ code <> 405.

Section Client.

(** [str(v)] as used by ['{}'.format(v)]; it differs between the two
    interpreters the module supports, so it is left open. *)
Variable py_str : json -> string.

Local Open Scope result_scope.

(** The first statement of the classifier: a failed request, or no
    expectation given, means JSON is expected. *)
Definition expected_content_type
    (resp : Response) (expect_content_type : option string) : string :=
  match expect_content_type with
  | Some e => if negb (ok resp) then "application/json" else e
  | None => "application/json"
  end.

(** [BillogramAPI._check_api_response(resp, expect_content_type)] *)
Definition _check_api_response
    (resp : Response) (expect_content_type : option string) : result retval :=
  let expect_content_type := expected_content_type resp expect_content_type in
  if in_range (status_code resp) 500 600 then
    ct <- resp_header_content_type resp ;;
    if String.eqb ct expect_content_type
       && String.eqb expect_content_type "application/json"
    then
      data <- resp_json resp ;;
      st <- py_get data "status" ;;
      dd <- py_get data "data" ;;
      msg <- py_get dd "message" ;;
      raise_msg ServiceMalfunctioningError
        ("Billogram API reported a server error: "
           ++ py_str st ++ " - " ++ py_str msg)
    else
      raise_msg ServiceMalfunctioningError
        "Billogram API reported a server error"
  else
    ct <- resp_header_content_type resp ;;
    if negb (String.eqb ct expect_content_type) then
      if String.eqb ct "application/json" then
        data <- resp_json resp ;;
        st <- py_get data "status" ;;
        if eq_str st "NOT_AVAILABLE_YET" then
          raise_msg ObjectNotAvailableYetError "Object not available yet"
        else
          raise_msg ServiceMalfunctioningError
            "Billogram API returned unexpected content type"
      else
        raise_msg ServiceMalfunctioningError
          "Billogram API returned unexpected content type"
    else if negb (String.eqb expect_content_type "application/json") then
      Ok (RawContent (content resp))
    else
      data <- resp_json resp ;;
      status <- py_get data "status" ;;
      if negb (truthy status) then
        raise_msg ServiceMalfunctioningError
          "Response data missing status field"
      else
        present <- (match data with
                    | JObj d => Ok (dict_has "data" d)
                    | _ => Raise (Builtin TypeError)
                    end) ;;
        if negb present then
          raise_msg ServiceMalfunctioningError
            "Response data missing data field"
        else if status_code resp =? 403 then
          if eq_str status "PERMISSION_DENIED" then
            raise_msg NotAuthorizedError
              "Not allowed to perform the requested operation"
          else if eq_str status "INVALID_AUTH" then
            raise_msg InvalidAuthenticationError
              "The user/key combination is wrong, check the credentials                      used and possibly generate a new set"
          else if eq_str status "MISSING_AUTH" then
            raise_msg RequestFormError "No authentication data was given"
          else
            raise_msg PermissionDeniedError
              ("Permission denied, status=" ++ py_str status)
        else if status_code resp =? 404 then
          st <- py_get data "status" ;;
          if eq_str st "NOT_AVAILABLE_YET" then
            raise_msg ObjectNotFoundError "Object not available yet"
          else
            raise_msg ObjectNotFoundError "Object not found"
        else if status_code resp =? 405 then
          raise_msg RequestFormError "Invalid HTTP method"
        else if eq_str status "OK" then
          Ok (Decoded data)
        else
          errordata <- py_get data "data" ;;
          cls <- status_table_get status ;;
          raise_splat cls errordata.

(** ** Transport *)

(** The remote end: its answer may depend on every request seen so far. *)
Variable remote : list Request -> Request -> reply.

Local Open Scope prog_scope.

(** One HTTP exchange; the request is recorded whether or not an answer
    comes back. *)
Definition perform (rq : Request) : M world Response :=
  fun log =>
    match remote log rq with
    | Reply resp => (Ok resp, (log ++ [rq])%list)
    | NoReply reason => (Raise (TransportError reason), (log ++ [rq])%list)
    end.

(** [BillogramAPI.get(obj, params=None, expect_content_type=None)] *)
Definition BillogramAPI_get (self : BillogramAPI.t) (obj : string)
    (params : json) (expect_content_type : option string) : M world retval :=
  let url := BillogramAPI._api_base self ++ "/" ++ obj in
  resp <- perform
            (mk_request GET url (BillogramAPI._auth self) params None
               [("user-agent", BillogramAPI._user_agent self)]) ;;
  lift (_check_api_response resp expect_content_type).

(** [BillogramAPI.post(obj, data)] *)
Definition BillogramAPI_post (self : BillogramAPI.t) (obj : string)
    (data : json) : M world retval :=
  let url := BillogramAPI._api_base self ++ "/" ++ obj in
  resp <- perform
            (mk_request POST url (BillogramAPI._auth self) JNull (Some data)
               [("content-type", "application/json");
                ("user-agent", BillogramAPI._user_agent self)]) ;;
  lift (_check_api_response resp None).

(** [BillogramAPI.put(obj, data)] *)
Definition BillogramAPI_put (self : BillogramAPI.t) (obj : string)
    (data : json) : M world retval :=
  let url := BillogramAPI._api_base self ++ "/" ++ obj in
  resp <- perform
            (mk_request PUT url (BillogramAPI._auth self) JNull (Some data)
               [("content-type", "application/json");
                ("user-agent", BillogramAPI._user_agent self)]) ;;
  lift (_check_api_response resp None).

(** [BillogramAPI.delete(obj)] *)
Definition BillogramAPI_delete (self : BillogramAPI.t) (obj : string)
  : M world retval :=
  let url := BillogramAPI._api_base self ++ "/" ++ obj in
  resp <- perform
            (mk_request DELETE url (BillogramAPI._auth self) JNull None
               [("user-agent", BillogramAPI._user_agent self)]) ;;
  lift (_check_api_response resp None).

(** ** Remote objects *)

(** [SimpleClass._url_of(obj=None, obj_id=None)].  When no id is given
    the id is read with [obj[field]].  On [None] that is a [TypeError].
    On a remote object it is [obj.data[field]], and on a member whose
    [_data] is [None] the [data] property calls [refresh], which needs
    [_url] again: the calls nest without end and the interpreter raises
    its recursion error. *)
Definition _url_of (self : SimpleClass.t) (obj : option RemoteObject.t)
    (obj_id : json) : result string :=
  (obj_id <- (if is_None obj_id then
                match obj with
                | None => Raise (Builtin TypeError)
                | Some o =>
                    if is_None (RemoteObject._data o)
                    then Raise (Builtin RecursionError)
                    else py_getitem (RemoteObject._data o)
                           (SimpleClass._object_id_field self)
                end
              else Ok obj_id) ;;
   Ok (SimpleClass._url_name self ++ "/" ++ py_str obj_id))%res.

(** The [_url] property: [SingletonObject] returns its URL name,
    [SimpleObject] asks its collection. *)
Definition _url (self : RemoteObject.t) : result string :=
  match RemoteObject._object_class self with
  | RemoteObject.UrlName url_name => Ok url_name
  | RemoteObject.Class c => _url_of c (Some self) JNull
  end.

Definition set_data (d : json) : M (RemoteObject.t * world) unit :=
  self <- get_self ;;
  put_self (RemoteObject.with_data self d).

(** [SingletonObject.refresh()] *)
Definition refresh : M (RemoteObject.t * world) unit :=
  self <- get_self ;;
  url <- lift (_url self) ;;
  resp <- on_world (BillogramAPI_get (RemoteObject._api self) url JNull None) ;;
  d <- lift (retval_getitem resp "data") ;;
  set_data d.

(** [SingletonObject.update(data)] *)
Definition update (data : json) : M (RemoteObject.t * world) unit :=
  self <- get_self ;;
  url <- lift (_url self) ;;
  resp <- on_world (BillogramAPI_put (RemoteObject._api self) url data) ;;
  d <- lift (retval_getitem resp "data") ;;
  set_data d.

(** The [data] property: fetched on first access. *)
Definition data : M (RemoteObject.t * world) json :=
  self <- get_self ;;
  (if is_None (RemoteObject._data self) then refresh else ret tt) ;;
  self <- get_self ;;
  ret (RemoteObject._data self).

(** [SingletonObject.__getitem__(key)] *)
Definition __getitem__ (key : string) : M (RemoteObject.t * world) json :=
  d <- data ;;
  lift (py_getitem d key).









(** [SimpleObject.delete()] *)
Definition delete : M (RemoteObject.t * world) unit :=
  self <- get_self ;;
  url <- lift (_url self) ;;
  _ <- on_world (BillogramAPI_delete (RemoteObject._api self) url) ;;
  ret tt.

(** [BillogramObject.perform_event(evt_name, evt_data=None)] *)
Definition perform_event (evt_name : string) (evt_data : json)
  : M (RemoteObject.t * world) unit :=
  self <- get_self ;;
  base <- lift (_url self) ;;
  let url := base ++ "/command/" ++ evt_name in
  resp <- on_world (BillogramAPI_post (RemoteObject._api self) url evt_data) ;;
  d <- lift (retval_getitem resp "data") ;;
  set_data d.

(** [BillogramObject.send(method)] *)
Definition send (method : json) : M (RemoteObject.t * world) unit :=
  assert_ (in_strs method ["Email"; "Letter"; "Email+Letter"]) ;;
  perform_event "send" (JObj [("method", method)]).

(** [SimpleClass.create(data)] *)
Definition create (self : SimpleClass.t) (data : json)
  : M world RemoteObject.t :=
  resp <- BillogramAPI_post (SimpleClass._api self)
            (SimpleClass._url_name self) data ;;
  d <- lift (retval_getitem resp "data") ;;
  ret (RemoteObject.mk (SimpleClass._api self) (RemoteObject.Class self) d).

(** [SimpleClass.get(object_id)]: the URL is [_url_of(obj_id=object_id)],
    formed before anything is sent. *)
Definition get (self : SimpleClass.t) (object_id : json)
  : M world RemoteObject.t :=
  url <- lift (_url_of self None object_id) ;;
  resp <- BillogramAPI_get (SimpleClass._api self) url JNull None ;;
  d <- lift (retval_getitem resp "data") ;;
  ret (RemoteObject.mk (SimpleClass._api self) (RemoteObject.Class self) d).

(** [BillogramClass.create_and_send(data, method)] *)
Definition create_and_send (self : SimpleClass.t) (data : json) (method : json)
  : M world RemoteObject.t :=
  assert_ (in_strs method ["Email"; "Letter"; "Email+Letter"]) ;;
  billogram <- create self data ;;
  with_object billogram
    (try_except (send method)
       (fun e => delete ;; throw e)).

(** ** Queries *)

Definition q_get : M qstate Query.t := fun s => (Ok (q_self s), s).

Definition q_put (q : Query.t) : M qstate unit :=
  fun s => (Ok tt, mk_qstate q (q_heap s) (q_log s)).

Definition q_deref (r : ref) : M qstate dict :=
  fun s => (Ok (deref (q_heap s) r), s).

Definition q_alloc (d : dict) : M qstate ref :=
  fun s =>
    let '(h, r) := alloc (q_heap s) d in
    (Ok r, mk_qstate (q_self s) h (q_log s)).

Definition q_on_world {A : Type} (m : M world A) : M qstate A :=
  fun s =>
    let '(r, w) := m (q_log s) in
    (r, mk_qstate (q_self s) (q_heap s) w).

(** [Query(type_class)]: two fresh empty dicts, no cached count, page
    size 100. *)
Definition Query__init__ (type_class : SimpleClass.t) (h : heap)
  : Query.t * heap :=
  let '(h1, f) := alloc h [] in
  let '(h2, o) := alloc h1 [] in
  (Query.mk type_class f JNull 100 o, h2).

(** [Query._get_queryargs()] *)
Definition _get_queryargs : M qstate dict :=
  self <- q_get ;;
  let args := [] in
  f <- q_deref (Query._filter self) ;;
  let args := dict_update args f in
  o <- q_deref (Query._order self) ;;
  let args := dict_update args o in
  ret args.

Definition set_count_cached (v : json) : M qstate unit :=
  self <- q_get ;;
  q_put (Query.mk (Query._type_class self) (Query._filter self) v
           (Query._page_size self) (Query._order self)).

(** [Query._make_query(page_number=1, page_size=None)] *)
Definition _make_query (page_number : Z) (page_size : option Z)
  : M qstate retval :=
  self <- q_get ;;
  let query_args :=
    [ ("page_size",
       JInt (match page_size with
             | Some p => if p =? 0 then Query._page_size self else p
             | None => Query._page_size self
             end));
      ("page", JInt page_number) ] in
  extra <- _get_queryargs ;;
  let query_args := dict_update query_args extra in
  resp <- q_on_world
            (BillogramAPI_get (SimpleClass._api (Query._type_class self))
               (SimpleClass._url_name (Query._type_class self))
               (JObj query_args) None) ;;
  meta <- lift (retval_getitem resp "meta") ;;
  total_count <- lift (py_getitem meta "total_count") ;;
  set_count_cached total_count ;;
  ret resp.

(** The [count] property. *)
Definition count : M qstate json :=
  self <- q_get ;;
  (if is_None (Query._count_cached self)
   then (_ <- _make_query 1 (Some 1) ;; ret tt)
   else ret tt) ;;
  self <- q_get ;;
  ret (Query._count_cached self).

(** The [total_pages] property; [+] needs a number on the left and [//]
    a non-zero divisor. *)
Definition total_pages : M qstate Z :=
  c <- count ;;
  self <- q_get ;;
  match as_int c with
  | None => throw (Builtin TypeError)
  | Some n =>
      if Query._page_size self =? 0 then throw (Builtin ZeroDivisionError)
      else ret ((n + Query._page_size self - 1) / Query._page_size self)
  end.

(** The [page_size] setter, on a value already converted by [int]. *)
Definition set_page_size (value : Z) : M qstate unit :=
  assert_ (1 <=? value) ;;
  self <- q_get ;;
  q_put (Query.mk (Query._type_class self) (Query._filter self)
           (Query._count_cached self) value (Query._order self)).

Definition set_filter_ref (r : ref) : M qstate unit :=
  self <- q_get ;;
  q_put (Query.mk (Query._type_class self) r (Query._count_cached self)
           (Query._page_size self) (Query._order self)).

Definition set_order_ref (r : ref) : M qstate unit :=
  self <- q_get ;;
  q_put (Query.mk (Query._type_class self) (Query._filter self)
           (Query._count_cached self) (Query._page_size self) r).

(** The [filter] setter. *)
Definition set_filter (value : dict) : M qstate unit :=
  self <- q_get ;;
  current <- q_deref (Query._filter self) ;;
  if py_eq (JObj value) (JObj current) then ret tt
  else
    (if truthy (JObj value) then
       assert_ (dict_has "filter_type" value
                && dict_has "filter_field" value
                && dict_has "filter_value" value) ;;
       ft <- lift (py_getitem (JObj value) "filter_type") ;;
       assert_ (in_strs ft ["field"; "field-prefix"; "field-search"; "special"]) ;;
       r <- q_alloc value ;;
       set_filter_ref r
     else
       r <- q_alloc [] ;;
       set_filter_ref r) ;;
    set_count_cached JNull.

(** The [order] setter. *)
Definition set_order (value : dict) : M qstate unit :=
  if truthy (JObj value) then
    assert_ (dict_has "order_field" value && dict_has "order_direction" value) ;;
    od <- lift (py_getitem (JObj value) "order_direction") ;;
    assert_ (in_strs od ["asc"; "desc"]) ;;
    r <- q_alloc value ;;
    set_order_ref r
  else
    r <- q_alloc [] ;;
    set_order_ref r.

(** [Query.make_filter(filter_type, filter_field, filter_value)] *)
Definition make_filter (filter_type filter_field filter_value : json)
  : M qstate unit :=
  if is_None filter_type || is_None filter_field || is_None filter_value
  then set_filter []
  else set_filter [ ("filter_type", filter_type);
                    ("filter_field", filter_field);
                    ("filter_value", filter_value) ].

(** [Query.remove_filter()] *)
Definition remove_filter : M qstate unit := set_filter [].

Definition filter_field (field value : json) : M qstate unit :=
  make_filter (JStr "field") field value.

Definition filter_prefix (field value : json) : M qstate unit :=
  make_filter (JStr "field-prefix") field value.

Definition filter_search (field value : json) : M qstate unit :=
  make_filter (JStr "field-search") field value.

Definition filter_special (field value : json) : M qstate unit :=
  make_filter (JStr "special") field value.

Definition search (search_terms : json) : M qstate unit :=
  make_filter (JStr "special") (JStr "search") search_terms.

(** [for o in v]: lists give their items, dicts their keys, strings their
    characters; nothing else decoded from JSON is iterable. *)
Definition py_iter (v : json) : result (list json) :=
  match v with
  | JArr l => Ok l
  | JObj d => Ok (map (fun kv => JStr (fst kv)) d)
  | JStr s => Ok (map (fun c => JStr (String c "")) (list_ascii_of_string s))
  | _ => Raise (Builtin TypeError)
  end.

(** [Query.get_page(page_number)] *)
Definition get_page (page_number : Z) : M qstate (list RemoteObject.t) :=
  resp <- _make_query page_number None ;;
  self <- q_get ;;
  d <- lift (retval_getitem resp "data") ;;
  items <- lift (py_iter d) ;;
  ret (map (fun o =>
              RemoteObject.mk (SimpleClass._api (Query._type_class self))
                (RemoteObject.Class (Query._type_class self)) o)
         items).

(** *** The query objects of a program

    Two names can stand for one query object, and [copy.copy] makes
    another one.  So that the two can be told apart, the query objects
    of a program live in a store of their own and are named by their
    address; the caller and a generator each hold an address. *)
Definition qref : Type := nat.

Record pstate : Type := mk_pstate {
  p_objs : qref -> Query.t;
  p_next : qref;
  p_heap : heap;
  p_log : world
}.

Definition put_obj (r : qref) (q : Query.t) (objs : qref -> Query.t)
  : qref -> Query.t :=
  fun r' => if (r' =? r)%nat then q else objs r'.

(** A method called on the query object at [r]: [self] is that object,
    and what the method assigns to its attributes stays with it. *)
Definition on_query {A : Type} (r : qref) (m : M qstate A) : M pstate A :=
  fun s =>
    let '(x, s') := m (mk_qstate (p_objs s r) (p_heap s) (p_log s)) in
    (x, mk_pstate (put_obj r (q_self s') (p_objs s)) (p_next s)
          (q_heap s') (q_log s')).

(** The attribute values [copy.copy] gives the new instance: those of
    the original, hence the same dict objects. *)
Definition copy_query (q : Query.t) : Query.t :=
  Query.mk (Query._type_class q) (Query._filter q) (Query._count_cached q)
    (Query._page_size q) (Query._order q).

(** [copy.copy(obj)]: a new object at a new address. *)
Definition copy_copy (r : qref) (s : pstate) : qref * pstate :=
  (p_next s,
   mk_pstate (put_obj (p_next s) (copy_query (p_objs s r)) (p_objs s))
     (S (p_next s)) (p_heap s) (p_log s)).

(** *** [Query.iter_all()] as a generator

    Calling [iter_all] runs nothing: the generator only holds [self].
    The first [next] copies the query, reads [total_pages] of the copy
    once and enters the page loop.  A suspended generator keeps the
    address of its copy [qry], the number of pages of the [range] still
    to visit, the number of the next page and the objects of the current
    page not yet yielded. *)
Inductive generator : Type :=
| GenCreated (self : qref)
| GenSuspended (qry : qref) (pages_left : nat) (page_number : Z)
    (rest : list RemoteObject.t)
| GenFinished.

Inductive gen_item : Type :=
| Yield (o : RemoteObject.t)
| StopIteration
| GenRaise (e : exn).

(** The page loop from [page_number] on, up to the next [yield]. *)
Fixpoint pages_loop (pages_left : nat) (qry : qref) (page_number : Z)
    (s : pstate) : gen_item * generator * pstate :=
  match pages_left with
  | O => (StopIteration, GenFinished, s)
  | S n =>
      match on_query qry (get_page page_number) s with
      | (Raise e, s') => (GenRaise e, GenFinished, s')
      | (Ok [], s') => pages_loop n qry (page_number + 1) s'
      | (Ok (o :: rest), s') =>
          (Yield o, GenSuspended qry n (page_number + 1) rest, s')
      end
  end.

(** [next(g)] *)
Definition gen_next (g : generator) (s : pstate)
  : gen_item * generator * pstate :=
  match g with
  | GenCreated self =>
      let '(qry, s0) := copy_copy self s in
      match on_query qry total_pages s0 with
      | (Raise e, s') => (GenRaise e, GenFinished, s')
      | (Ok n, s') => pages_loop (Z.to_nat n) qry 1 s'
      end
  | GenSuspended qry pages_left page_number [] =>
      pages_loop pages_left qry page_number s
  | GenSuspended qry pages_left page_number (o :: rest) =>
      (Yield o, GenSuspended qry pages_left page_number rest, s)
  | GenFinished => (StopIteration, GenFinished, s)
  end.

(** The calls that change the parameters of a query. *)
Inductive mutation : Type :=
| SetPageSize (value : Z)
| SetFilter (value : dict)
| SetOrder (value : dict)
| MakeFilter (filter_type filter_field filter_value : json)
| RemoveFilter.

Definition mutate (m : mutation) : M qstate unit :=
  match m with
  | SetPageSize v => set_page_size v
  | SetFilter v => set_filter v
  | SetOrder v => set_order v
  | MakeFilter a b c => make_filter a b c
  | RemoveFilter => remove_filter
  end.

(** The dict object at [r] with new contents. *)
Fixpoint write_in_place (h : heap) (r : ref) (d : dict) : heap :=
  match h, r with
  | [], _ => []
  | _ :: h', O => d :: h'
  | x :: h', S r' => x :: write_in_place h' r' d
  end.

(** [q.filter[key] = value] and [q.order[key] = value]: the getters
    hand out the dict object the query holds, and the assignment writes
    into that object.  No method of the library does this. *)
Definition filter_setitem (key : string) (value : json) : M qstate unit :=
  fun s =>
    let r := Query._filter (q_self s) in
    (Ok tt,
     mk_qstate (q_self s)
       (write_in_place (q_heap s) r (dict_set key value (deref (q_heap s) r)))
       (q_log s)).

Definition order_setitem (key : string) (value : json) : M qstate unit :=
  fun s =>
    let r := Query._order (q_self s) in
    (Ok tt,
     mk_qstate (q_self s)
       (write_in_place (q_heap s) r (dict_set key value (deref (q_heap s) r)))
       (q_log s)).

(** What a caller can do to its query between two [next]: call one of
    the methods above, or write into a dict a getter gave it. *)
Inductive action : Type :=
| Call (m : mutation)
| FilterSetItem (key : string) (value : json)
| OrderSetItem (key : string) (value : json).

Definition act (a : action) : M qstate unit :=
  match a with
  | Call m => mutate m
  | FilterSetItem key value => filter_setitem key value
  | OrderSetItem key value => order_setitem key value
  end.

(** A run of such steps on the query at [self]; one that raises leaves
    the state as it was at the raise and the caller goes on. *)
Definition act_all (self : qref) (acts : list action) (s : pstate) : pstate :=
  fold_left (fun s a => snd (on_query self (act a) s)) acts s.

(** A caller that alternates steps on its query at [self] with [next]
    on the generator; the items the generator hands out, in order. *)
Fixpoint drive (self : qref) (schedule : list (list action)) (g : generator)
    (s : pstate) : list gen_item :=
  match schedule with
  | [] => []
  | acts :: schedule' =>
      let '(item, g', s') := gen_next g (act_all self acts s) in
      item :: drive self schedule' g' s'
  end.

(** ** The calls that replace the snapshot of a remote object *)

Inductive snapshot_call : Type :=
| Refresh
| Update (data : json)
| PerformEvent (evt_name : string) (evt_data : json).

Definition run_call (c : snapshot_call) : M (RemoteObject.t * world) unit :=
  match c with
  | Refresh => refresh
  | Update d => update d
  | PerformEvent n d => perform_event n d
  end.

(** The request each of them sends for an object whose URL is [url]. *)
Definition request_of (c : snapshot_call) (self : RemoteObject.t)
    (url : string) : Request :=
  let api := RemoteObject._api self in
  let base := BillogramAPI._api_base api in
  let agent := ("user-agent", BillogramAPI._user_agent api) in
  let json_type := ("content-type", "application/json") in
  match c with
  | Refresh =>
      mk_request GET (base ++ "/" ++ url) (BillogramAPI._auth api)
        JNull None [agent]
  | Update d =>
      mk_request PUT (base ++ "/" ++ url) (BillogramAPI._auth api)
        JNull (Some d) [json_type; agent]
  | PerformEvent n d =>
      mk_request POST (base ++ "/" ++ (url ++ "/command/" ++ n))
        (BillogramAPI._auth api) JNull (Some d) [json_type; agent]
  end.

(** The request [SimpleObject.delete] sends for an object at [url]. *)
Definition delete_request (api : BillogramAPI.t) (url : string) : Request :=
  mk_request DELETE (BillogramAPI._api_base api ++ "/" ++ url)
    (BillogramAPI._auth api) JNull None
    [("user-agent", BillogramAPI._user_agent api)].

(** ** Pages *)

(** The integer ceiling of the quotient [c / p], taken over the
    rationals. *)
Definition ceiling_quotient (c p : Z) : Z :=
  Qceiling (Qdiv (inject_Z c) (inject_Z p)).

(** The request [_make_query(page_number, page_size)] sends. *)
Definition query_request (s : qstate) (page_number : Z) (page_size : option Z)
  : Request :=
  let q := q_self s in
  let api := SimpleClass._api (Query._type_class q) in
  mk_request GET
    (BillogramAPI._api_base api ++ "/"
       ++ SimpleClass._url_name (Query._type_class q))
    (BillogramAPI._auth api)
    (JObj (dict_update
             [ ("page_size",
                JInt (match page_size with
                      | Some p => if p =? 0 then Query._page_size q else p
                      | None => Query._page_size q
                      end));
               ("page", JInt page_number) ]
             (dict_update (dict_update [] (deref (q_heap s) (Query._filter q)))
                (deref (q_heap s) (Query._order q)))))
    None
    [("user-agent", BillogramAPI._user_agent api)].

(** The request a read of [count] sends when nothing is cached: page 1
    with page size 1, plus the filter and order parameters. *)
Definition count_request (s : qstate) : Request :=
  query_request s 1 (Some 1).

(** The query with another cached count. *)
Definition with_count (q : Query.t) (v : json) : Query.t :=
  Query.mk (Query._type_class q) (Query._filter q) v
    (Query._page_size q) (Query._order q).

(** The envelope of a successful collection response that reports
    [total_count]. *)
Definition collection_envelope (env : dict) (total_count : json) : Prop :=
  dict_get "status" env = Some (JStr "OK")
  /\ (exists items, dict_get "data" env = Some (JArr items))
  /\ (exists meta, dict_get "meta" env = Some (JObj meta)
                   /\ dict_get "total_count" meta = Some total_count).

(** Two query objects with the same parameters; only the cached count
    may differ. *)
Definition same_params (q q' : Query.t) : Prop :=
  Query._type_class q' = Query._type_class q
  /\ Query._filter q' = Query._filter q
  /\ Query._page_size q' = Query._page_size q
  /\ Query._order q' = Query._order q.

(** ** Filter specifications *)

(** A complete specification as documented: type, field and value are
    all given and the type is one of the four kinds. *)
Definition complete_filter (value : dict) : bool :=
  dict_has "filter_type" value
  && dict_has "filter_field" value
  && dict_has "filter_value" value
  && match dict_get "filter_type" value with
     | Some t => in_strs t ["field"; "field-prefix"; "field-search"; "special"]
     | None => false
     end.

(** A dict has each key once. *)
Definition unique_keys (d : dict) : Prop := NoDup (map fst d).

(** The filter a query holds is empty or complete: what the constructor
    and the setter leave behind. *)
Definition valid_filter (s : qstate) : Prop :=
  let current := deref (q_heap s) (Query._filter (q_self s)) in
  current = [] \/ complete_filter current = true.

(** The query after an accepted filter assignment: a new dict object,
    no cached count. *)
Definition filter_assigned (s : qstate) (value : dict) : qstate :=
  let q := q_self s in
  mk_qstate
    (Query.mk (Query._type_class q) (List.length (q_heap s)) JNull
       (Query._page_size q) (Query._order q))
    (q_heap s ++ [value])%list
    (q_log s).

(** ** Reading the count between other calls *)




(** ** Iterations and the dict store *)

(** The dict objects a query refers to exist in the store. *)
Definition refs_valid (h : heap) (q : Query.t) : Prop :=
  (Query._filter q < List.length h)%nat /\ (Query._order q < List.length h)%nat.






(** A program whose one query object, at address 0, is that of [s]. *)
Definition program (s : qstate) : pstate :=
  mk_pstate (fun _ => q_self s) 1%nat (q_heap s) (q_log s).

(** Up to the status-code dispatch: a JSON response that carries a true
    [status] and a [data] key gets past the envelope checks. *)
Definition dispatch (resp : Response) (env : dict) (status : json)
  : result retval :=
  (if status_code resp =? 403 then
     if eq_str status "PERMISSION_DENIED" then
       raise_msg NotAuthorizedError
         "Not allowed to perform the requested operation"
     else if eq_str status "INVALID_AUTH" then
       raise_msg InvalidAuthenticationError
         "The user/key combination is wrong, check the credentials                      used and possibly generate a new set"
     else if eq_str status "MISSING_AUTH" then
       raise_msg RequestFormError "No authentication data was given"
     else
       raise_msg PermissionDeniedError
         ("Permission denied, status=" ++ py_str status)
   else if status_code resp =? 404 then
     if eq_str status "NOT_AVAILABLE_YET" then
       raise_msg ObjectNotFoundError "Object not available yet"
     else
       raise_msg ObjectNotFoundError "Object not found"
   else if status_code resp =? 405 then
     raise_msg RequestFormError "Invalid HTTP method"
   else if eq_str status "OK" then
     Ok (Decoded (JObj env))
   else
     (cls <- status_table_get status ;;
      raise_splat cls (kw_get "data" env))%res).

(** A query as the library keeps it: its dicts exist and its filter is
    empty or complete. *)
Definition well_formed (s : qstate) : Prop :=
  refs_valid (q_heap s) (q_self s) /\ valid_filter s.

(** ** Events on billogram objects *)

(** [BillogramObject.create_payment(amount)], for a whole amount. *)
Definition create_payment (amount : Z) : M (RemoteObject.t * world) unit :=
  assert_ (0 <? amount) ;;
  perform_event "payment" (JObj [("amount", JInt amount)]).

(** [BillogramObject.credit_amount(amount)], for a whole amount. *)
Definition credit_amount (amount : Z) : M (RemoteObject.t * world) unit :=
  assert_ (0 <? amount) ;;
  perform_event "credit"
    (JObj [("mode", JStr "amount"); ("amount", JInt amount)]).

(** [BillogramObject.credit_full()] *)
Definition credit_full : M (RemoteObject.t * world) unit :=
  perform_event "credit" (JObj [("mode", JStr "full")]).

(** [BillogramObject.credit_remaining()] *)
Definition credit_remaining : M (RemoteObject.t * world) unit :=
  perform_event "credit" (JObj [("mode", JStr "remaining")]).

(** [BillogramObject.send_message(message)] *)
Definition send_message (message : json) : M (RemoteObject.t * world) unit :=
  perform_event "message" (JObj [("message", message)]).

(** [BillogramObject.send_to_collector()] *)
Definition send_to_collector : M (RemoteObject.t * world) unit :=
  perform_event "collect" JNull.

(** [BillogramObject.send_to_factoring()] *)
Definition send_to_factoring : M (RemoteObject.t * world) unit :=
  perform_event "sell" JNull.

(** [BillogramObject.send_reminder(method=None)] *)
Definition send_reminder (method : json) : M (RemoteObject.t * world) unit :=
  if truthy method then
    assert_ (in_strs method ["Email"; "Letter"]) ;;
    perform_event "remind" (JObj [("method", method)])
  else perform_event "remind" JNull.

(** [BillogramObject.resend(method=None)] *)
Definition resend (method : json) : M (RemoteObject.t * world) unit :=
  if truthy method then
    assert_ (in_strs method ["Email"; "Letter"]) ;;
    perform_event "resend" (JObj [("method", method)])
  else perform_event "resend" JNull.

(** [base64.b64decode], which may refuse its input. *)
Variable b64decode : json -> result string.

(** [BillogramObject.get_invoice_pdf(letter_id=None, invoice_no=None)] *)
Definition get_invoice_pdf (letter_id invoice_no : json)
  : M (RemoteObject.t * world) string :=
  self <- get_self ;;
  base <- lift (_url self) ;;
  let url := base ++ ".pdf" in
  let params := [] in
  let params :=
    if truthy letter_id then dict_set "letter_id" letter_id params
    else params in
  let params :=
    if truthy invoice_no then dict_set "invoice_no" invoice_no params
    else params in
  resp <- on_world (BillogramAPI_get (RemoteObject._api self) url
                      (JObj params) (Some "application/json")) ;;
  d <- lift (retval_getitem resp "data") ;;
  c <- lift (py_getitem d "content") ;;
  lift (b64decode c).

(** [BillogramObject.get_attachment_pdf(letter_id=None, invoice_no=None)] *)
Definition get_attachment_pdf (letter_id invoice_no : json)
  : M (RemoteObject.t * world) string :=
  self <- get_self ;;
  base <- lift (_url self) ;;
  let url := base ++ "/attachment.pdf" in
  resp <- on_world (BillogramAPI_get (RemoteObject._api self) url
                      JNull (Some "application/json")) ;;
  d <- lift (retval_getitem resp "data") ;;
  c <- lift (py_getitem d "content") ;;
  lift (b64decode c).

(** The event methods as calls, with what each checks locally and what
    it posts. *)
Inductive event_call : Type :=
| CreatePayment (amount : Z)
| CreditAmount (amount : Z)
| CreditFull
| CreditRemaining
| SendMessage (message : json)
| SendToCollector
| SendToFactoring
| SendReminder (method : json)
| Send (method : json)
| Resend (method : json).

Definition run_event (c : event_call) : M (RemoteObject.t * world) unit :=
  match c with
  | CreatePayment a => create_payment a
  | CreditAmount a => credit_amount a
  | CreditFull => credit_full
  | CreditRemaining => credit_remaining
  | SendMessage m => send_message m
  | SendToCollector => send_to_collector
  | SendToFactoring => send_to_factoring
  | SendReminder m => send_reminder m
  | Send m => send m
  | Resend m => resend m
  end.

(** The arguments pass the assertions of the method. *)
Definition locally_valid (c : event_call) : bool :=
  match c with
  | CreatePayment a | CreditAmount a => 0 <? a
  | SendReminder m | Resend m =>
      negb (truthy m) || in_strs m ["Email"; "Letter"]
  | Send m => in_strs m ["Email"; "Letter"; "Email+Letter"]
  | _ => true
  end.

(** ** More of the collections *)

(** [isinstance(s, basestring)] *)
Definition is_str (v : json) : bool :=
  match v with JStr _ => true | _ => false end.

(** The text of the strings among the values. *)
Fixpoint strs (vs : list json) : list string :=
  match vs with
  | [] => []
  | JStr s :: vs' => s :: strs vs'
  | _ :: vs' => strs vs'
  end.

(** [BillogramQuery.filter_state_any( *states )]: [states] is the tuple
    of arguments; a single list argument stands for its items. *)
Definition filter_state_any (states : list json) : M qstate unit :=
  let states :=
    match states with
    | [JArr l] => l
    | _ => states
    end in
  assert_ (forallb is_str states) ;;
  filter_field (JStr "state") (JStr (String.concat "," (strs states))).

(** [BillogramClass.create_and_sell(data)]: the caller's dict is written
    to, so it is part of the state. *)
Definition create_and_sell (self : SimpleClass.t)
  : M (dict * world) RemoteObject.t :=
  data <- get_self ;;
  put_self (dict_set "_event" (JStr "sell") data) ;;
  data <- get_self ;;
  on_world (create self (JObj data)).

(** [SimpleClass.query()] and [BillogramClass.query()] both build a
    query with the defaults of [Query]; the subclass only adds methods. *)
Definition query (self : SimpleClass.t) (h : heap) : Query.t * heap :=
  Query__init__ self h.

(** ** The pages of an iteration, fetched at once *)

(** The two loops of [iter_all] without the [yield]: the objects of
    [pages_left] pages from [page_number] on, and how the loops end. *)
Fixpoint eager_pages (pages_left : nat) (qry : qref) (page_number : Z)
    (s : pstate) : list RemoteObject.t * gen_item * pstate :=
  match pages_left with
  | O => ([], StopIteration, s)
  | S n =>
      match on_query qry (get_page page_number) s with
      | (Raise e, s') => ([], GenRaise e, s')
      | (Ok page, s') =>
          let '(objs, last, s'') := eager_pages n qry (page_number + 1) s' in
          ((page ++ objs)%list, last, s'')
      end
  end.

(** The request for page [page_number] of a query over a store. *)
Definition page_request (qry : Query.t) (h : heap) (page_number : Z)
  : Request :=
  query_request (mk_qstate qry h []) page_number None.

(** [count] calls of [next] with the query left alone. *)
Definition nexts (count : nat) : list (list action) := repeat [] count.

(** The page size is at least one. *)
Definition page_size_ok (s : qstate) : Prop :=
  1 <= Query._page_size (q_self s).

(** A complete order specification: field and direction are given and
    the direction is one of the two. *)
Definition complete_order (value : dict) : bool :=
  dict_has "order_field" value
  && dict_has "order_direction" value
  && match dict_get "order_direction" value with
     | Some d => in_strs d ["asc"; "desc"]
     | None => false
     end.

(** The query after an accepted order assignment. *)
Definition order_assigned (s : qstate) (value : dict) : qstate :=
  let q := q_self s in
  mk_qstate
    (Query.mk (Query._type_class q) (Query._filter q) (Query._count_cached q)
       (Query._page_size q) (List.length (q_heap s)))
    (q_heap s ++ [value])%list
    (q_log s).

(** The last binding of a key, which is the one that counts when the
    entries are written one after the other. *)
Definition dict_last (k : string) (d : dict) : option json :=
  dict_get k (rev d).

(** ** Reading an error and calling any method of an object *)

(** [e.extra_data.get(k)], with nothing to find when there is no extra
    data. *)
Definition extra_get (k : string) (e : api_error) : option json :=
  match err_extra_data e with
  | JObj x => dict_get k x
  | _ => None
  end.

(** The calls a holder of a remote object can make on it. *)
Inductive object_method : Type :=
| Snapshot (c : snapshot_call)
| Event (c : event_call)
| Delete
| Data
| GetItem (key : string)
| InvoicePdf (letter_id invoice_no : json)
| AttachmentPdf (letter_id invoice_no : json).

(** The effect of such a call; what it returns is dropped. *)
Definition run_method (m : object_method) : M (RemoteObject.t * world) unit :=
  match m with
  | Snapshot c => run_call c
  | Event c => run_event c
  | Delete => delete
  | Data => _ <- data ;; ret tt
  | GetItem key => _ <- __getitem__ key ;; ret tt
  | InvoicePdf a b => _ <- get_invoice_pdf a b ;; ret tt
  | AttachmentPdf a b => _ <- get_attachment_pdf a b ;; ret tt
  end.

(** A request made in the name of a connection: its credentials, its
    user agent, and a URL under its base. *)
Definition sent_by (api : BillogramAPI.t) (rq : Request) : Prop :=
  req_auth rq = BillogramAPI._auth api
  /\ In ("user-agent", BillogramAPI._user_agent api) (req_headers rq)
  /\ exists path, req_url rq = BillogramAPI._api_base api ++ "/" ++ path.

(** The event each call posts and the data it posts with it. *)
Definition event_name (c : event_call) : string :=
  match c with
  | CreatePayment _ => "payment"
  | CreditAmount _ | CreditFull | CreditRemaining => "credit"
  | SendMessage _ => "message"
  | SendToCollector => "collect"
  | SendToFactoring => "sell"
  | SendReminder _ => "remind"
  | Send _ => "send"
  | Resend _ => "resend"
  end.

Definition event_data (c : event_call) : json :=
  match c with
  | CreatePayment a => JObj [("amount", JInt a)]
  | CreditAmount a => JObj [("mode", JStr "amount"); ("amount", JInt a)]
  | CreditFull => JObj [("mode", JStr "full")]
  | CreditRemaining => JObj [("mode", JStr "remaining")]
  | SendMessage m => JObj [("message", m)]
  | SendToCollector | SendToFactoring => JNull
  | SendReminder m | Resend m =>
      if truthy m then JObj [("method", m)] else JNull
  | Send m => JObj [("method", m)]
  end.

(** A computation on an object that sends nothing and keeps the
    connection of the object, from a given state. *)
Definition silent_at {A : Type} (m : M (RemoteObject.t * world) A)
    (o : RemoteObject.t) (w : world) : Prop :=
  snd (snd (m (o, w))) = w
  /\ RemoteObject._api (fst (snd (m (o, w)))) = RemoteObject._api o.

(** One that sends at most one request, in the name of the connection
    of the object. *)
Definition one_at {A : Type} (m : M (RemoteObject.t * world) A)
    (o : RemoteObject.t) (w : world) : Prop :=
  (exists sent,
      snd (snd (m (o, w))) = (w ++ sent)%list
      /\ (List.length sent <= 1)%nat
      /\ Forall (sent_by (RemoteObject._api o)) sent)
  /\ RemoteObject._api (fst (snd (m (o, w)))) = RemoteObject._api o.

(** The request [SimpleClass.create] and [SimpleClass.get] send. *)
Definition create_request (self : SimpleClass.t) (data : json) : Request :=
  let api := SimpleClass._api self in
  mk_request POST
    (BillogramAPI._api_base api ++ "/" ++ SimpleClass._url_name self)
    (BillogramAPI._auth api) JNull (Some data)
    [("content-type", "application/json");
     ("user-agent", BillogramAPI._user_agent api)].

Definition get_request (api : BillogramAPI.t) (path : string) (params : json)
  : Request :=
  mk_request GET (BillogramAPI._api_base api ++ "/" ++ path)
    (BillogramAPI._auth api) params None
    [("user-agent", BillogramAPI._user_agent api)].

(** A wrapper freshly built for a connection: it refers to the
    connection, and a singleton has no snapshot yet. *)
Definition fresh_for (api : BillogramAPI.t) (x : Connection.wrapper) : Prop :=
  match x with
  | Connection.Collection c => SimpleClass._api c = api
  | Connection.Singleton o =>
      RemoteObject._api o = api /\ RemoteObject._data o = JNull
  end.

(** The specification [make_filter] hands to the setter. *)
Definition filter_spec (filter_type field value : json) : dict :=
  [ ("filter_type", filter_type);
    ("filter_field", field);
    ("filter_value", value) ].

(** What an accepted filter assignment leaves: the state as it was when
    the value equals the current filter, the value installed and the
    count forgotten otherwise. *)
Definition after_filter (s : qstate) (value : dict) : qstate :=
  if py_eq (JObj value) (JObj (deref (q_heap s) (Query._filter (q_self s))))
  then s
  else filter_assigned s value.

(** The page size a request carries: the one asked for, unless it is
    absent or zero. *)
Definition effective_page_size (q : Query.t) (page_size : option Z) : Z :=
  match page_size with
  | Some p => if p =? 0 then Query._page_size q else p
  | None => Query._page_size q
  end.

(** The objects [get_page] makes of the items of a page. *)
Definition wrap_items (type_class : SimpleClass.t) (items : list json)
  : list RemoteObject.t :=
  map (fun o => RemoteObject.mk (SimpleClass._api type_class)
                  (RemoteObject.Class type_class) o) items.

(** The parameters of an invoice PDF request: each id only when it is
    given, the letter first. *)
Definition pdf_params (letter_id invoice_no : json) : dict :=
  ((if truthy letter_id then [("letter_id", letter_id)] else [])
   ++ (if truthy invoice_no then [("invoice_no", invoice_no)] else []))%list.

(** The requests for [count] pages in a row, from [page_number] on. *)
Definition page_requests (qry : Query.t) (h : heap) (page_number : Z)
    (count : nat) : list Request :=
  map (fun i => page_request qry h (page_number + Z.of_nat i)) (seq 0 count).

(** ** Sample data *)

(** A rendering of values for the examples: strings as they are, numbers
    in decimal. *)
Definition sample_str (v : json) : string :=
  match v with
  | JNull => "None"
  | JBool true => "True"
  | JBool false => "False"
  | JInt n => NilZero.string_of_int (Z.to_int n)
  | JStr s => s
  | JArr _ => "[...]"
  | JObj _ => "{...}"
  end.

Definition json_response (code : Z) (body : json) : Response :=
  mk_response code (Some "application/json") (Some body) "".

(** A remote end that answers the n-th request with the n-th reply. *)
Definition scripted (replies : list reply) : list Request -> Request -> reply :=
  fun log _ => nth (List.length log) replies (NoReply "connection refused").

Definition sample_api : BillogramAPI.t :=
  BillogramAPI.__init__ "user" "key" None None.

Definition envelope (status : string) (data : json) : json :=
  JObj [("status", JStr status); ("data", data)].

(** A successful page of a collection. *)
Definition collection_page (items : list json) (total_count : json) : reply :=
  Reply (json_response 200
           (JObj [ ("status", JStr "OK");
                   ("data", JArr items);
                   ("meta", JObj [("total_count", total_count)]) ])).

(** A remote end with two objects that answers every collection query
    with one item: the parameters of the query itself. *)
Definition echo_remote : list Request -> Request -> reply :=
  fun _ rq => collection_page [req_params rq] (JInt 2).

Definition sample_customers : SimpleClass.t :=
  SimpleClass.__init__ sample_api "customer" "customer_no".

Definition sample_billograms : SimpleClass.t := BillogramClass sample_api.

(** A new query on the customers, in a store that holds its two dicts. *)
Definition sample_state : qstate :=
  mk_qstate (Query.mk sample_customers 0%nat JNull 100 1%nat) [[]; []] [].

(** The same with one object per page. *)
Definition small_pages_state : qstate :=
  mk_qstate (Query.mk sample_customers 0%nat JNull 1 1%nat) [[]; []] [].

Definition sample_settings : RemoteObject.t :=
  RemoteObject.mk sample_api (RemoteObject.UrlName "settings") JNull.

Definition name_filter : dict :=
  [ ("filter_type", JStr "field");
    ("filter_field", JStr "name");
    ("filter_value", JStr "Acme") ].

(** A server error page. *)
Definition server_error : reply :=
  Reply (mk_response 500 (Some "text/html") None "Internal Server Error").

(** The billogram the sample create step returns. *)
Definition created_billogram : RemoteObject.t :=
  RemoteObject.mk sample_api (RemoteObject.Class sample_billograms)
    (JObj [("id", JStr "b1")]).

(** A generator suspended after its first item, one page to go, and a
    program in which its copy, at address 1, has the count it fetched. *)
Definition running_generator : generator := GenSuspended 1%nat 1 2 [].

Definition running_copy : Query.t :=
  Query.mk sample_customers 0%nat (JInt 2) 1 1%nat.

Definition running_state : pstate :=
  mk_pstate (put_obj 1%nat running_copy (fun _ => q_self small_pages_state))
    2%nat (q_heap small_pages_state)
    [ count_request small_pages_state;
      page_request (q_self small_pages_state) (q_heap small_pages_state) 1 ].

(** Create answers with an object, the send event is refused, and the
    delete that follows meets a server error. *)
Definition failing_send_and_delete : list reply :=
  [ Reply (json_response 200 (envelope "OK" (JObj [("id", JStr "b1")])));
    Reply (json_response 400
             (envelope "INVALID_OBJECT_STATE"
                (JObj [("message", JStr "cannot send")])));
    server_error ].

(** The same with a delete that goes through. *)
Definition failing_send : list reply :=
  [ Reply (json_response 200 (envelope "OK" (JObj [("id", JStr "b1")])));
    Reply (json_response 400
             (envelope "INVALID_OBJECT_STATE"
                (JObj [("message", JStr "cannot send")])));
    Reply (json_response 200 (envelope "OK" JNull)) ].

(** A decoder for the examples: strings pass as they are, anything else
    is refused. *)
Definition sample_b64decode (c : json) : result string :=
  match c with
  | JStr text => Ok text
  | _ => Raise (Builtin TypeError)
  end.

(** A document as the server sends it. *)
Definition pdf_reply : reply :=
  Reply (json_response 200
           (envelope "OK" (JObj [("content", JStr "JVBERi0=")]))).

(** A billogram whose data has lost its id. *)
Definition billogram_without_id : RemoteObject.t :=
  RemoteObject.mk sample_api (RemoteObject.Class sample_billograms) (JObj []).




(** A customer as the server answers it, and as [get] wraps it. *)
Definition customer_reply : reply :=
  Reply (json_response 200
           (envelope "OK" (JObj [("customer_no", JInt 7);
                                 ("name", JStr "Acme")]))).

Definition fetched_customer : RemoteObject.t :=
  RemoteObject.mk sample_api (RemoteObject.Class sample_customers)
    (JObj [("customer_no", JInt 7); ("name", JStr "Acme")]).

(** A new connection. *)
Definition sample_connection : Connection.t :=
  Connection.__init__ "user" "key" None None.

(** * Properties *)

(** ** The response classifier *)

Lemma expects_json_expected resp expect :
  expects_json resp expect ->
  expected_content_type resp expect = "application/json".
Proof.
  unfold expects_json, expected_content_type.
  intros [-> | [-> | Hok]]; [reflexivity | now destruct (ok resp) | ].
  rewrite Hok. now destruct expect.
Qed.

Lemma classifier_dispatch resp expect env status :
  in_range (status_code resp) 500 600 = false ->
  content_type resp = Some "application/json" ->
  expects_json resp expect ->
  json_body resp = Some (JObj env) ->
  dict_get "status" env = Some status ->
  truthy status = true ->
  dict_has "data" env = true ->
  _check_api_response resp expect = dispatch resp env status.
Proof.
  intros H5 Hct Hexp Hbody Hst Htrue Hdata.
  unfold _check_api_response, dispatch.
  rewrite (expects_json_expected _ _ Hexp), H5.
  unfold resp_header_content_type, resp_json. rewrite Hct, Hbody.
  cbn [rbind String.eqb Ascii.eqb Bool.eqb negb py_get].
  rewrite Hst, Htrue, Hdata. cbn [negb rbind].
  unfold kw_get.
  destruct (status_code resp =? 403); [reflexivity|].
  destruct (status_code resp =? 404); [reflexivity|].
  destruct (status_code resp =? 405); [reflexivity|].
  destruct (eq_str status "OK"); [reflexivity|].
  destruct (status_table_get status); reflexivity.
Qed.

(** The literal dict of the code and the documented table agree. *)
Lemma status_table_get_documented status :
  status_table_get (JStr status) = Ok (documented_kind status).
Proof.
  unfold status_table_get, documented_kind, status_table.
  cbn [assoc_class].
  repeat match goal with
         | |- context [String.eqb status ?k] => destruct (String.eqb status k)
         end; reflexivity.
Qed.

Lemma raise_msg_eq (A : Type) cls text :
  @raise_msg A cls text =
  Raise (APIError (mk_api_error cls (JStr text) JNull JNull JNull)).
Proof. reflexivity. Qed.

(** C1 (as the code behaves): on a 404 response with a well-formed JSON
    envelope the classifier raises an error whose class is exactly
    [ObjectNotFoundError] whatever the envelope status is; when the status
    is [NOT_AVAILABLE_YET] only the message text differs, and the error
    raised is not an [ObjectNotAvailableYetError], so the two cases cannot
    be told apart by kind. *)
Theorem C1_status_404_raises_plain_not_found resp expect env status :
  status_code resp = 404 ->
  content_type resp = Some "application/json" ->
  json_body resp = Some (JObj env) ->
  dict_get "status" env = Some status ->
  truthy status = true ->
  dict_has "data" env = true ->
  exists e,
    _check_api_response resp expect = Raise (APIError e)
    /\ err_class e = ObjectNotFoundError
    /\ err_message e =
         JStr (if eq_str status "NOT_AVAILABLE_YET"
               then "Object not available yet" else "Object not found")
    /\ caught_by ObjectNotAvailableYetError (APIError e) = false
    /\ caught_by ObjectNotFoundError (APIError e) = true.
Proof.
  intros Hcode Hct Hbody Hst Htrue Hdata.
  assert (Hexp : expects_json resp expect).
  { right; right. unfold ok. now rewrite Hcode. }
  rewrite (classifier_dispatch resp expect env status); auto.
  2: now rewrite Hcode.
  unfold dispatch. rewrite Hcode. cbn [Z.eqb Pos.eqb].
  destruct (eq_str status "NOT_AVAILABLE_YET"); rewrite raise_msg_eq;
    eexists; (split; [reflexivity|]); repeat split.
Qed.

(** C2 (amended): in the last branch of the classifier, when the envelope
    status is a non-empty string other than [OK] and the envelope data is
    an object that has a [message] key and no [self] key, the error raised
    has exactly the class the documented table gives for the status, and
    its message, field, field path and extra data are taken from the data
    object. *)
Theorem C2_table_classification resp expect env status d message :
  table_branch_code (status_code resp) ->
  content_type resp = Some "application/json" ->
  expects_json resp expect ->
  json_body resp = Some (JObj env) ->
  dict_get "status" env = Some (JStr status) ->
  status <> "" ->
  status <> "OK" ->
  dict_get "data" env = Some (JObj d) ->
  dict_get "message" d = Some message ->
  dict_has "self" d = false ->
  exists e,
    _check_api_response resp expect = Raise (APIError e)
    /\ err_class e = documented_kind status
    /\ err_message e = message
    /\ err_field e = kw_get "field" d
    /\ err_field_path e = kw_get "field_path" d
    /\ err_extra_data e =
         (let rest := dict_del "field_path" (dict_del "field" (dict_del "message" d)) in
          match rest with [] => JNull | _ => JObj rest end).
Proof.
  intros (H5 & H403 & H404 & H405) Hct Hexp Hbody Hst Hne Hok Hdata Hmsg Hself.
  rewrite (classifier_dispatch resp expect env (JStr status)); auto.
  2: { cbn. now apply negb_true_iff, String.eqb_neq. }
  2: { unfold dict_has. now rewrite Hdata. }
  unfold dispatch.
  apply Z.eqb_neq in H403, H404, H405. rewrite H403, H404, H405.
  assert (Hok' : eq_str (JStr status) "OK" = false).
  { cbn. now apply String.eqb_neq. }
  rewrite Hok'. unfold kw_get at 1. rewrite Hdata.
  cbn [status_table_get rbind raise_splat]. unfold new_error.
  rewrite Hself, Hmsg.
  eexists. split; [reflexivity|].
  split.
  { pose proof (status_table_get_documented status) as Ht.
    cbn [status_table_get] in Ht. injection Ht as Ht.
    cbn [err_class BillogramAPIError__init__]. exact Ht. }
  split; [reflexivity|].
  assert (Hget : forall k, String.eqb k "message" = false ->
                 kw_get k (dict_del "message" d) = kw_get k d).
  { intros k Hk. unfold kw_get, dict_del. clear -Hk.
    induction d as [|[k' v] d' IH]; [reflexivity|].
    cbn [filter fst]. destruct (String.eqb "message" k') eqn:E.
    - apply String.eqb_eq in E. subst k'. cbn [negb dict_get].
      rewrite Hk. exact IH.
    - cbn [negb dict_get]. destruct (String.eqb k k'); [reflexivity|exact IH]. }
  split; [apply Hget; reflexivity|].
  split; [apply Hget; reflexivity|].
  cbn [err_extra_data BillogramAPIError__init__].
  assert (Hdel : forall k (x : dict),
             (if dict_has k x then dict_del k x else x) = dict_del k x).
  { intros k x. unfold dict_has.
    destruct (dict_get k x) eqn:E; [reflexivity|].
    unfold dict_del. induction x as [|[k' v] x' IH]; [reflexivity|].
    cbn [dict_get] in E. cbn [filter fst].
    destruct (String.eqb k k'); [discriminate|].
    cbn [negb]. f_equal. exact (IH E). }
  rewrite !Hdel.
  destruct (dict_del "field_path" (dict_del "field" (dict_del "message" d)));
    reflexivity.
Qed.

(** C10: in the last branch of the classifier (well-formed envelope, true
    status other than [OK]) an API error is raised only when the envelope
    data is an object with a [message] key and without a key that collides
    with the constructor's own parameter; and whenever the data is an array
    or an object lacking [message], what is raised is the interpreter's
    [TypeError], not an API error. *)
Theorem C10_table_branch_needs_message resp expect env status errordata :
  table_branch_code (status_code resp) ->
  content_type resp = Some "application/json" ->
  expects_json resp expect ->
  json_body resp = Some (JObj env) ->
  dict_get "status" env = Some status ->
  truthy status = true ->
  eq_str status "OK" = false ->
  dict_get "data" env = Some errordata ->
  ((exists e, _check_api_response resp expect = Raise (APIError e)) ->
   exists d, errordata = JObj d
             /\ dict_has "message" d = true
             /\ dict_has "self" d = false)
  /\ ((exists items, errordata = JArr items)
       \/ (exists d, errordata = JObj d /\ dict_has "message" d = false) ->
      _check_api_response resp expect = Raise (Builtin TypeError)).
Proof.
  intros (H5 & H403 & H404 & H405) Hct Hexp Hbody Hst Htrue Hok Hdata.
  rewrite (classifier_dispatch resp expect env status); auto.
  2: { unfold dict_has. now rewrite Hdata. }
  unfold dispatch.
  apply Z.eqb_neq in H403, H404, H405. rewrite H403, H404, H405, Hok.
  unfold kw_get. rewrite Hdata.
  split.
  - intros [e He].
    destruct (status_table_get status) as [cls|x] eqn:E; cbn [rbind] in He.
    2: { destruct status; cbn in E; try discriminate;
         inversion E; subst x; discriminate He. }
    destruct errordata as [| | | |items|d]; cbn [raise_splat] in He;
      try discriminate.
    exists d. split; [reflexivity|].
    unfold new_error in He. unfold dict_has at 1.
    destruct (dict_has "self" d); [discriminate|].
    destruct (dict_get "message" d); [now split|discriminate].
  - intros [[items ->] | (d & -> & Hno)].
    + destruct (status_table_get status) as [cls|x] eqn:E; [reflexivity|].
      destruct status; cbn in E; try discriminate; now inversion E.
    + destruct (status_table_get status) as [cls|x] eqn:E.
      * cbn [rbind raise_splat]. unfold new_error.
        unfold dict_has in Hno.
        destruct (dict_has "self" d); [reflexivity|].
        destruct (dict_get "message" d); [discriminate|reflexivity].
      * destruct status; cbn in E; try discriminate; now inversion E.
Qed.

(** ** Remote objects *)

Lemma raise_msg_not_ok (A : Type) cls text (a : A) :
  raise_msg cls text <> Ok a.
Proof. rewrite raise_msg_eq. discriminate. Qed.

Lemma raise_splat_not_ok (A : Type) cls v (a : A) :
  raise_splat cls v <> Ok a.
Proof.
  unfold raise_splat. destruct v; try discriminate.
  destruct (new_error cls [] members); discriminate.
Qed.

(** Walks down a classifier run that is known to return a value. *)
Ltac inv_ok H :=
  repeat match type of H with
         | rbind ?r _ = Ok _ =>
             let E := fresh "E" in
             destruct r eqn:E; cbn [rbind] in H; [|discriminate H]
         | (if ?b then _ else _) = Ok _ =>
             let E := fresh "E" in destruct b eqn:E
         | raise_msg _ _ = Ok _ =>
             exfalso; exact (raise_msg_not_ok _ _ _ _ H)
         | raise_splat _ _ = Ok _ =>
             exfalso; exact (raise_splat_not_ok _ _ _ _ H)
         end.

(** A value comes back from the classifier, with JSON expected, only as
    the decoded envelope of the response. *)
Lemma classifier_ok_inv resp r :
  _check_api_response resp None = Ok r ->
  exists env, json_body resp = Some (JObj env) /\ r = Decoded (JObj env).
Proof.
  intros H.
  unfold _check_api_response in H. cbn [expected_content_type] in H.
  inv_ok H.
  - discriminate E2.
  - injection H as <-.
    unfold resp_json in *. destruct (json_body resp) as [j|]; [|discriminate].
    match goal with Hj : Ok j = Ok ?x |- _ => injection Hj as -> end.
    match goal with
    | Hg : py_get ?x "status" = Ok _ |- _ => destruct x; try discriminate Hg
    end.
    eexists; split; reflexivity.
Qed.

(** Every exchange is recorded, whatever comes of it. *)
Lemma exchange_logged rq expect w r w' :
  (resp <- perform rq ;; lift (_check_api_response resp expect)) w = (r, w') ->
  w' = (w ++ [rq])%list.
Proof.
  unfold bind, perform, lift. destruct (remote w rq); intros H;
    now injection H as _ <-.
Qed.

(** An exchange that returns a value returned the decoded envelope of
    the reply. *)
Lemma exchange_ok_inv rq w r w' :
  (resp <- perform rq ;; lift (_check_api_response resp None)) w = (Ok r, w') ->
  exists resp env,
    remote w rq = Reply resp
    /\ json_body resp = Some (JObj env)
    /\ r = Decoded (JObj env)
    /\ w' = (w ++ [rq])%list.
Proof.
  intros H. pose proof (exchange_logged _ _ _ _ _ H) as ->.
  unfold bind, perform, lift in H.
  destruct (remote w rq) as [resp|reason]; [|discriminate H].
  injection H as H.
  destruct (classifier_ok_inv _ _ H) as (env & Hb & ->).
  now exists resp, env.
Qed.

(** The three calls have one shape: the URL, one exchange, the [data]
    member of the answer, and only then the assignment. *)
Lemma snapshot_call_shape c o w :
  run_call c (o, w) =
  match _url o with
  | Raise e => (Raise e, (o, w))
  | Ok url =>
      match (resp <- perform (request_of c o url) ;;
             lift (_check_api_response resp None)) w with
      | (Raise e, w') => (Raise e, (o, w'))
      | (Ok resp, w') =>
          match retval_getitem resp "data" with
          | Raise e => (Raise e, (o, w'))
          | Ok d => (Ok tt, (RemoteObject.with_data o d, w'))
          end
      end
  end.
Proof.
  destruct c; cbn [run_call];
    unfold refresh, update, perform_event;
    unfold bind at 1; cbn [get_self fst];
    unfold bind at 1, lift at 1;
    (destruct (_url o) as [url|e]; [|reflexivity]);
    unfold bind at 1, on_world; cbn [fst snd];
    unfold BillogramAPI_get, BillogramAPI_put, BillogramAPI_post;
    cbn [request_of];
    match goal with
    | |- context [(resp <- perform ?rq ;; lift _) w] =>
        destruct ((resp <- perform rq ;;
                   lift (_check_api_response resp None)) w) as [[r|e] w']
    end; try reflexivity;
    unfold bind at 1, lift at 1;
    destruct (retval_getitem r "data"); reflexivity.
Qed.


(** C6: a PUT answered with status code 403 and the JSON envelope
    [{"status": "INVALID_AUTH", "data": {}}] makes [update] raise an
    [InvalidAuthenticationError], which is a [PermissionDeniedError], and
    the object is left exactly as it was. *)
Theorem C6_invalid_auth_keeps_snapshot self data w url resp env :
  _url self = Ok url ->
  remote w (request_of (Update data) self url) = Reply resp ->
  status_code resp = 403 ->
  content_type resp = Some "application/json" ->
  json_body resp = Some (JObj env) ->
  dict_get "status" env = Some (JStr "INVALID_AUTH") ->
  dict_get "data" env = Some (JObj []) ->
  exists e,
    update data (self, w) =
      (Raise (APIError e),
       (self, (w ++ [request_of (Update data) self url])%list))
    /\ err_class e = InvalidAuthenticationError
    /\ caught_by InvalidAuthenticationError (APIError e) = true
    /\ caught_by PermissionDeniedError (APIError e) = true.
Proof.
  intros Hu Hrem Hcode Hct Hbody Hst Hdata.
  unfold update, bind at 1. cbn [get_self fst].
  unfold bind at 1, lift at 1. rewrite Hu.
  unfold bind at 1, on_world. cbn [fst snd].
  unfold BillogramAPI_put, bind at 1, perform.
  change (mk_request PUT _ _ _ _ _) with (request_of (Update data) self url).
  rewrite Hrem. unfold lift at 1.
  rewrite (classifier_dispatch resp None env (JStr "INVALID_AUTH")); auto.
  - unfold dispatch. rewrite Hcode. cbn [Z.eqb Pos.eqb].
    change (eq_str (JStr "INVALID_AUTH") "PERMISSION_DENIED") with false.
    change (eq_str (JStr "INVALID_AUTH") "INVALID_AUTH") with true.
    cbn iota. rewrite raise_msg_eq.
    eexists. split; [reflexivity|]. repeat split.
  - now rewrite Hcode.
  - now left.
  - unfold dict_has. now rewrite Hdata.
Qed.

(** The send step never changes the object when it raises. *)
Lemma send_raise_keeps_object method b w e b' w' :
  send method (b, w) = (Raise e, (b', w')) -> b' = b.
Proof.
  unfold send, bind at 1, assert_.
  destruct (in_strs method _).
  2: { unfold throw. intros H. now injection H as _ <- _. }
  cbn [ret]. unfold perform_event, bind at 1. cbn [get_self fst].
  unfold bind at 1, lift at 1.
  destruct (_url b) as [url|e0]; [|intros H; now injection H as _ <- _].
  unfold bind at 1, on_world. cbn [fst snd].
  destruct (BillogramAPI_post _ _ _ w) as [[r|e0] w1];
    [|intros H; now injection H as _ <- _].
  unfold bind at 1, lift at 1.
  destruct (retval_getitem r "data") as [d|e0];
    [|intros H; now injection H as _ <- _].
  unfold set_data, bind, get_self, put_self. discriminate.
Qed.

(** What [create_and_send] comes to once the send step has raised. *)
Lemma create_and_send_failed_send self data method w b w1 e b1 w2 :
  in_strs method ["Email"; "Letter"; "Email+Letter"] = true ->
  create self data w = (Ok b, w1) ->
  send method (b, w1) = (Raise e, (b1, w2)) ->
  create_and_send self data method w =
  match delete (b1, w2) with
  | (Ok _, (_, w3)) => (Raise e, w3)
  | (Raise e', (_, w3)) => (Raise e', w3)
  end.
Proof.
  intros Hm Hc Hs.
  unfold create_and_send, bind at 1, assert_. rewrite Hm. cbn [ret].
  unfold bind at 1. rewrite Hc.
  unfold with_object, try_except. rewrite Hs.
  unfold bind at 1. destruct (delete (b1, w2)) as [[[]|e'] [o3 w3]]; reflexivity.
Qed.

(** C5 (amended): when the method is one of the three media, the create
    step succeeds and the send step raises, [create_and_send] goes on to
    delete the created object.  If the URL of that object can be formed,
    exactly one DELETE request for it is issued after the send, and the
    caller gets the original send error when the delete returns normally
    and the error of the delete when the delete raises.  If the URL cannot
    be formed no request is issued and the error of forming it, which is
    also what the send step raised, reaches the caller. *)
Theorem C5_failed_send_deletes_then_raises self data method w b w1 e b1 w2 :
  in_strs method ["Email"; "Letter"; "Email+Letter"] = true ->
  create self data w = (Ok b, w1) ->
  send method (b, w1) = (Raise e, (b1, w2)) ->
  match _url b with
  | Ok url =>
      let rq := delete_request (RemoteObject._api b) url in
      exists r,
        BillogramAPI_delete (RemoteObject._api b) url w2
          = (r, (w2 ++ [rq])%list)
        /\ create_and_send self data method w
            = (Raise (match r with Ok _ => e | Raise e' => e' end),
               (w2 ++ [rq])%list)
  | Raise e0 =>
      e = e0 /\ w2 = w1
      /\ create_and_send self data method w = (Raise e0, w1)
  end.
Proof.
  intros Hm Hc Hs.
  pose proof (send_raise_keeps_object _ _ _ _ _ _ Hs) as ->.
  rewrite (create_and_send_failed_send _ _ _ _ _ _ _ _ _ Hm Hc Hs).
  destruct (_url b) as [url|e0] eqn:Hu;
    unfold delete, bind at 1; cbn [get_self fst];
    unfold bind at 1, lift at 1; rewrite Hu.
  - cbn zeta. unfold bind at 1, on_world. cbn [fst snd].
    destruct (BillogramAPI_delete (RemoteObject._api b) url w2)
      as [r w3] eqn:Hd.
    pose proof Hd as Hlog. unfold BillogramAPI_delete in Hlog.
    apply exchange_logged in Hlog. subst w3.
    exists r. split; [reflexivity|].
    destruct r as [r|e']; reflexivity.
  - revert Hs. unfold send, bind at 1, assert_. rewrite Hm. cbn [ret].
    unfold perform_event, bind at 1. cbn [get_self fst].
    unfold bind at 1, lift at 1. rewrite Hu.
    intros Hs. injection Hs as <- <-. repeat split.
Qed.

(** ** Queries *)

Lemma ceiling_quotient_formula c p :
  1 <= p -> ceiling_quotient c p = (c + p - 1) / p.
Proof.
  intros Hp. unfold ceiling_quotient, Qceiling, Qfloor.
  destruct p as [|pp|pp]; try lia.
  cbn [Qdiv Qinv inject_Z Qnum Qden Qmult Qopp].
  rewrite Z.mul_1_r, Pos.mul_1_l.
  pose proof (Z.div_mod (- c) (Z.pos pp) ltac:(lia)) as H1.
  pose proof (Z.mod_pos_bound (- c) (Z.pos pp) ltac:(lia)) as H2.
  pose proof (Z.div_mod (c + Z.pos pp - 1) (Z.pos pp) ltac:(lia)) as H3.
  pose proof (Z.mod_pos_bound (c + Z.pos pp - 1) (Z.pos pp) ltac:(lia)) as H4.
  nia.
Qed.

(** [_make_query] spelled out: one exchange, then the count is cached
    from [meta.total_count] of the decoded envelope. *)
Lemma make_query_unfold page_number page_size s :
  _make_query page_number page_size s =
  let rq := query_request s page_number page_size in
  let logged := (q_log s ++ [rq])%list in
  match remote (q_log s) rq with
  | NoReply reason =>
      (Raise (TransportError reason), mk_qstate (q_self s) (q_heap s) logged)
  | Reply resp =>
      match _check_api_response resp None with
      | Raise e => (Raise e, mk_qstate (q_self s) (q_heap s) logged)
      | Ok r =>
          match (meta <- retval_getitem r "meta" ;;
                 py_getitem meta "total_count")%res with
          | Raise e => (Raise e, mk_qstate (q_self s) (q_heap s) logged)
          | Ok total_count =>
              (Ok r, mk_qstate (with_count (q_self s) total_count)
                       (q_heap s) logged)
          end
      end
  end.
Proof.
  unfold _make_query, bind at 1. cbn [q_get].
  unfold bind at 1, _get_queryargs, bind at 1. cbn [q_get].
  unfold bind at 1. cbn [q_deref]. unfold bind at 1. cbn [q_deref ret].
  unfold bind at 1, q_on_world, BillogramAPI_get, bind at 1, perform.
  fold (query_request s page_number page_size).
  destruct (remote (q_log s) (query_request s page_number page_size))
    as [resp|reason]; [|reflexivity].
  unfold lift at 1.
  destruct (_check_api_response resp None) as [r|e]; [|reflexivity].
  unfold bind at 1, lift at 1.
  destruct (retval_getitem r "meta") as [meta|e]; [|reflexivity].
  cbn [rbind]. unfold bind at 1, lift at 1.
  destruct (py_getitem meta "total_count") as [tc|e]; reflexivity.
Qed.

Lemma same_params_refl q : same_params q q.
Proof. repeat split. Qed.

Lemma same_params_with_count q v : same_params q (with_count q v).
Proof. repeat split. Qed.

(** Whatever [_make_query] returns, it has sent exactly its one request,
    left the dict store alone and touched at most the cached count. *)
Lemma make_query_effect page_number page_size s r s' :
  _make_query page_number page_size s = (r, s') ->
  q_log s' = (q_log s ++ [query_request s page_number page_size])%list
  /\ q_heap s' = q_heap s
  /\ same_params (q_self s) (q_self s').
Proof.
  rewrite make_query_unfold. cbv zeta.
  destruct (remote _ _) as [resp|reason].
  2: { intros H; injection H as _ <-; repeat split. }
  destruct (_check_api_response resp None) as [x|e].
  2: { intros H; injection H as _ <-; repeat split. }
  destruct (_ <- _ ;; _)%res as [tc|e];
    intros H; injection H as _ <-; repeat split.
Qed.


Lemma get_page_unfold page_number s :
  get_page page_number s =
  match _make_query page_number None s with
  | (Raise e, s') => (Raise e, s')
  | (Ok resp, s') =>
      match (d <- retval_getitem resp "data" ;; py_iter d)%res with
      | Raise e => (Raise e, s')
      | Ok items =>
          (Ok (map (fun o =>
                      RemoteObject.mk
                        (SimpleClass._api (Query._type_class (q_self s')))
                        (RemoteObject.Class (Query._type_class (q_self s')))
                        o)
                 items), s')
      end
  end.
Proof.
  unfold get_page, bind at 1.
  destruct (_make_query page_number None s) as [[resp|e] s']; [|reflexivity].
  unfold bind at 1. cbn [q_get]. unfold bind at 1, lift at 1.
  destruct (retval_getitem resp "data") as [d|e]; [|reflexivity].
  cbn [rbind]. unfold bind at 1, lift at 1.
  destruct (py_iter d); reflexivity.
Qed.


(** A read of [count] with a count in the cache. *)
Lemma count_cached s :
  is_None (Query._count_cached (q_self s)) = false ->
  count s = (Ok (Query._count_cached (q_self s)), s).
Proof.
  intros H. unfold count, bind at 1. cbn [q_get]. rewrite H. reflexivity.
Qed.

(** A read of [count] with nothing in the cache. *)
Lemma count_uncached s :
  is_None (Query._count_cached (q_self s)) = true ->
  count s =
  match _make_query 1 (Some 1) s with
  | (Ok _, s') => (Ok (Query._count_cached (q_self s')), s')
  | (Raise e, s') => (Raise e, s')
  end.
Proof.
  intros H. unfold count, bind at 1. cbn [q_get]. rewrite H.
  unfold bind at 1, bind at 1.
  destruct (_make_query 1 (Some 1) s) as [[x|e] s']; reflexivity.
Qed.

(** A JSON response with status code 200 and envelope status [OK] is
    returned decoded. *)
Lemma classifier_ok_envelope resp env :
  status_code resp = 200 ->
  content_type resp = Some "application/json" ->
  json_body resp = Some (JObj env) ->
  dict_get "status" env = Some (JStr "OK") ->
  dict_has "data" env = true ->
  _check_api_response resp None = Ok (Decoded (JObj env)).
Proof.
  intros Hc Hct Hb Hs Hd.
  rewrite (classifier_dispatch resp None env (JStr "OK")); auto.
  - unfold dispatch. rewrite Hc. reflexivity.
  - now rewrite Hc.
  - now left.
Qed.

(** C9: with a known count [c >= 0] and a page size [p >= 1],
    [total_pages] is the integer ceiling of [c / p] and sends nothing; and
    a query with page size 100 whose count request is answered by a
    successful collection envelope reporting [total_count] 37 has count
    37 and one page. *)
Theorem C9_total_pages_is_ceiling :
  (forall s c p,
      Query._count_cached (q_self s) = JInt c ->
      Query._page_size (q_self s) = p ->
      0 <= c -> 1 <= p ->
      total_pages s = (Ok (ceiling_quotient c p), s))
  /\ (forall s resp env,
        Query._count_cached (q_self s) = JNull ->
        Query._page_size (q_self s) = 100 ->
        remote (q_log s) (count_request s) = Reply resp ->
        status_code resp = 200 ->
        content_type resp = Some "application/json" ->
        json_body resp = Some (JObj env) ->
        collection_envelope env (JInt 37) ->
        exists s',
          count s = (Ok (JInt 37), s')
          /\ total_pages s = (Ok 1, s')
          /\ Query._count_cached (q_self s') = JInt 37).
Proof.
  split.
  - intros s c p Hc Hp H0 H1.
    unfold total_pages, bind at 1. rewrite count_cached by now rewrite Hc.
    unfold bind at 1. cbn [q_get]. rewrite Hc, Hp. cbn [as_int].
    replace (p =? 0) with false by (symmetry; apply Z.eqb_neq; lia).
    now rewrite ceiling_quotient_formula.
  - intros s resp env Hc Hp Hrem Hcode Hct Hbody (Hst & (items & Hdata)
                                                 & (meta & Hmeta & Htc)).
    assert (Hmq : _make_query 1 (Some 1) s =
                  (Ok (Decoded (JObj env)),
                   mk_qstate (with_count (q_self s) (JInt 37)) (q_heap s)
                     (q_log s ++ [count_request s])%list)).
    { rewrite make_query_unfold. cbv zeta.
      fold (count_request s). rewrite Hrem.
      rewrite (classifier_ok_envelope resp env); auto.
      2: { unfold dict_has. now rewrite Hdata. }
      cbn [retval_getitem py_getitem rbind]. rewrite Hmeta.
      cbn [rbind py_getitem]. now rewrite Htc. }
    assert (Hcount : count s =
                     (Ok (JInt 37),
                      mk_qstate (with_count (q_self s) (JInt 37)) (q_heap s)
                        (q_log s ++ [count_request s])%list)).
    { rewrite count_uncached by now rewrite Hc. now rewrite Hmq. }
    eexists. split; [exact Hcount|]. split; [|reflexivity].
    unfold total_pages, bind at 1. rewrite Hcount.
    unfold bind at 1. cbn [q_get q_self with_count Query._page_size as_int].
    rewrite Hp. reflexivity.
Qed.

(** *** The filter setter *)

Lemma py_eq_dict (v c : dict) :
  py_eq (JObj v) (JObj c) =
  Nat.eqb (List.length v) (List.length c)
  && forallb (fun kv => match dict_get (fst kv) c with
                        | Some w => py_eq (snd kv) w
                        | None => false
                        end) v.
Proof.
  cbn [py_eq]. f_equal.
  induction v as [|[k x] v IH]; [reflexivity|].
  cbn [forallb fst snd]. now rewrite <- IH.
Qed.

Lemma dict_get_In k (d : dict) x :
  dict_get k d = Some x -> In (k, x) d.
Proof.
  induction d as [|[k' v] d IH]; [discriminate|].
  cbn [dict_get]. destruct (String.eqb k k') eqn:E.
  - apply String.eqb_eq in E. subst k'. intros H. injection H as ->. now left.
  - intros H. right. auto.
Qed.

Lemma dict_has_In k (d : dict) :
  dict_has k d = true <-> In k (map fst d).
Proof.
  unfold dict_has. induction d as [|[k' v] d IH]; cbn [dict_get map fst In].
  - split; [discriminate|tauto].
  - destruct (String.eqb k k') eqn:E.
    + apply String.eqb_eq in E. subst k'. split; auto.
    + apply String.eqb_neq in E. rewrite IH. split; [auto|].
      intros [H|H]; [congruence|assumption].
Qed.

Lemma eq_str_inv v lit : eq_str v lit = true -> v = JStr lit.
Proof.
  unfold eq_str. destruct v as [|[|]|n|s|items|d]; cbn; try discriminate.
  intros H. apply String.eqb_eq in H. now subst.
Qed.

Lemma py_eq_str_trans x w lit :
  py_eq x w = true -> eq_str w lit = true -> eq_str x lit = true.
Proof. intros H Hw. apply eq_str_inv in Hw. now subst w. Qed.

Lemma in_strs_py_eq x w lits :
  py_eq x w = true -> in_strs w lits = true -> in_strs x lits = true.
Proof.
  unfold in_strs. intros H. rewrite !existsb_exists.
  intros (l & Hl & Hw). exists l. split; [assumption|].
  eapply py_eq_str_trans; eassumption.
Qed.

(** A dict equal to a complete filter is itself complete. *)
Lemma py_eq_complete_filter (value current : dict) :
  unique_keys value ->
  py_eq (JObj value) (JObj current) = true ->
  complete_filter current = true ->
  complete_filter value = true.
Proof.
  intros Hnd Heq Hc. rewrite py_eq_dict in Heq.
  apply andb_true_iff in Heq as [Hlen Hall].
  apply Nat.eqb_eq in Hlen. rewrite forallb_forall in Hall.
  assert (Hsub : incl (map fst value) (map fst current)).
  { intros k Hk. apply in_map_iff in Hk as ([k' x] & <- & Hin).
    specialize (Hall _ Hin). cbn [fst snd] in Hall.
    apply dict_has_In. unfold dict_has. cbn [fst].
    destruct (dict_get k' current); [reflexivity|discriminate]. }
  assert (Hsup : incl (map fst current) (map fst value)).
  { apply NoDup_length_incl; [exact Hnd| |exact Hsub].
    rewrite !length_map. lia. }
  assert (Hhas : forall k, dict_has k current = true -> dict_has k value = true).
  { intros k Hk. apply dict_has_In. apply Hsup. now apply dict_has_In. }
  unfold complete_filter in *.
  repeat (apply andb_true_iff in Hc as [Hc ?]).
  rewrite !Hhas by assumption. cbn [andb].
  pose proof (Hhas _ Hc) as Hft. unfold dict_has in Hft.
  destruct (dict_get "filter_type" value) as [x|] eqn:Hx; [|discriminate].
  specialize (Hall _ (dict_get_In _ _ _ Hx)). cbn [fst snd] in Hall.
  destruct (dict_get "filter_type" current) as [w|]; [|discriminate].
  eapply in_strs_py_eq; eassumption.
Qed.

(** Assigning a value equal to the current filter returns at once. *)
Lemma set_filter_equal s value :
  py_eq (JObj value) (JObj (deref (q_heap s) (Query._filter (q_self s)))) = true ->
  set_filter value s = (Ok tt, s).
Proof.
  intros H. unfold set_filter, bind at 1. cbn [q_get].
  unfold bind at 1. cbn [q_deref]. now rewrite H.
Qed.

(** Assigning a different, non-empty, incomplete value fails an
    assertion with the state untouched. *)
Lemma set_filter_rejects s value :
  py_eq (JObj value) (JObj (deref (q_heap s) (Query._filter (q_self s)))) = false ->
  value <> [] ->
  complete_filter value = false ->
  set_filter value s = (Raise (Builtin AssertionError), s).
Proof.
  intros Hne Hv Hc. unfold set_filter, bind at 1. cbn [q_get].
  unfold bind at 1. cbn [q_deref]. rewrite Hne.
  destruct value as [|kv value']; [contradiction|]. cbn [truthy].
  remember (kv :: value') as value.
  unfold complete_filter in Hc.
  unfold bind at 1, bind at 1, assert_.
  destruct (dict_has "filter_type" value && dict_has "filter_field" value
            && dict_has "filter_value" value) eqn:Hkeys; [|reflexivity].
  cbn [andb] in Hc. cbn [ret].
  unfold bind at 1, lift at 1. cbn [py_getitem].
  destruct (dict_get "filter_type" value) as [t|] eqn:Ht.
  - unfold bind at 1. rewrite Hc. reflexivity.
  - unfold dict_has in Hkeys. rewrite Ht in Hkeys. discriminate Hkeys.
Qed.

(** Assigning a different value that is empty or complete installs a
    copy of it and clears the cached count. *)
Lemma set_filter_accepts s value :
  py_eq (JObj value) (JObj (deref (q_heap s) (Query._filter (q_self s)))) = false ->
  value = [] \/ complete_filter value = true ->
  set_filter value s = (Ok tt, filter_assigned s value).
Proof.
  intros Hne Hv. unfold set_filter, bind at 1. cbn [q_get].
  unfold bind at 1. cbn [q_deref]. rewrite Hne.
  destruct Hv as [-> | Hc]; [reflexivity|].
  destruct value as [|kv value']; [discriminate Hc|]. cbn [truthy].
  remember (kv :: value') as value.
  unfold complete_filter in Hc.
  apply andb_true_iff in Hc as [Hkeys Hft].
  unfold bind at 1, bind at 1, assert_. rewrite Hkeys. cbn [ret].
  unfold bind at 1, lift at 1. cbn [py_getitem].
  destruct (dict_get "filter_type" value) as [t|]; [|discriminate].
  unfold bind at 1. rewrite Hft. subst value. reflexivity.
Qed.

(** The setter never talks to the server. *)
Lemma set_filter_log s value r s' :
  set_filter value s = (r, s') -> q_log s' = q_log s.
Proof.
  destruct (py_eq (JObj value)
              (JObj (deref (q_heap s) (Query._filter (q_self s))))) eqn:E.
  - rewrite set_filter_equal by assumption. intros H; now injection H as _ <-.
  - destruct value as [|kv value'].
    + rewrite set_filter_accepts by auto. intros H; now injection H as _ <-.
    + destruct (complete_filter (kv :: value')) eqn:Hc.
      * rewrite set_filter_accepts by auto. intros H; now injection H as _ <-.
      * rewrite set_filter_rejects by (auto; discriminate).
        intros H; now injection H as _ <-.
Qed.

(** An accepted assignment that differs from the current filter leaves
    the new filter in place and no cached count. *)
Lemma set_filter_clears s value s' :
  set_filter value s = (Ok tt, s') ->
  py_eq (JObj value)
    (JObj (deref (q_heap s) (Query._filter (q_self s)))) = false ->
  Query._count_cached (q_self s') = JNull
  /\ deref (q_heap s') (Query._filter (q_self s')) = value.
Proof.
  intros Hs Hne.
  assert (Hacc : s' = filter_assigned s value).
  { destruct value as [|kv value'].
    - rewrite set_filter_accepts in Hs by auto. now injection Hs.
    - destruct (complete_filter (kv :: value')) eqn:Hc.
      + rewrite set_filter_accepts in Hs by auto. now injection Hs.
      + rewrite set_filter_rejects in Hs by (auto; discriminate).
        discriminate Hs. }
  subst s'. split; [reflexivity|].
  unfold filter_assigned, deref. cbn [q_heap q_self Query._filter].
  now rewrite nth_middle.
Qed.

(** C8 (amended): a non-empty filter specification that lacks one of
    [filter_type], [filter_field], [filter_value], or whose type is not one
    of the four kinds, is refused with an assertion error, nothing is sent
    and the query is untouched; an accepted assignment that differs from
    the current filter installs the new filter and clears the cached
    count; an assignment equal to the current filter returns at once and
    changes nothing, the cached count included; and in no case does the
    setter send a request. *)
Theorem C8_filter_setter_contract s value :
  (unique_keys value -> valid_filter s ->
   value <> [] -> complete_filter value = false ->
   set_filter value s = (Raise (Builtin AssertionError), s))
  /\ (forall s',
        set_filter value s = (Ok tt, s') ->
        py_eq (JObj value)
          (JObj (deref (q_heap s) (Query._filter (q_self s)))) = false ->
        Query._count_cached (q_self s') = JNull
        /\ deref (q_heap s') (Query._filter (q_self s')) = value)
  /\ (py_eq (JObj value)
         (JObj (deref (q_heap s) (Query._filter (q_self s)))) = true ->
      set_filter value s = (Ok tt, s))
  /\ (forall r s', set_filter value s = (r, s') -> q_log s' = q_log s).
Proof.
  split; [|split; [|split]].
  - intros Hu Hvalid Hne Hc.
    apply set_filter_rejects; auto.
    destruct (py_eq (JObj value) _) eqn:E; [exfalso|reflexivity].
    destruct Hvalid as [Hcur | Hcur].
    + rewrite Hcur in E. rewrite py_eq_dict in E.
      destruct value; [contradiction|discriminate E].
    + rewrite (py_eq_complete_filter _ _ Hu E Hcur) in Hc. discriminate.
  - intros s'. apply set_filter_clears.
  - apply set_filter_equal.
  - intros r s'. apply set_filter_log.
Qed.

(** *** Reads of the count *)






(** *** Reachable query states *)

Lemma deref_app (h ext : heap) r :
  (r < List.length h)%nat -> deref (h ++ ext)%list r = deref h r.
Proof. intros H. unfold deref. now apply app_nth1. Qed.

Lemma well_formed_init type_class h l :
  well_formed (mk_qstate (fst (Query__init__ type_class h))
                 (snd (Query__init__ type_class h)) l).
Proof.
  unfold well_formed, refs_valid, valid_filter, Query__init__, alloc, deref.
  cbn [fst snd q_self q_heap Query._filter Query._order].
  rewrite !length_app. cbn [List.length]. split; [lia|].
  left. rewrite <- app_assoc. cbn [app]. now rewrite nth_middle.
Qed.

Lemma well_formed_set_filter value s :
  well_formed s -> well_formed (snd (set_filter value s)).
Proof.
  intros [[Hf Ho] Hv].
  destruct (py_eq (JObj value)
              (JObj (deref (q_heap s) (Query._filter (q_self s))))) eqn:E.
  { rewrite set_filter_equal by assumption. now repeat split. }
  assert (Hacc : value = [] \/ complete_filter value = true ->
                 well_formed (snd (set_filter value s))).
  { intros Hok. rewrite set_filter_accepts by assumption.
    unfold well_formed, refs_valid, valid_filter, filter_assigned, deref.
    cbn [snd q_self q_heap Query._filter Query._order].
    rewrite length_app, nth_middle. cbn [List.length].
    split; [lia|exact Hok]. }
  destruct value as [|kv value']; [now apply Hacc; left|].
  destruct (complete_filter (kv :: value')) eqn:Hc; [now apply Hacc; right|].
  rewrite set_filter_rejects by (auto; discriminate). now repeat split.
Qed.

(** The setters keep a query well formed. *)
Lemma well_formed_mutate m s :
  well_formed s -> well_formed (snd (mutate m s)).
Proof.
  intros Hw. destruct m as [v|value|value|a b c|]; cbn [mutate].
  - destruct Hw as [[Hf Ho] Hv].
    unfold set_page_size, bind, assert_, q_get, q_put, ret, throw.
    destruct (1 <=? v); now repeat split.
  - now apply well_formed_set_filter.
  - destruct Hw as [[Hf Ho] Hv].
    assert (Hnew : forall d,
               well_formed
                 (mk_qstate
                    (Query.mk (Query._type_class (q_self s))
                       (Query._filter (q_self s))
                       (Query._count_cached (q_self s))
                       (Query._page_size (q_self s))
                       (List.length (q_heap s)))
                    (q_heap s ++ [d])%list (q_log s))).
    { intros d. unfold well_formed, refs_valid, valid_filter.
      cbn [q_self q_heap Query._filter Query._order].
      rewrite length_app, deref_app by assumption. cbn [List.length].
      split; [lia|exact Hv]. }
    unfold set_order, bind, assert_, lift, q_alloc, set_order_ref, q_get,
      q_put, ret, throw, alloc.
    destruct (truthy (JObj value)); [|apply Hnew].
    destruct (dict_has "order_field" value && dict_has "order_direction" value);
      [|now repeat split].
    destruct (py_getitem (JObj value) "order_direction") as [od|e];
      [|now repeat split].
    destruct (in_strs od ["asc"; "desc"]); [apply Hnew|now repeat split].
  - unfold make_filter. destruct (_ || _); now apply well_formed_set_filter.
  - now apply well_formed_set_filter.
Qed.

(** So does every exchange with the server. *)
Lemma well_formed_make_query page_number page_size s :
  well_formed s ->
  well_formed (snd (_make_query page_number page_size s)).
Proof.
  intros [[Hf Ho] Hv].
  destruct (_make_query page_number page_size s) as [r s'] eqn:E.
  destruct (make_query_effect _ _ _ _ _ E) as (_ & Hh & (_ & Pf & _ & Po)).
  unfold well_formed, refs_valid, valid_filter. cbn [snd].
  rewrite Hh, Pf, Po. now repeat split.
Qed.

(** *** Iteration over a snapshot *)



Lemma same_params_trans q1 q2 q3 :
  same_params q1 q2 -> same_params q2 q3 -> same_params q1 q3.
Proof.
  unfold same_params. intros (A1 & A2 & A3 & A4) (B1 & B2 & B3 & B4).
  repeat split; congruence.
Qed.



Lemma put_obj_eq r q objs : put_obj r q objs r = q.
Proof. unfold put_obj. now rewrite Nat.eqb_refl. Qed.

Lemma put_obj_neq r r' q objs : r' <> r -> put_obj r q objs r' = objs r'.
Proof.
  intros H. unfold put_obj. apply Nat.eqb_neq in H. now rewrite H.
Qed.






(** A method call on one query object leaves the others alone, and so
    does the page loop. *)
Lemma on_query_keeps_others (A : Type) r (m : M qstate A) s r' :
  r' <> r -> p_objs (snd (on_query r m s)) r' = p_objs s r'.
Proof.
  intros H. unfold on_query. destruct (m _) as [x t]. cbn [snd p_objs].
  now apply put_obj_neq.
Qed.









(** * Further properties of the code *)

(** ** The classifier, case by case *)

Lemma classifier_ok_cases resp expect r :
  _check_api_response resp expect = Ok r ->
  in_range (status_code resp) 500 600 = false
  /\ ((r = RawContent (content resp)
       /\ content_type resp = Some (expected_content_type resp expect)
       /\ expected_content_type resp expect <> "application/json")
      \/ (exists env st,
             r = Decoded (JObj env)
             /\ content_type resp = Some "application/json"
             /\ expected_content_type resp expect = "application/json"
             /\ json_body resp = Some (JObj env)
             /\ dict_get "status" env = Some st
             /\ eq_str st "OK" = true
             /\ dict_has "data" env = true
             /\ status_code resp <> 403
             /\ status_code resp <> 404
             /\ status_code resp <> 405)).
Proof.
  intros H. unfold _check_api_response in H. cbv zeta in H.
  set (E := expected_content_type resp expect) in *.
  inv_ok H.
  - split; [reflexivity|]. left. injection H as <-.
    unfold resp_header_content_type in E1.
    destruct (content_type resp) as [ct|]; [|discriminate E1].
    injection E1 as ->.
    apply negb_false_iff, String.eqb_eq in E2. subst a.
    apply negb_true_iff, String.eqb_neq in E3.
    split; [reflexivity|]. split; [reflexivity|exact E3].
  - split; [reflexivity|]. right. injection H as <-.
    unfold resp_header_content_type in E1. unfold resp_json in E4.
    destruct (content_type resp) as [ct|]; [|discriminate E1].
    destruct (json_body resp) as [j|]; [|discriminate E4].
    injection E1 as ->. injection E4 as ->.
    apply negb_false_iff, String.eqb_eq in E2.
    apply negb_false_iff, String.eqb_eq in E3.
    apply negb_false_iff in E6, E8. subst a2.
    apply Z.eqb_neq in E9, E10, E11.
    destruct a0 as [| | | | |env]; try discriminate E5.
    cbn [py_get] in E5. injection E5 as E5. injection E7 as E7.
    destruct (dict_get "status" env) as [st|] eqn:Hst.
    + subst a1. exists env, st.
      split; [reflexivity|]. split; [now rewrite E2, E3|].
      split; [exact E3|]. split; [reflexivity|]. split; [exact Hst|].
      split; [exact E12|]. split; [exact E7|].
      split; [exact E9|]. split; [exact E10|exact E11].
    + subst a1. discriminate E6.
Qed.

(** [.get] fails in one way only. *)
Lemma py_get_raises v k e :
  py_get v k = Raise e -> e = Builtin AttributeError.
Proof. destruct v; cbn; intros H; try discriminate H; now injection H. Qed.

Lemma expected_json_dispatch resp expect env status :
  in_range (status_code resp) 500 600 = false ->
  content_type resp = Some "application/json" ->
  expected_content_type resp expect = "application/json" ->
  json_body resp = Some (JObj env) ->
  dict_get "status" env = Some status ->
  truthy status = true ->
  dict_has "data" env = true ->
  _check_api_response resp expect = dispatch resp env status.
Proof.
  intros H5 Hct Hexp Hbody Hst Htrue Hdata.
  unfold _check_api_response, dispatch. rewrite Hexp, H5.
  unfold resp_header_content_type, resp_json. rewrite Hct, Hbody.
  cbn [rbind String.eqb Ascii.eqb Bool.eqb negb py_get].
  rewrite Hst, Htrue, Hdata. cbn [negb rbind].
  unfold kw_get.
  destruct (status_code resp =? 403); [reflexivity|].
  destruct (status_code resp =? 404); [reflexivity|].
  destruct (status_code resp =? 405); [reflexivity|].
  destruct (eq_str status "OK"); [reflexivity|].
  destruct (status_table_get status); reflexivity.
Qed.

(** The expectation that counts is other than JSON only for a response
    that did not fail and a caller that asked for something else. *)
Lemma expected_not_json resp expect :
  expected_content_type resp expect <> "application/json" <->
  ok resp = true
  /\ exists e, expect = Some e /\ e <> "application/json".
Proof.
  unfold expected_content_type. split.
  - destruct expect as [e|]; [|congruence].
    destruct (ok resp); cbn [negb]; [|congruence].
    intros H. split; [reflexivity|]. now exists e.
  - intros (Hok & e & -> & He). now rewrite Hok.
Qed.

(** X1: a call returns a decoded envelope exactly when the status code
    is none of 5xx, 403, 404, 405, the response is served as JSON and JSON
    is expected, and the body is an object whose [status] equals [OK] and
    that has a [data] key; the value returned is that object, whatever
    else the status code is. *)
Theorem classifier_returns_envelope_iff resp expect env :
  _check_api_response resp expect = Ok (Decoded (JObj env)) <->
  table_branch_code (status_code resp)
  /\ content_type resp = Some "application/json"
  /\ expected_content_type resp expect = "application/json"
  /\ json_body resp = Some (JObj env)
  /\ (exists st, dict_get "status" env = Some st /\ eq_str st "OK" = true)
  /\ dict_has "data" env = true.
Proof.
  split.
  - intros H. destruct (classifier_ok_cases _ _ _ H) as [H5 [(Hr & _)|Hd]];
      [discriminate Hr|].
    destruct Hd as (env' & st & Hr & Hct & He & Hb & Hst & Hok & Hd & H3 & H4 & H5').
    injection Hr as <-. repeat split; try assumption. now exists st.
  - intros ((H5 & H403 & H404 & H405) & Hct & He & Hb & (st & Hst & Hok) & Hd).
    rewrite (expected_json_dispatch resp expect env st); auto.
    2: { apply eq_str_inv in Hok. now subst st. }
    unfold dispatch. apply Z.eqb_neq in H403, H404, H405.
    now rewrite H403, H404, H405, Hok.
Qed.

(** X2: raw content is returned exactly when the response did not fail,
    the caller asked for a content type other than JSON and the response
    has that very type; the content is handed over as it is and the body
    is never decoded. *)
Theorem classifier_returns_content_iff resp expect c :
  _check_api_response resp expect = Ok (RawContent c) <->
  in_range (status_code resp) 500 600 = false
  /\ ok resp = true
  /\ (exists e, expect = Some e /\ e <> "application/json"
                /\ content_type resp = Some e)
  /\ c = content resp.
Proof.
  split.
  - intros H. destruct (classifier_ok_cases _ _ _ H) as [H5 [Hr|Hd]].
    2: { destruct Hd as (env & st & Hr & _). discriminate Hr. }
    destruct Hr as (Hr & Hct & Hne). injection Hr as ->.
    apply expected_not_json in Hne as Hne'.
    destruct Hne' as (Hok & e & -> & He).
    split; [assumption|]. split; [assumption|]. split; [|reflexivity].
    exists e. repeat split; try assumption.
    rewrite Hct. unfold expected_content_type. now rewrite Hok.
  - intros (H5 & Hok & (e & -> & He & Hct) & ->).
    unfold _check_api_response, expected_content_type. rewrite Hok, H5.
    cbn [negb]. unfold resp_header_content_type. rewrite Hct. cbn [rbind].
    rewrite String.eqb_refl. cbn [negb].
    apply String.eqb_neq in He. now rewrite He.
Qed.

(** X3: a response with a status code from 500 to 599 never returns;
    whatever API error it raises is a [ServiceMalfunctioningError], and
    when the content type is not the expected JSON the error carries the
    fixed text and nothing of the body. *)
Theorem server_error_always_malfunction resp expect :
  in_range (status_code resp) 500 600 = true ->
  exists e,
    _check_api_response resp expect = Raise e
    /\ (forall a, e = APIError a -> err_class a = ServiceMalfunctioningError)
    /\ (forall ct,
          content_type resp = Some ct ->
          ct <> "application/json" ->
          e = APIError
                (mk_api_error ServiceMalfunctioningError
                   (JStr "Billogram API reported a server error")
                   JNull JNull JNull)).
Proof.
  intros H5. unfold _check_api_response. cbv zeta. rewrite H5.
  assert (Hexp : expected_content_type resp expect = "application/json").
  { apply expects_json_expected. right; right. unfold ok.
    unfold in_range in H5. apply andb_true_iff in H5 as [Hlo Hhi].
    apply Z.leb_le in Hlo.
    replace (400 <=? status_code resp) with true
      by (symmetry; apply Z.leb_le; lia).
    now rewrite Hhi. }
  rewrite Hexp. unfold resp_header_content_type, resp_json.
  destruct (content_type resp) as [ct|]; cbn [rbind].
  2: { eexists. split; [reflexivity|]. split; [discriminate|discriminate]. }
  destruct (String.eqb ct "application/json") eqn:Ect; cbn [andb].
  2: { rewrite raise_msg_eq. eexists. split; [reflexivity|].
       split; [intros a Ha; now injection Ha as <-|reflexivity]. }
  apply String.eqb_eq in Ect. subst ct.
  cbn [String.eqb Ascii.eqb Bool.eqb].
  assert (Hdone : forall x : result retval,
             (exists e, x = Raise e
                        /\ forall a, e = APIError a ->
                                     err_class a = ServiceMalfunctioningError) ->
             exists e,
               x = Raise e
               /\ (forall a, e = APIError a ->
                             err_class a = ServiceMalfunctioningError)
               /\ (forall ct,
                     Some "application/json" = Some ct ->
                     ct <> "application/json" ->
                     e = APIError
                           (mk_api_error ServiceMalfunctioningError
                              (JStr "Billogram API reported a server error")
                              JNull JNull JNull))).
  { intros x (e & -> & He). exists e. split; [reflexivity|]. split; [exact He|].
    intros ct Hc Hn. injection Hc as <-. now contradiction Hn. }
  apply Hdone.
  destruct (json_body resp) as [j|]; cbn [rbind].
  2: { eexists. split; [reflexivity|discriminate]. }
  destruct (py_get j "status") as [st|e] eqn:Hst; cbn [rbind].
  2: { rewrite (py_get_raises _ _ _ Hst). eexists.
       split; [reflexivity|discriminate]. }
  destruct (py_get j "data") as [dd|e] eqn:Hdd; cbn [rbind].
  2: { rewrite (py_get_raises _ _ _ Hdd). eexists.
       split; [reflexivity|discriminate]. }
  destruct (py_get dd "message") as [msg|e] eqn:Hmsg; cbn [rbind].
  2: { rewrite (py_get_raises _ _ _ Hmsg). eexists.
       split; [reflexivity|discriminate]. }
  rewrite raise_msg_eq. eexists. split; [reflexivity|].
  intros a Ha. now injection Ha as <-.
Qed.

(** X4: a JSON response outside 5xx whose body is an object without a
    true [status] (absent, [null], empty, zero, [false]) is reported as a
    malfunction of the service, and so is one without a [data] key, even
    when the status code is 200. *)
Theorem malformed_envelope_is_malfunction resp expect env :
  in_range (status_code resp) 500 600 = false ->
  content_type resp = Some "application/json" ->
  expected_content_type resp expect = "application/json" ->
  json_body resp = Some (JObj env) ->
  (truthy (kw_get "status" env) = false ->
   _check_api_response resp expect
   = Raise (APIError (mk_api_error ServiceMalfunctioningError
                        (JStr "Response data missing status field")
                        JNull JNull JNull)))
  /\ (truthy (kw_get "status" env) = true ->
      dict_has "data" env = false ->
      _check_api_response resp expect
      = Raise (APIError (mk_api_error ServiceMalfunctioningError
                           (JStr "Response data missing data field")
                           JNull JNull JNull))).
Proof.
  intros H5 Hct Hexp Hbody.
  unfold _check_api_response. cbv zeta. rewrite Hexp, H5.
  unfold resp_header_content_type, resp_json. rewrite Hct, Hbody.
  cbn [rbind String.eqb Ascii.eqb Bool.eqb negb py_get].
  fold (kw_get "status" env).
  split.
  - intros Hf. now rewrite Hf.
  - intros Ht Hd. now rewrite Ht, Hd.
Qed.

Lemma header_raises resp e :
  resp_header_content_type resp = Raise e -> e = Builtin KeyError.
Proof.
  unfold resp_header_content_type. destruct (content_type resp);
    intros H; [discriminate H|now injection H].
Qed.

Lemma json_raises resp e :
  resp_json resp = Raise e -> e = Builtin ValueError.
Proof.
  unfold resp_json. destruct (json_body resp);
    intros H; [discriminate H|now injection H].
Qed.

Lemma table_get_raises status e :
  status_table_get status = Raise e -> e = Builtin TypeError.
Proof. destruct status; cbn; intros H; try discriminate H; now injection H. Qed.

(** The classes the table can give. *)
Lemma table_get_class status cls :
  status_table_get status = Ok cls ->
  In cls [ RequestFormError; InvalidFieldValueError;
           InvalidFieldCombinationError; ReadOnlyFieldError;
           UnknownFieldError; InvalidObjectStateError; RequestDataError ].
Proof.
  destruct status as [| | |s| |]; cbn [status_table_get]; intros H;
    try discriminate H; injection H as <-; cbn [In]; try tauto.
  cbn [assoc_class status_table].
  repeat match goal with
         | |- context [String.eqb s ?k] => destruct (String.eqb s k)
         end; tauto.
Qed.

Lemma raise_splat_class (A : Type) cls v a :
  @raise_splat A cls v = Raise (APIError a) -> err_class a = cls.
Proof.
  destruct v; cbn [raise_splat]; try discriminate.
  unfold new_error. destruct (dict_has "self" members); [discriminate|].
  destruct (dict_get "message" members); [|discriminate].
  intros H. now injection H as <-.
Qed.

(** Walks down a classifier run that is known to raise. *)
Ltac inv_raise H :=
  repeat match type of H with
         | rbind ?r _ = Raise _ =>
             let E := fresh "E" in
             destruct r eqn:E; cbn [rbind] in H
         | (if ?b then _ else _) = Raise _ =>
             let E := fresh "E" in destruct b eqn:E
         end.

(** Where an API error of the classifier comes from: the fixed text of
    a [raise cls('text')], or the table. *)
Ltac leaf_class H :=
  match type of H with
  | Raise ?e = Raise (APIError _) =>
      exfalso;
      match goal with
      | E : resp_header_content_type _ = Raise e |- _ =>
          rewrite (header_raises _ _ E) in H; discriminate H
      | E : resp_json _ = Raise e |- _ =>
          rewrite (json_raises _ _ E) in H; discriminate H
      | E : py_get _ _ = Raise e |- _ =>
          rewrite (py_get_raises _ _ _ E) in H; discriminate H
      | E : status_table_get _ = Raise e |- _ =>
          rewrite (table_get_raises _ _ E) in H; discriminate H
      | E : match _ with JObj _ => _ | _ => _ end = Raise e |- _ =>
          match type of E with
          | match ?x with _ => _ end = _ =>
              destruct x; try discriminate E; injection E as <-;
              discriminate H
          end
      end
  | Ok _ = Raise _ => discriminate H
  | raise_msg _ _ = Raise _ => rewrite raise_msg_eq in H; injection H as <-
  | raise_splat _ _ = Raise _ => apply raise_splat_class in H
  end.

(** X5: the API errors of the classifier are never of class
    [MissingFieldError] nor of the bare base class; and one of class
    [ObjectNotAvailableYetError] is raised exactly when a status code
    outside 5xx comes with a JSON body whose status is
    [NOT_AVAILABLE_YET] while a content type other than JSON was
    expected, hence never when JSON is expected. *)
Theorem classifier_error_classes resp expect :
  (forall a,
      _check_api_response resp expect = Raise (APIError a) ->
      err_class a <> MissingFieldError
      /\ err_class a <> BillogramAPIError)
  /\ ((exists a,
         _check_api_response resp expect = Raise (APIError a)
         /\ err_class a = ObjectNotAvailableYetError)
      <->
      in_range (status_code resp) 500 600 = false
      /\ content_type resp = Some "application/json"
      /\ expected_content_type resp expect <> "application/json"
      /\ exists v st,
          json_body resp = Some v
          /\ py_get v "status" = Ok st
          /\ eq_str st "NOT_AVAILABLE_YET" = true)
  /\ (expects_json resp expect ->
      forall a,
        _check_api_response resp expect = Raise (APIError a) ->
        err_class a <> ObjectNotAvailableYetError).
Proof.
  assert (Hcases : forall a,
             _check_api_response resp expect = Raise (APIError a) ->
             err_class a <> MissingFieldError
             /\ err_class a <> BillogramAPIError
             /\ (err_class a = ObjectNotAvailableYetError ->
                 in_range (status_code resp) 500 600 = false
                 /\ content_type resp = Some "application/json"
                 /\ expected_content_type resp expect <> "application/json"
                 /\ exists v st,
                     json_body resp = Some v
                     /\ py_get v "status" = Ok st
                     /\ eq_str st "NOT_AVAILABLE_YET" = true)).
  { intros a H. unfold _check_api_response in H. cbv zeta in H.
    set (X := expected_content_type resp expect) in *.
    inv_raise H; leaf_class H;
      try (cbn [err_class]; split; [discriminate|];
           split; [discriminate|]; intros Hc; discriminate Hc).
    - (* the branch for an unexpected content type *)
      cbn [err_class]. split; [discriminate|]. split; [discriminate|].
      intros _. split; [reflexivity|].
      apply negb_true_iff, String.eqb_neq in E1.
      apply String.eqb_eq in E2. subst a0.
      unfold resp_header_content_type in E0.
      destruct (content_type resp) as [ct|]; [|discriminate E0].
      injection E0 as ->.
      unfold resp_json in E3.
      destruct (json_body resp) as [v|]; [|discriminate E3].
      injection E3 as ->.
      split; [reflexivity|]. split; [intros Hx; apply E1; now rewrite Hx|].
      exists a1, a2. split; [reflexivity|]. split; assumption.
    - (* the table *)
      match goal with
      | Et : status_table_get _ = Ok ?c |- _ =>
          apply table_get_class in Et; cbn [In] in Et;
          repeat match type of Et with
                 | _ \/ _ => destruct Et as [Et|Et]
                 end;
          try contradiction; subst c; rewrite H;
          (split; [discriminate|]; split; [discriminate|];
           intros Hc; discriminate Hc)
      end. }
  split; [|split].
  - intros a H. destruct (Hcases a H) as (H1 & H2 & _). now split.
  - split.
    + intros (a & H & Hc). now apply (Hcases a H).
    + intros (H5 & Hct & Hx & v & st & Hb & Hs & He).
      unfold _check_api_response. cbv zeta. rewrite H5.
      unfold resp_header_content_type, resp_json. rewrite Hct, Hb.
      cbn [rbind]. apply String.eqb_neq in Hx.
      rewrite String.eqb_sym in Hx. rewrite Hx. cbn [negb].
      rewrite String.eqb_refl, Hs. cbn [rbind]. rewrite He.
      rewrite raise_msg_eq. eexists. split; reflexivity.
  - intros Hj a H Hc. destruct (Hcases a H) as (_ & _ & Hn).
    destruct (Hn Hc) as (_ & _ & Hx & _).
    apply Hx. now apply expects_json_expected.
Qed.

(** ** Errors *)

Lemma dict_get_del_eq k (d : dict) : dict_get k (dict_del k d) = None.
Proof.
  unfold dict_del. induction d as [|[k' v] d IH]; [reflexivity|].
  cbn [filter fst]. destruct (String.eqb k k') eqn:E; cbn [negb].
  - exact IH.
  - cbn [dict_get]. now rewrite E.
Qed.

Lemma dict_get_del_neq k k' (d : dict) :
  k <> k' -> dict_get k (dict_del k' d) = dict_get k d.
Proof.
  intros Hne. unfold dict_del. induction d as [|[k2 v] d IH]; [reflexivity|].
  cbn [filter fst]. destruct (String.eqb k' k2) eqn:E; cbn [negb dict_get].
  - apply String.eqb_eq in E. subst k2.
    apply String.eqb_neq in Hne. now rewrite Hne.
  - destruct (String.eqb k k2); [reflexivity|exact IH].
Qed.

Lemma del_if_has k (x : dict) :
  (if dict_has k x then dict_del k x else x) = dict_del k x.
Proof.
  unfold dict_has. destruct (dict_get k x) eqn:E; [reflexivity|].
  unfold dict_del. induction x as [|[k' v] x' IH]; [reflexivity|].
  cbn [dict_get] in E. cbn [filter fst].
  destruct (String.eqb k k'); [discriminate|].
  cbn [negb]. f_equal. exact (IH E).
Qed.

Lemma dict_empty_iff (d : dict) :
  d = [] <-> forall k, dict_get k d = None.
Proof.
  split; [now intros ->|].
  destruct d as [|[k v] d]; [reflexivity|].
  intros H. specialize (H k). cbn [dict_get] in H.
  now rewrite String.eqb_refl in H.
Qed.

(** X6: an error built from a data object keeps what the server sent:
    the message, the field and the field path are the entries of those
    names, every other entry is found unchanged in the extra data, the
    three names themselves never appear there, and there is no extra data
    at all exactly when the object has no other entry. *)
Theorem error_keeps_server_data cls d e :
  new_error cls [] d = Ok e ->
  err_class e = cls
  /\ dict_get "message" d = Some (err_message e)
  /\ err_field e = kw_get "field" d
  /\ err_field_path e = kw_get "field_path" d
  /\ (forall k,
        k <> "message" -> k <> "field" -> k <> "field_path" ->
        extra_get k e = dict_get k d)
  /\ extra_get "message" e = None
  /\ extra_get "field" e = None
  /\ extra_get "field_path" e = None
  /\ (err_extra_data e = JNull <->
      forall k, dict_has k d = true ->
                k = "message" \/ k = "field" \/ k = "field_path").
Proof.
  unfold new_error. destruct (dict_has "self" d); [discriminate|].
  destruct (dict_get "message" d) as [m|] eqn:Hm; [|discriminate].
  intros H. injection H as <-.
  set (rest := dict_del "field_path" (dict_del "field" (dict_del "message" d))).
  assert (Hextra : err_extra_data
                     (BillogramAPIError__init__ cls m (dict_del "message" d))
                   = match rest with [] => JNull | _ => JObj rest end).
  { cbn [err_extra_data BillogramAPIError__init__]. rewrite !del_if_has.
    fold rest. now destruct rest. }
  assert (Hrest : forall k,
             dict_get k rest =
             if String.eqb k "message" then None
             else if String.eqb k "field" then None
             else if String.eqb k "field_path" then None
             else dict_get k d).
  { intros k. unfold rest.
    destruct (String.eqb k "field_path") eqn:E3.
    { apply String.eqb_eq in E3. subst k. rewrite dict_get_del_eq.
      reflexivity. }
    apply String.eqb_neq in E3. rewrite dict_get_del_neq by assumption.
    destruct (String.eqb k "field") eqn:E2.
    { apply String.eqb_eq in E2. subst k. rewrite dict_get_del_eq.
      reflexivity. }
    apply String.eqb_neq in E2. rewrite dict_get_del_neq by assumption.
    destruct (String.eqb k "message") eqn:E1.
    { apply String.eqb_eq in E1. subst k. now rewrite dict_get_del_eq. }
    apply String.eqb_neq in E1. now rewrite dict_get_del_neq. }
  assert (Hget : forall k, extra_get k
                   (BillogramAPIError__init__ cls m (dict_del "message" d))
                 = dict_get k rest).
  { intros k. unfold extra_get. rewrite Hextra.
    destruct rest; reflexivity. }
  split; [reflexivity|]. split; [reflexivity|].
  split.
  { cbn [err_field BillogramAPIError__init__]. unfold kw_get.
    now rewrite dict_get_del_neq by discriminate. }
  split.
  { cbn [err_field_path BillogramAPIError__init__]. unfold kw_get.
    now rewrite dict_get_del_neq by discriminate. }
  split.
  { intros k H1 H2 H3. rewrite Hget, Hrest.
    apply String.eqb_neq in H1, H2, H3. now rewrite H1, H2, H3. }
  split; [now rewrite Hget, Hrest|].
  split; [now rewrite Hget, Hrest|].
  split; [now rewrite Hget, Hrest|].
  rewrite Hextra. split.
  - intros Hn k Hk.
    assert (Hr : rest = []) by (destruct rest; [reflexivity|discriminate Hn]).
    pose proof (proj1 (dict_empty_iff rest) Hr k) as Hk'.
    rewrite Hrest in Hk'.
    destruct (String.eqb k "message") eqn:E1;
      [apply String.eqb_eq in E1; auto|].
    destruct (String.eqb k "field") eqn:E2;
      [apply String.eqb_eq in E2; auto|].
    destruct (String.eqb k "field_path") eqn:E3;
      [apply String.eqb_eq in E3; auto|].
    unfold dict_has in Hk. rewrite Hk' in Hk. discriminate Hk.
  - intros Hall.
    assert (Hr : rest = []).
    { apply dict_empty_iff. intros k. rewrite Hrest.
      destruct (String.eqb k "message") eqn:E1; [reflexivity|].
      destruct (String.eqb k "field") eqn:E2; [reflexivity|].
      destruct (String.eqb k "field_path") eqn:E3; [reflexivity|].
      destruct (dict_get k d) eqn:Hk; [|reflexivity].
      apply String.eqb_neq in E1, E2, E3.
      assert (Hh : dict_has k d = true) by (unfold dict_has; now rewrite Hk).
      destruct (Hall k Hh) as [?|[?|?]]; contradiction. }
    now rewrite Hr.
Qed.

(** X7: [issubclass] on the error classes is a partial order with
    [BillogramAPIError] on top, it follows the chain of base classes
    (three steps are always enough), and so [except BillogramAPIError]
    catches every error instance of the module. *)
Theorem error_hierarchy_is_rooted_order :
  (forall c, issubclass c c = true)
  /\ (forall a b c,
        issubclass a b = true -> issubclass b c = true ->
        issubclass a c = true)
  /\ (forall a b,
        issubclass a b = true -> issubclass b a = true -> a = b)
  /\ (forall c, issubclass c BillogramAPIError = true)
  /\ (forall a b,
        issubclass a b = true <->
        a = b \/ exists p, base_class a = Some p /\ issubclass p b = true)
  /\ (forall e, caught_by BillogramAPIError (APIError e) = true).
Proof.
  split; [now intros []|].
  split.
  { intros a b c. destruct a, b; cbn; try discriminate; intros _;
      destruct c; cbn; try discriminate; reflexivity. }
  split.
  { intros a b. destruct a, b; cbn; try discriminate; reflexivity. }
  split; [now intros []|].
  split.
  { intros a b. split.
    - destruct a, b; cbn; try discriminate; intros _;
        first [ left; reflexivity
              | right; eexists; split; reflexivity ].
    - intros [-> | (p & Hp & Hs)]; [now destruct b|].
      destruct a; cbn in Hp; try discriminate Hp; injection Hp as <-;
        destruct b; cbn in Hs; try discriminate Hs; reflexivity. }
  intros e. unfold caught_by. now destruct (err_class e).
Qed.

(** ** Calls on remote objects *)

Lemma silent_one (A : Type) (m : M (RemoteObject.t * world) A) o w :
  silent_at m o w -> one_at m o w.
Proof.
  intros [Hw Ha]. split; [|exact Ha].
  exists []. rewrite app_nil_r. repeat split; [exact Hw|cbn; lia|constructor].
Qed.

Lemma bind_silent (A B : Type) (m : M (RemoteObject.t * world) A)
    (k : A -> M (RemoteObject.t * world) B) o w :
  silent_at m o w ->
  (forall a o', m (o, w) = (Ok a, (o', w)) -> silent_at (k a) o' w) ->
  silent_at (bind m k) o w.
Proof.
  unfold silent_at, bind. intros [Hw Ha] Hk.
  destruct (m (o, w)) as [[a|e] [o' w']]; cbn [fst snd] in *.
  - subst w'. destruct (Hk a o' eq_refl) as [Hw' Ha'].
    split; [exact Hw'|congruence].
  - now split.
Qed.

Lemma bind_silent_one (A B : Type) (m : M (RemoteObject.t * world) A)
    (k : A -> M (RemoteObject.t * world) B) o w :
  silent_at m o w ->
  (forall a o', m (o, w) = (Ok a, (o', w)) -> one_at (k a) o' w) ->
  one_at (bind m k) o w.
Proof.
  unfold silent_at, one_at, bind. intros [Hw Ha] Hk.
  destruct (m (o, w)) as [[a|e] [o' w']]; cbn [fst snd] in *.
  - subst w'. destruct (Hk a o' eq_refl) as [(sent & Hs & Hl & Hf) Ha'].
    rewrite Ha in Hf. split; [now exists sent|congruence].
  - split; [|exact Ha]. exists []. rewrite app_nil_r.
    repeat split; [exact Hw|cbn; lia|constructor].
Qed.

Lemma bind_one_silent (A B : Type) (m : M (RemoteObject.t * world) A)
    (k : A -> M (RemoteObject.t * world) B) o w :
  one_at m o w ->
  (forall a o' w', m (o, w) = (Ok a, (o', w')) -> silent_at (k a) o' w') ->
  one_at (bind m k) o w.
Proof.
  unfold silent_at, one_at, bind. intros [(sent & Hs & Hl & Hf) Ha] Hk.
  destruct (m (o, w)) as [[a|e] [o' w']]; cbn [fst snd] in *.
  - destruct (Hk a o' w' eq_refl) as [Hw' Ha'].
    split; [exists sent; rewrite Hw'; now repeat split|congruence].
  - split; [now exists sent|exact Ha].
Qed.

Lemma silent_get_self o w : silent_at get_self o w.
Proof. now split. Qed.

Lemma silent_lift (A : Type) (r : result A) o w : silent_at (lift r) o w.
Proof. now split. Qed.

Lemma silent_ret (A : Type) (a : A) o w : silent_at (ret a) o w.
Proof. now split. Qed.

Lemma silent_assert b o w : silent_at (assert_ b) o w.
Proof. unfold assert_. now destruct b. Qed.

Lemma silent_set_data d o w : silent_at (set_data d) o w.
Proof. now split. Qed.

(** The four verbs each send one request in the name of the
    connection. *)
Lemma one_on_world_verb (rq : Request) expect o w :
  sent_by (RemoteObject._api o) rq ->
  one_at (on_world (resp <- perform rq ;;
                    lift (_check_api_response resp expect))) o w.
Proof.
  intros Hs. unfold one_at, on_world. cbn [fst snd].
  destruct ((resp <- perform rq ;; lift (_check_api_response resp expect)) w)
    as [r w'] eqn:E.
  apply exchange_logged in E. subst w'. cbn [fst snd].
  split; [|reflexivity]. exists [rq].
  repeat split; [cbn; lia|]. now constructor.
Qed.

Lemma sent_by_path api m path params body headers :
  In ("user-agent", BillogramAPI._user_agent api) headers ->
  sent_by api
    (mk_request m (BillogramAPI._api_base api ++ "/" ++ path)
       (BillogramAPI._auth api) params body headers).
Proof.
  intros H. split; [reflexivity|]. split; [exact H|]. now exists path.
Qed.

Ltac verb :=
  apply one_on_world_verb; apply sent_by_path; cbn [In]; tauto.

Lemma one_perform_event name body o w : one_at (perform_event name body) o w.
Proof.
  unfold perform_event.
  apply bind_silent_one; [apply silent_get_self|].
  intros self o' H. injection H as <- <-.
  apply bind_silent_one; [apply silent_lift|].
  intros url o' H. injection H as _ <-.
  apply bind_one_silent; [unfold BillogramAPI_post; verb|].
  intros resp o' w' _.
  apply bind_silent; [apply silent_lift|].
  intros d o2 _. apply silent_set_data.
Qed.

Lemma one_refresh o w : one_at refresh o w.
Proof.
  unfold refresh.
  apply bind_silent_one; [apply silent_get_self|].
  intros self o' H. injection H as <- <-.
  apply bind_silent_one; [apply silent_lift|].
  intros url o' H. injection H as _ <-.
  apply bind_one_silent; [unfold BillogramAPI_get; verb|].
  intros resp o' w' _.
  apply bind_silent; [apply silent_lift|].
  intros d o2 _. apply silent_set_data.
Qed.

Lemma one_update body o w : one_at (update body) o w.
Proof.
  unfold update.
  apply bind_silent_one; [apply silent_get_self|].
  intros self o' H. injection H as <- <-.
  apply bind_silent_one; [apply silent_lift|].
  intros url o' H. injection H as _ <-.
  apply bind_one_silent; [unfold BillogramAPI_put; verb|].
  intros resp o' w' _.
  apply bind_silent; [apply silent_lift|].
  intros d o2 _. apply silent_set_data.
Qed.

Lemma one_delete o w : one_at delete o w.
Proof.
  unfold delete.
  apply bind_silent_one; [apply silent_get_self|].
  intros self o' H. injection H as <- <-.
  apply bind_silent_one; [apply silent_lift|].
  intros url o' H. injection H as _ <-.
  apply bind_one_silent; [unfold BillogramAPI_delete; verb|].
  intros resp o' w' _. apply silent_ret.
Qed.

Lemma one_data o w : one_at data o w.
Proof.
  unfold data.
  apply bind_silent_one; [apply silent_get_self|].
  intros self o' H. injection H as <- <-.
  apply bind_one_silent.
  - destruct (is_None (RemoteObject._data o));
      [apply one_refresh|apply silent_one, silent_ret].
  - intros [] o' w' _.
    apply bind_silent; [apply silent_get_self|].
    intros self o2 _. apply silent_ret.
Qed.

Lemma one_pdf path params (k : retval -> M (RemoteObject.t * world) string)
    o w :
  (forall r o' w', silent_at (k r) o' w') ->
  one_at (self <- get_self ;;
          base <- lift (_url self) ;;
          resp <- on_world (BillogramAPI_get (RemoteObject._api self)
                              (base ++ path) params
                              (Some "application/json")) ;;
          k resp) o w.
Proof.
  intros Hk.
  apply bind_silent_one; [apply silent_get_self|].
  intros self o' H. injection H as <- <-.
  apply bind_silent_one; [apply silent_lift|].
  intros url o' H. injection H as _ <-.
  apply bind_one_silent; [unfold BillogramAPI_get; verb|].
  intros resp o' w' _. apply Hk.
Qed.

Lemma silent_decode resp o w :
  silent_at (d <- lift (retval_getitem resp "data") ;;
             c <- lift (py_getitem d "content") ;;
             lift (b64decode c)) o w.
Proof.
  apply bind_silent; [apply silent_lift|]. intros d o1 _.
  apply bind_silent; [apply silent_lift|]. intros c o2 _.
  apply silent_lift.
Qed.

Lemma one_then_unit (A : Type) (m : M (RemoteObject.t * world) A) o w :
  one_at m o w -> one_at (_ <- m ;; ret tt) o w.
Proof.
  intros H. apply bind_one_silent; [exact H|].
  intros a o' w' _. apply silent_ret.
Qed.

(** X8: whatever it is called with and however the server answers, a
    method of a remote object sends at most one request, and that
    request carries the credentials and the user agent of the object's
    connection and goes to a URL under its base; the object stays on
    its connection. *)
Theorem object_method_sends_at_most_one m o w :
  (exists sent,
      snd (snd (run_method m (o, w))) = (w ++ sent)%list
      /\ (List.length sent <= 1)%nat
      /\ Forall (sent_by (RemoteObject._api o)) sent)
  /\ RemoteObject._api (fst (snd (run_method m (o, w))))
     = RemoteObject._api o.
Proof.
  change (one_at (run_method m) o w).
  destruct m as [c|c| | |key|a b|a b]; cbn [run_method].
  - destruct c; cbn [run_call];
      [apply one_refresh|apply one_update|apply one_perform_event].
  - destruct c; cbn [run_event];
      unfold create_payment, credit_amount, credit_full, credit_remaining,
        send_message, send_to_collector, send_to_factoring, send_reminder,
        resend, send;
      try apply one_perform_event;
      try (apply bind_silent_one; [apply silent_assert|];
           intros; apply one_perform_event).
    + destruct (truthy method); [|apply one_perform_event].
      apply bind_silent_one; [apply silent_assert|].
      intros; apply one_perform_event.
    + destruct (truthy method); [|apply one_perform_event].
      apply bind_silent_one; [apply silent_assert|].
      intros; apply one_perform_event.
  - apply one_delete.
  - apply one_then_unit, one_data.
  - apply one_then_unit. unfold __getitem__.
    apply bind_one_silent; [apply one_data|].
    intros d o' w' _. apply silent_lift.
  - apply one_then_unit. unfold get_invoice_pdf.
    apply one_pdf. intros; apply silent_decode.
  - apply one_then_unit. unfold get_attachment_pdf.
    apply one_pdf. intros; apply silent_decode.
Qed.

(** X9: each event method first checks its arguments on the spot: a
    non-positive amount, a method outside the media accepted by that
    call, ends in an assertion error with nothing sent and the object
    untouched; a call that passes is exactly [perform_event] with the
    event name and the data of that method, where an empty method for a
    reminder or a resend means that no data is posted. *)
Theorem event_methods_validate_then_post c o w :
  run_event c (o, w) =
  if locally_valid c
  then perform_event (event_name c) (event_data c) (o, w)
  else (Raise (Builtin AssertionError), (o, w)).
Proof.
  destruct c as [a|a| | |m| | |m|m|m]; cbn [run_event locally_valid
    event_name event_data]; try reflexivity.
  - unfold create_payment, bind at 1, assert_.
    now destruct (0 <? a).
  - unfold credit_amount, bind at 1, assert_.
    now destruct (0 <? a).
  - unfold send_reminder. destruct (truthy m); cbn [negb orb]; [|reflexivity].
    unfold bind at 1, assert_. now destruct (in_strs m ["Email"; "Letter"]).
  - unfold send, bind at 1, assert_.
    now destruct (in_strs m ["Email"; "Letter"; "Email+Letter"]).
  - unfold resend. destruct (truthy m); cbn [negb orb]; [|reflexivity].
    unfold bind at 1, assert_. now destruct (in_strs m ["Email"; "Letter"]).
Qed.

(** Where the URL of an object comes from. *)
Lemma url_cases self :
  match RemoteObject._object_class self with
  | RemoteObject.UrlName url_name => _url self = Ok url_name
  | RemoteObject.Class c =>
      match RemoteObject._data self with
      | JNull => _url self = Raise (Builtin RecursionError)
      | JObj d =>
          match dict_get (SimpleClass._object_id_field c) d with
          | Some id =>
              _url self = Ok (SimpleClass._url_name c ++ "/" ++ py_str id)
          | None => _url self = Raise (Builtin KeyError)
          end
      | _ => _url self = Raise (Builtin TypeError)
      end
  end.
Proof.
  unfold _url. destruct (RemoteObject._object_class self) as [n|c];
    [reflexivity|].
  unfold _url_of.
  destruct (RemoteObject._data self) as [| | | | |d]; try reflexivity.
  cbn [is_None py_getitem].
  destruct (dict_get (SimpleClass._object_id_field c) d); reflexivity.
Qed.

(** X10: the URL of a singleton is its name and cannot fail; the URL of
    a member of a collection is the collection's name, a slash and the
    text of the id found in its snapshot, and fails when the snapshot has
    no such id.  When the URL cannot be formed, [refresh], [update], every
    event that passes its local check and [delete] raise that error
    without sending anything and without touching the object. *)
Theorem no_url_no_request self w :
  (forall name, RemoteObject._object_class self = RemoteObject.UrlName name ->
                _url self = Ok name)
  /\ (forall c d id,
        RemoteObject._object_class self = RemoteObject.Class c ->
        RemoteObject._data self = JObj d ->
        dict_get (SimpleClass._object_id_field c) d = Some id ->
        _url self = Ok (SimpleClass._url_name c ++ "/" ++ py_str id))
  /\ (forall c d,
        RemoteObject._object_class self = RemoteObject.Class c ->
        RemoteObject._data self = JObj d ->
        dict_get (SimpleClass._object_id_field c) d = None ->
        _url self = Raise (Builtin KeyError))
  /\ (forall e,
        _url self = Raise e ->
        (forall c, run_call c (self, w) = (Raise e, (self, w)))
        /\ (forall c, locally_valid c = true ->
                      run_event c (self, w) = (Raise e, (self, w)))
        /\ delete (self, w) = (Raise e, (self, w))).
Proof.
  pose proof (url_cases self) as H.
  split; [intros name Hc; now rewrite Hc in H|].
  split; [intros c d id Hc Hd Hi; now rewrite Hc, Hd, Hi in H|].
  split; [intros c d Hc Hd Hi; now rewrite Hc, Hd, Hi in H|].
  intros e He.
  assert (Hcall : forall c, run_call c (self, w) = (Raise e, (self, w))).
  { intros c. rewrite snapshot_call_shape. now rewrite He. }
  split; [exact Hcall|]. split.
  - intros c Hv. rewrite event_methods_validate_then_post, Hv.
    exact (Hcall (PerformEvent (event_name c) (event_data c))).
  - unfold delete, bind at 1. cbn [get_self fst].
    unfold bind at 1, lift at 1. now rewrite He.
Qed.

(** X11: a [refresh], [update] or event that raises leaves the object
    exactly as it was, whether it failed before, during or after the
    exchange; [delete] never changes the local object, not even when the
    server has removed the remote one. *)
Theorem failed_call_keeps_object o w :
  (forall c e o' w',
      run_call c (o, w) = (Raise e, (o', w')) -> o' = o)
  /\ (forall c e o' w',
        run_event c (o, w) = (Raise e, (o', w')) -> o' = o)
  /\ (forall r o' w', delete (o, w) = (r, (o', w')) -> o' = o).
Proof.
  assert (Hcall : forall c e o' w',
             run_call c (o, w) = (Raise e, (o', w')) -> o' = o).
  { intros c e o' w'. rewrite snapshot_call_shape.
    destruct (_url o) as [url|e0]; [|intros H; now injection H].
    destruct ((resp <- perform _ ;; lift _) w) as [[r|e0] w1];
      [|intros H; now injection H].
    destruct (retval_getitem r "data"); intros H;
      [discriminate H|now injection H]. }
  split; [exact Hcall|]. split.
  - intros c e o' w'. rewrite event_methods_validate_then_post.
    destruct (locally_valid c); [|intros H; now injection H].
    exact (Hcall (PerformEvent (event_name c) (event_data c)) e o' w').
  - intros r o' w'. unfold delete, bind at 1. cbn [get_self fst].
    unfold bind at 1, lift at 1.
    destruct (_url o) as [url|e0]; [|intros H; now injection H].
    unfold bind at 1, on_world. cbn [fst snd].
    destruct (BillogramAPI_delete (RemoteObject._api o) url w) as [[x|e0] w1];
      intros H; now injection H.
Qed.

(** ** The connection *)

(** X12: each sub-resource of a connection is built on first access and
    kept: the access fills its slot and no other, a second access hands
    out the same wrapper and changes nothing, and a wrapper built on an
    empty slot refers to this connection, a singleton starting without
    a snapshot. *)
Theorem subresource_is_built_once r c :
  let x := fst (Connection.access r c) in
  let c1 := snd (Connection.access r c) in
  Connection.slot r c1 = Some x
  /\ Connection.access r c1 = (x, c1)
  /\ Connection.api c1 = Connection.api c
  /\ (forall r', r' <> r -> Connection.slot r' c1 = Connection.slot r' c)
  /\ (forall y, Connection.slot r c = Some y -> x = y /\ c1 = c)
  /\ (Connection.slot r c = None -> fresh_for (Connection.api c) x).
Proof.
  destruct c as [api i cu b se l re].
  destruct r;
    [destruct i|destruct cu|destruct b|destruct se|destruct l|destruct re];
    cbn; repeat split; intros;
    try discriminate; try reflexivity;
    try match goal with
        | H : Some _ = Some _ |- _ => injection H as <-; reflexivity
        end;
    try match goal with
        | H : ?r' <> _ |- _ =>
            destruct r'; try reflexivity; now contradiction H
        end.
Qed.

(** A read of [data] with a snapshot at hand. *)
Lemma data_cached o w :
  is_None (RemoteObject._data o) = false ->
  data (o, w) = (Ok (RemoteObject._data o), (o, w)).
Proof.
  intros H. unfold data, bind at 1. cbn [get_self fst]. now rewrite H.
Qed.

(** A read of [data] without one. *)
Lemma data_uncached o w :
  is_None (RemoteObject._data o) = true ->
  data (o, w) =
  match refresh (o, w) with
  | (Ok _, (o', w')) => (Ok (RemoteObject._data o'), (o', w'))
  | (Raise e, s') => (Raise e, s')
  end.
Proof.
  intros H. unfold data, bind at 1. cbn [get_self fst]. rewrite H.
  unfold bind at 1.
  destruct (refresh (o, w)) as [[[]|e] [o' w']]; reflexivity.
Qed.

(** X13: the first read of a field of [api.settings] on a new
    connection sends exactly one request, a GET of [settings]; when it
    returns a value, every later read of any field is answered from the
    snapshot kept in the connection: nothing is sent and nothing
    changes. *)
Theorem settings_are_fetched_once c w key :
  Connection._settings c = None ->
  let first := on_settings (__getitem__ key) (c, w) in
  snd (snd first)
  = (w ++ [get_request (Connection.api c) "settings" JNull])%list
  /\ (forall v,
        fst first = Ok v ->
        exists d,
          option_map RemoteObject._data (Connection._settings (fst (snd first)))
          = Some (JObj d)
          /\ dict_get key d = Some v
          /\ forall key',
              on_settings (__getitem__ key') (snd first)
              = (py_getitem (JObj d) key', snd first)).
Proof.
  intros Hs. cbv zeta.
  set (o := RemoteObject.mk (Connection.api c)
              (RemoteObject.UrlName "settings") JNull).
  set (rq := get_request (Connection.api c) "settings" JNull).
  assert (Hfirst :
            on_settings (__getitem__ key) (c, w) =
            match (resp <- perform rq ;;
                   lift (_check_api_response resp None)) w with
            | (Raise e, w1) =>
                (Raise e, (Connection.with_settings c o, w1))
            | (Ok resp, w1) =>
                match retval_getitem resp "data" with
                | Raise e => (Raise e, (Connection.with_settings c o, w1))
                | Ok d =>
                    (py_getitem d key,
                     (Connection.with_settings c (RemoteObject.with_data o d),
                      w1))
                end
            end).
  { unfold on_settings. cbn [fst snd]. unfold Connection.settings.
    rewrite Hs. fold o.
    unfold __getitem__, bind at 1. rewrite data_uncached by reflexivity.
    change (refresh (o, w)) with (run_call Refresh (o, w)).
    rewrite snapshot_call_shape.
    change (_url o) with (@Ok string "settings"). cbv iota beta.
    change (request_of Refresh o "settings") with rq.
    destruct ((resp <- perform rq ;; lift _) w) as [[resp|e] w1];
      [|reflexivity].
    destruct (retval_getitem resp "data") as [d|e]; reflexivity. }
  rewrite Hfirst.
  destruct ((resp <- perform rq ;; lift _) w) as [r w1] eqn:Hx.
  pose proof (exchange_logged _ _ _ _ _ Hx) as ->.
  destruct r as [resp|e]; [|split; [reflexivity|intros v Hv; discriminate Hv]].
  destruct (retval_getitem resp "data") as [d|e];
    [|split; [reflexivity|intros v Hv; discriminate Hv]].
  cbn [fst snd]. split; [reflexivity|].
  intros v Hv.
  destruct d as [| | | | |d]; try discriminate Hv.
  exists d. split; [reflexivity|].
  cbn [py_getitem] in Hv.
  destruct (dict_get key d) as [x|]; [|discriminate Hv].
  split; [now injection Hv as ->|].
  intros key'. unfold on_settings. cbn [fst snd Connection.settings
    Connection.with_settings Connection._settings].
  unfold __getitem__, bind at 1. rewrite data_cached by reflexivity.
  reflexivity.
Qed.

(** ** Collections *)

(** X14: [create] posts the data to the URL of the collection, and
    [get] with an id other than [None] sends one GET to the URL of the
    collection, a slash and the text of the id: one request each,
    whether they return or raise.  An object that is returned belongs to
    the collection and its connection and holds the [data] member of the
    answered envelope, and the URL of an object returned by [get] is the
    path that was fetched whenever the answered data carries that id.
    [get(None)] sends nothing: forming the URL raises a [TypeError]. *)
Theorem create_and_get_wrap_the_answer self w :
  (forall data r w',
      create self data w = (r, w') ->
      w' = (w ++ [create_request self data])%list
      /\ forall o,
          r = Ok o ->
          exists resp env d,
            remote w (create_request self data) = Reply resp
            /\ json_body resp = Some (JObj env)
            /\ dict_get "data" env = Some d
            /\ o = RemoteObject.mk (SimpleClass._api self)
                     (RemoteObject.Class self) d)
  /\ (forall id r w',
        is_None id = false ->
        get self id w = (r, w') ->
        let path := SimpleClass._url_name self ++ "/" ++ py_str id in
        w' = (w ++ [get_request (SimpleClass._api self) path JNull])%list
        /\ forall o,
            r = Ok o ->
            (exists resp env d,
                remote w (get_request (SimpleClass._api self) path JNull)
                = Reply resp
                /\ json_body resp = Some (JObj env)
                /\ dict_get "data" env = Some d
                /\ o = RemoteObject.mk (SimpleClass._api self)
                         (RemoteObject.Class self) d)
            /\ (forall d,
                  RemoteObject._data o = JObj d ->
                  dict_get (SimpleClass._object_id_field self) d = Some id ->
                  _url o = Ok path))
  /\ get self JNull w = (Raise (Builtin TypeError), w).
Proof.
  assert (Hshape : forall rq r w',
             (resp <- (resp <- perform rq ;;
                       lift (_check_api_response resp None)) ;;
              d <- lift (retval_getitem resp "data") ;;
              ret (RemoteObject.mk (SimpleClass._api self)
                     (RemoteObject.Class self) d)) w = (r, w') ->
             w' = (w ++ [rq])%list
             /\ forall o,
                 r = Ok o ->
                 exists resp env d,
                   remote w rq = Reply resp
                   /\ json_body resp = Some (JObj env)
                   /\ dict_get "data" env = Some d
                   /\ o = RemoteObject.mk (SimpleClass._api self)
                            (RemoteObject.Class self) d).
  { intros rq r w'. unfold bind at 1.
    destruct ((resp <- perform rq ;; lift _) w) as [x w1] eqn:Hx.
    pose proof (exchange_logged _ _ _ _ _ Hx) as ->.
    destruct x as [resp|e].
    2: { intros H. injection H as <- <-. split; [reflexivity|].
         intros o Ho. discriminate Ho. }
    destruct (exchange_ok_inv _ _ _ _ Hx) as (rp & env & Hr & Hb & -> & _).
    unfold bind at 1, lift at 1. cbn [retval_getitem py_getitem].
    destruct (dict_get "data" env) as [d|] eqn:Hd.
    - intros H. injection H as <- <-. split; [reflexivity|].
      intros o Ho. injection Ho as <-. now exists rp, env, d.
    - intros H. injection H as <- <-. split; [reflexivity|].
      intros o Ho. discriminate Ho. }
  split; [|split].
  - intros data0 r w' H. exact (Hshape (create_request self data0) r w' H).
  - intros id r w' Hid H. cbv zeta.
    unfold get, bind at 1, lift at 1, _url_of in H. rewrite Hid in H.
    cbn [rbind] in H.
    destruct (Hshape (get_request (SimpleClass._api self)
                        (SimpleClass._url_name self ++ "/" ++ py_str id) JNull)
                r w' H) as [Hw Ho].
    split; [exact Hw|]. intros o Hr. split; [exact (Ho o Hr)|].
    intros d Hd Hfield.
    destruct (Ho o Hr) as (resp & env & d' & _ & _ & _ & ->).
    cbn [RemoteObject._data] in Hd. subst d'.
    unfold _url, _url_of. cbn [RemoteObject._object_class RemoteObject._data
      is_None py_getitem]. now rewrite Hfield.
  - reflexivity.
Qed.

Lemma dict_get_set_eq k v (d : dict) : dict_get k (dict_set k v d) = Some v.
Proof.
  induction d as [|[k' v'] d IH]; cbn [dict_set dict_get].
  - now rewrite String.eqb_refl.
  - destruct (String.eqb k k') eqn:E; cbn [dict_get]; rewrite E;
      [reflexivity|exact IH].
Qed.

Lemma dict_get_set_neq k k' v (d : dict) :
  k <> k' -> dict_get k (dict_set k' v d) = dict_get k d.
Proof.
  intros Hne. apply String.eqb_neq in Hne.
  induction d as [|[k2 v2] d IH]; cbn [dict_set dict_get].
  - now rewrite Hne.
  - destruct (String.eqb k' k2) eqn:E; cbn [dict_get].
    + apply String.eqb_eq in E. subst k2. now rewrite Hne.
    + destruct (String.eqb k k2); [reflexivity|exact IH].
Qed.

(** X15: [create_and_sell] writes the [_event] entry into the caller's
    dict before anything is sent, so the dict stays changed whatever
    the outcome; the body posted is that dict, with [_event] equal to
    [sell], in place of any earlier value, and every other entry as
    given; and the call is one [create] of that body, with no delete on
    failure. *)
Theorem create_and_sell_marks_the_data self data w :
  let body := dict_set "_event" (JStr "sell") data in
  dict_get "_event" body = Some (JStr "sell")
  /\ (forall k, k <> "_event" -> dict_get k body = dict_get k data)
  /\ create_and_sell self (data, w)
     = (fst (create self (JObj body) w),
        (body, snd (create self (JObj body) w)))
  /\ snd (create self (JObj body) w)
     = (w ++ [create_request self (JObj body)])%list.
Proof.
  cbv zeta. split; [apply dict_get_set_eq|].
  split; [intros k Hk; now apply dict_get_set_neq|].
  split.
  - unfold create_and_sell, bind, get_self, put_self, on_world.
    cbn [fst snd].
    destruct (create self (JObj (dict_set "_event" (JStr "sell") data)) w)
      as [[o|e] w']; reflexivity.
  - destruct (create self (JObj (dict_set "_event" (JStr "sell") data)) w)
      as [r w'] eqn:E. cbn [snd].
    unfold create, bind at 1 in E.
    destruct (BillogramAPI_post _ _ _ w) as [x w1] eqn:Hx.
    unfold BillogramAPI_post in Hx. apply exchange_logged in Hx. subst w1.
    destruct x as [resp|e]; [|now injection E as _ <-].
    unfold bind, lift, ret in E.
    destruct (retval_getitem resp "data"); now injection E as _ <-.
Qed.

(** ** Building queries *)

Lemma set_filter_ok s value :
  value = [] \/ complete_filter value = true ->
  set_filter value s = (Ok tt, after_filter s value).
Proof.
  intros Hv. unfold after_filter.
  destruct (py_eq (JObj value) _) eqn:E.
  - now apply set_filter_equal.
  - now apply set_filter_accepts.
Qed.

Lemma strs_map_JStr l : strs (map JStr l) = l.
Proof. induction l as [|x l IH]; [reflexivity|]. cbn. now rewrite IH. Qed.

Lemma all_str_map_JStr l : forallb is_str (map JStr l) = true.
Proof. induction l as [|x l IH]; [reflexivity|exact IH]. Qed.

(** X16: the filter helpers never fail on arguments other than [None]:
    [filter_field], [filter_prefix], [filter_search] and [filter_special]
    install the filter of their type on the given field and value, and
    [search] the special filter [search]; an argument that is [None]
    removes the filter instead, as [remove_filter] does.  In each case
    the count is forgotten unless the filter is the one already set. *)
Theorem filter_helpers_always_accepted s field value :
  (is_None field = false -> is_None value = false ->
   filter_field field value s
   = (Ok tt, after_filter s (filter_spec (JStr "field") field value))
   /\ filter_prefix field value s
      = (Ok tt, after_filter s (filter_spec (JStr "field-prefix") field value))
   /\ filter_search field value s
      = (Ok tt, after_filter s (filter_spec (JStr "field-search") field value))
   /\ filter_special field value s
      = (Ok tt, after_filter s (filter_spec (JStr "special") field value))
   /\ search value s
      = (Ok tt,
         after_filter s (filter_spec (JStr "special") (JStr "search") value)))
  /\ (is_None field = true \/ is_None value = true ->
      filter_field field value s = remove_filter s
      /\ filter_prefix field value s = remove_filter s
      /\ filter_search field value s = remove_filter s
      /\ filter_special field value s = remove_filter s)
  /\ remove_filter s = (Ok tt, after_filter s []).
Proof.
  split; [|split].
  - intros Hf Hv.
    unfold filter_field, filter_prefix, filter_search, filter_special, search,
      make_filter. cbn [is_None orb]. rewrite Hf, Hv. cbn [orb].
    repeat split; apply set_filter_ok; right; reflexivity.
  - intros H.
    unfold filter_field, filter_prefix, filter_search, filter_special,
      make_filter, remove_filter. cbn [is_None orb].
    destruct H as [H|H]; rewrite H; rewrite ?orb_true_r; cbn [orb];
      repeat split.
  - unfold remove_filter. apply set_filter_ok. now left.
Qed.

(** X17: [filter_state_any] takes the states as separate arguments or
    as one list, with the same effect: the filter becomes the exact
    match of the field [state] against the states joined by commas, in
    the order given; and when one of the states is not a string the
    call fails an assertion and leaves the query alone. *)
Theorem filter_state_any_joins_states s :
  (forall names,
      let spec := filter_spec (JStr "field") (JStr "state")
                    (JStr (String.concat "," names)) in
      filter_state_any [JArr (map JStr names)] s = (Ok tt, after_filter s spec)
      /\ filter_state_any (map JStr names) s = (Ok tt, after_filter s spec))
  /\ (forall states,
        forallb is_str states = false ->
        filter_state_any [JArr states] s
        = (Raise (Builtin AssertionError), s)).
Proof.
  assert (Hgo : forall names,
             (assert_ (forallb is_str (map JStr names)) ;;
              filter_field (JStr "state")
                (JStr (String.concat "," (strs (map JStr names))))) s
             = (Ok tt,
                after_filter s
                  (filter_spec (JStr "field") (JStr "state")
                     (JStr (String.concat "," names))))).
  { intros names. rewrite all_str_map_JStr, strs_map_JStr.
    unfold bind, assert_, ret.
    unfold filter_field, make_filter. cbn [is_None orb].
    apply set_filter_ok. right. reflexivity. }
  split.
  - intros names. cbv zeta. split.
    + unfold filter_state_any. apply Hgo.
    + unfold filter_state_any.
      destruct names as [|a [|b names]];
        [apply (Hgo [])|apply (Hgo [a])|apply (Hgo (a :: b :: names))].
  - intros states Hs. unfold filter_state_any. rewrite Hs. reflexivity.
Qed.

(** X18: the order setter refuses a non-empty specification that lacks
    the field or the direction, or whose direction is neither [asc] nor
    [desc], with an assertion error and no change; any other value is
    installed as a new dict, and neither the filter, the page size, the
    cached count nor the log of requests is touched. *)
Theorem order_setter_contract s value :
  (value <> [] -> complete_order value = false ->
   set_order value s = (Raise (Builtin AssertionError), s))
  /\ (value = [] \/ complete_order value = true ->
      set_order value s = (Ok tt, order_assigned s value)
      /\ deref (q_heap (order_assigned s value))
           (Query._order (q_self (order_assigned s value))) = value
      /\ Query._filter (q_self (order_assigned s value))
         = Query._filter (q_self s)
      /\ Query._count_cached (q_self (order_assigned s value))
         = Query._count_cached (q_self s)
      /\ q_log (order_assigned s value) = q_log s).
Proof.
  split.
  - intros Hne Hc. destruct value as [|kv value']; [contradiction|].
    remember (kv :: value') as value.
    unfold set_order. replace (truthy (JObj value)) with true by now subst.
    unfold complete_order in Hc.
    unfold bind at 1, assert_.
    destruct (dict_has "order_field" value && dict_has "order_direction" value)
      eqn:Hk; [|reflexivity].
    cbn [andb] in Hc. cbn [ret]. unfold bind at 1, lift at 1.
    cbn [py_getitem].
    destruct (dict_get "order_direction" value) as [d|] eqn:Hd.
    + unfold bind at 1. now rewrite Hc.
    + apply andb_true_iff in Hk as [_ Hk]. unfold dict_has in Hk.
      rewrite Hd in Hk. discriminate Hk.
  - intros Hv.
    assert (Hd : deref (q_heap (order_assigned s value))
                   (Query._order (q_self (order_assigned s value))) = value).
    { unfold order_assigned, deref. cbn [q_heap q_self Query._order].
      now rewrite nth_middle. }
    split; [|repeat split; exact Hd].
    destruct Hv as [-> | Hc]; [reflexivity|].
    destruct value as [|kv value']; [discriminate Hc|].
    remember (kv :: value') as value.
    unfold set_order. replace (truthy (JObj value)) with true by now subst.
    unfold complete_order in Hc. apply andb_true_iff in Hc as [Hk Hdir].
    unfold bind at 1, assert_. rewrite Hk. cbn [ret].
    unfold bind at 1, lift at 1. cbn [py_getitem].
    destruct (dict_get "order_direction" value) as [d|]; [|discriminate Hdir].
    unfold bind at 1. rewrite Hdir. reflexivity.
Qed.

(** ** What a query sends and gets *)

Lemma dict_get_app k (d e : dict) :
  dict_get k (d ++ e)%list =
  match dict_get k d with Some v => Some v | None => dict_get k e end.
Proof.
  induction d as [|[k' v] d IH]; [reflexivity|].
  cbn [app dict_get]. now destruct (String.eqb k k').
Qed.

Lemma dict_get_set k k' v (d : dict) :
  dict_get k (dict_set k' v d) =
  if String.eqb k k' then Some v else dict_get k d.
Proof.
  destruct (String.eqb k k') eqn:E.
  - apply String.eqb_eq in E. subst k'. apply dict_get_set_eq.
  - apply String.eqb_neq in E. now apply dict_get_set_neq.
Qed.

(** [update] gives each key the last value written for it. *)
Lemma dict_get_update k (e : dict) : forall d,
  dict_get k (dict_update d e) =
  match dict_last k e with Some v => Some v | None => dict_get k d end.
Proof.
  unfold dict_update, dict_last.
  induction e as [|[k' v'] e IH]; intros d; [reflexivity|].
  cbn [fold_left rev fst snd]. rewrite IH, dict_get_app.
  destruct (dict_get k (rev e)); [reflexivity|].
  cbn [dict_get]. rewrite dict_get_set. now destruct (String.eqb k k').
Qed.

(** In a dict with each key once, the last value is the only one. *)
Lemma dict_last_unique k (e : dict) :
  unique_keys e -> dict_last k e = dict_get k e.
Proof.
  unfold unique_keys, dict_last.
  induction e as [|[k' v'] e IH]; intros Hnd; [reflexivity|].
  cbn [map fst] in Hnd. inversion Hnd as [|? ? Hnotin Hnd']; subst.
  cbn [rev dict_get]. rewrite dict_get_app, (IH Hnd').
  destruct (dict_get k e) as [v|] eqn:Hk.
  - destruct (String.eqb k k') eqn:E; [|reflexivity].
    apply String.eqb_eq in E. subst k'. exfalso. apply Hnotin.
    apply dict_has_In. unfold dict_has. now rewrite Hk.
  - cbn [dict_get]. reflexivity.
Qed.

Lemma dict_set_unique k v (d : dict) :
  unique_keys d -> unique_keys (dict_set k v d).
Proof.
  unfold unique_keys. induction d as [|[k' v'] d IH]; intros Hnd.
  - cbn. constructor; [intros []|constructor].
  - cbn [map fst] in Hnd. inversion Hnd as [|? ? Hnotin Hnd']; subst.
    cbn [dict_set]. destruct (String.eqb k k') eqn:E; cbn [map fst].
    + constructor; assumption.
    + constructor; [|now apply IH].
      intros Hin. apply dict_has_In in Hin. unfold dict_has in Hin.
      rewrite dict_get_set in Hin.
      destruct (String.eqb k' k) eqn:E'.
      * apply String.eqb_eq in E'. subst k'.
        now rewrite String.eqb_refl in E.
      * apply Hnotin. apply dict_has_In. exact Hin.
Qed.

Lemma dict_update_unique (e : dict) : forall d,
  unique_keys d -> unique_keys (dict_update d e).
Proof.
  unfold dict_update. induction e as [|[k v] e IH]; intros d Hd; [exact Hd|].
  cbn [fold_left fst snd]. apply IH. now apply dict_set_unique.
Qed.

(** X19: every fetch of a query sends exactly one GET to the URL of its
    collection, whose parameters are the page size in force, the page
    number and the entries of the filter and of the order; where names
    clash an entry of the order wins over one of the filter, and both
    win over the paging parameters. *)
Theorem query_request_parameters s page_number page_size :
  let rq := query_request s page_number page_size in
  let q := q_self s in
  q_log (snd (_make_query page_number page_size s)) = (q_log s ++ [rq])%list
  /\ req_method rq = GET
  /\ req_url rq
     = BillogramAPI._api_base (SimpleClass._api (Query._type_class q))
         ++ "/" ++ SimpleClass._url_name (Query._type_class q)
  /\ exists params,
      req_params rq = JObj params
      /\ forall k,
          unique_keys (deref (q_heap s) (Query._filter q)) ->
          unique_keys (deref (q_heap s) (Query._order q)) ->
          dict_get k params =
          match dict_get k (deref (q_heap s) (Query._order q)) with
          | Some v => Some v
          | None =>
              match dict_get k (deref (q_heap s) (Query._filter q)) with
              | Some v => Some v
              | None =>
                  if String.eqb k "page_size"
                  then Some (JInt (effective_page_size q page_size))
                  else if String.eqb k "page" then Some (JInt page_number)
                  else None
              end
          end.
Proof.
  cbv zeta. split.
  { destruct (_make_query page_number page_size s) as [r s'] eqn:E.
    now destruct (make_query_effect _ _ _ _ _ E). }
  split; [reflexivity|]. split; [reflexivity|].
  eexists. split; [reflexivity|].
  intros k Hf Ho.
  rewrite dict_get_update, dict_last_unique.
  2: { apply dict_update_unique, dict_update_unique. constructor. }
  rewrite !dict_get_update, (dict_last_unique _ _ Ho), (dict_last_unique _ _ Hf).
  destruct (dict_get k (deref (q_heap s) (Query._order (q_self s))));
    [reflexivity|].
  destruct (dict_get k (deref (q_heap s) (Query._filter (q_self s))));
    [reflexivity|].
  cbn [dict_get]. unfold effective_page_size.
  destruct (String.eqb k "page_size"); [reflexivity|].
  now destruct (String.eqb k "page").
Qed.

(** X20: a page that is returned holds one object per item of the
    [data] array of the answer, in the order of the array, each of the
    collection of the query with the item as its snapshot; the fetch
    stores [meta.total_count] of that answer as the count of the query,
    so that [count] then answers without a request of its own. *)
Theorem get_page_wraps_items_and_caches_count s page_number objs s' :
  get_page page_number s = (Ok objs, s') ->
  exists resp env items total_count meta,
    remote (q_log s) (query_request s page_number None) = Reply resp
    /\ json_body resp = Some (JObj env)
    /\ (d <- py_getitem (JObj env) "data" ;; py_iter d)%res = Ok items
    /\ objs = wrap_items (Query._type_class (q_self s)) items
    /\ List.length objs = List.length items
    /\ dict_get "meta" env = Some meta
    /\ py_getitem meta "total_count" = Ok total_count
    /\ s' = mk_qstate (with_count (q_self s) total_count) (q_heap s)
              (q_log s ++ [query_request s page_number None])%list
    /\ (is_None total_count = false -> count s' = (Ok total_count, s')).
Proof.
  rewrite get_page_unfold, make_query_unfold. cbv zeta.
  destruct (remote (q_log s) (query_request s page_number None))
    as [resp|reason] eqn:Hrem; [|discriminate].
  destruct (_check_api_response resp None) as [r|e] eqn:Hc; [|discriminate].
  destruct (classifier_ok_inv _ _ Hc) as (env & Hb & ->).
  cbn [retval_getitem py_getitem rbind].
  destruct (dict_get "meta" env) as [meta|] eqn:Hm; [|discriminate].
  cbn [rbind].
  destruct (py_getitem meta "total_count") as [tc|e] eqn:Ht; [|discriminate].
  cbn [retval_getitem].
  destruct (d <- py_getitem (JObj env) "data" ;; py_iter d)%res
    as [items|e] eqn:Hi; [|discriminate].
  intros H. injection H as <- <-.
  exists resp, env, items, tc, meta.
  split; [reflexivity|]. split; [exact Hb|].
  split; [exact Hi|].
  split; [reflexivity|]. split; [apply length_map|].
  split; [exact Hm|]. split; [exact Ht|]. split; [reflexivity|].
  intros Hn. now apply count_cached.
Qed.

(** ** What can escape a call *)

Lemma raise_splat_builtin (A : Type) cls v b :
  @raise_splat A cls v = Raise (Builtin b) -> b = TypeError.
Proof.
  destruct v; cbn [raise_splat]; intros H; try now injection H.
  unfold new_error in H. destruct (dict_has "self" members);
    [now injection H|].
  destruct (dict_get "message" members); [discriminate H|now injection H].
Qed.

Lemma raise_splat_no_transport (A : Type) cls v reason :
  @raise_splat A cls v <> Raise (TransportError reason).
Proof.
  destruct v; cbn [raise_splat]; try discriminate.
  unfold new_error. destruct (dict_has "self" members); [discriminate|].
  destruct (dict_get "message" members); discriminate.
Qed.

Lemma py_getitem_raises v k e :
  py_getitem v k = Raise e ->
  e = Builtin KeyError \/ e = Builtin TypeError.
Proof.
  destruct v; cbn [py_getitem]; intros H; try (right; now injection H).
  destruct (dict_get k members); [discriminate H|left; now injection H].
Qed.

(** X21: besides its API errors the classifier lets four built-in
    exceptions through and no other: [KeyError], only for a response
    without a content-type header; [ValueError], only for a body that
    does not decode; [AttributeError]; and [TypeError]. *)
Theorem classifier_builtin_errors resp expect e :
  _check_api_response resp expect = Raise e ->
  match e with
  | APIError _ => True
  | TransportError _ => False
  | Builtin b =>
      (b = KeyError /\ content_type resp = None)
      \/ (b = ValueError /\ json_body resp = None)
      \/ b = AttributeError
      \/ b = TypeError
  end.
Proof.
  intros H. unfold _check_api_response in H. cbv zeta in H.
  set (X := expected_content_type resp expect) in *.
  inv_raise H;
    try (rewrite raise_msg_eq in H; injection H as <-; exact I);
    try discriminate H;
    try match type of H with
        | Raise ?x = Raise _ =>
            injection H as <-;
            match goal with
            | E : resp_header_content_type _ = Raise x |- _ =>
                pose proof (header_raises _ _ E); subst x;
                left; split; [reflexivity|];
                unfold resp_header_content_type in E;
                destruct (content_type resp); [discriminate E|reflexivity]
            | E : resp_json _ = Raise x |- _ =>
                pose proof (json_raises _ _ E); subst x;
                right; left; split; [reflexivity|];
                unfold resp_json in E;
                destruct (json_body resp); [discriminate E|reflexivity]
            | E : py_get _ _ = Raise x |- _ =>
                pose proof (py_get_raises _ _ _ E); subst x;
                right; right; left; reflexivity
            | E : status_table_get _ = Raise x |- _ =>
                pose proof (table_get_raises _ _ E); subst x;
                right; right; right; reflexivity
            | E : match ?j with JObj _ => _ | _ => _ end = Raise x |- _ =>
                destruct j; try discriminate E; injection E as <-;
                right; right; right; reflexivity
            end
        end.
  destruct e as [err|blt|reason]; [exact I| |].
  - right; right; right. exact (raise_splat_builtin _ _ _ _ H).
  - exact (raise_splat_no_transport _ _ _ _ H).
Qed.

Lemma make_query_never_divides page_number page_size s s' :
  _make_query page_number page_size s
  <> (Raise (Builtin ZeroDivisionError), s').
Proof.
  rewrite make_query_unfold. cbv zeta.
  destruct (remote _ _) as [resp|reason]; [|discriminate].
  destruct (_check_api_response resp None) as [r|e] eqn:Hc.
  2: { intros H. injection H as -> _.
       pose proof (classifier_builtin_errors _ _ _ Hc) as Hb. cbn in Hb.
       destruct Hb as [[Hb _]|[[Hb _]|[Hb|Hb]]]; discriminate Hb. }
  destruct (retval_getitem r "meta") as [meta|e] eqn:Hm; cbn [rbind].
  2: { intros H. injection H as -> _.
       destruct r as [v|c]; cbn [retval_getitem] in Hm; [|discriminate Hm].
       destruct (py_getitem_raises _ _ _ Hm); discriminate. }
  destruct (py_getitem meta "total_count") as [tc|e] eqn:Ht; [discriminate|].
  intros H. injection H as -> _.
  destruct (py_getitem_raises _ _ _ Ht); discriminate.
Qed.

Lemma page_size_ok_same_params s s' :
  same_params (q_self s) (q_self s') -> page_size_ok s -> page_size_ok s'.
Proof. unfold page_size_ok. intros (_ & _ & -> & _). auto. Qed.

(** X22: the page size of a query is at least one from its creation
    on: the setter refuses anything smaller, and no other setter, fetch
    or read of the count changes it.  So [total_pages] never divides by
    zero. *)
Theorem page_size_stays_positive :
  (forall type_class h l,
      page_size_ok (mk_qstate (fst (Query__init__ type_class h))
                      (snd (Query__init__ type_class h)) l))
  /\ (forall m s, page_size_ok s -> page_size_ok (snd (mutate m s)))
  /\ (forall value s,
        value < 1 ->
        set_page_size value s = (Raise (Builtin AssertionError), s))
  /\ (forall n s, page_size_ok s -> page_size_ok (snd (get_page n s)))
  /\ (forall s, page_size_ok s -> page_size_ok (snd (count s)))
  /\ (forall s r s',
        page_size_ok s ->
        total_pages s = (r, s') ->
        r <> Raise (Builtin ZeroDivisionError)).
Proof.
  assert (Hmq : forall n ps s,
             page_size_ok s -> page_size_ok (snd (_make_query n ps s))).
  { intros n ps s Hs. destruct (_make_query n ps s) as [r s'] eqn:E.
    destruct (make_query_effect _ _ _ _ _ E) as (_ & _ & Hp).
    exact (page_size_ok_same_params _ _ Hp Hs). }
  assert (Hcount : forall s, page_size_ok s -> page_size_ok (snd (count s))).
  { intros s Hs.
    destruct (is_None (Query._count_cached (q_self s))) eqn:En.
    - rewrite count_uncached by exact En. specialize (Hmq 1 (Some 1) s Hs).
      destruct (_make_query 1 (Some 1) s) as [[x|e] s1]; exact Hmq.
    - now rewrite count_cached. }
  assert (Hsf : forall value s,
             page_size_ok s -> page_size_ok (snd (set_filter value s))).
  { intros value s Hs.
    destruct (py_eq (JObj value)
                (JObj (deref (q_heap s) (Query._filter (q_self s))))) eqn:E.
    { now rewrite set_filter_equal. }
    destruct value as [|kv value'].
    { rewrite set_filter_accepts by auto. exact Hs. }
    destruct (complete_filter (kv :: value')) eqn:Hc.
    - rewrite set_filter_accepts by auto. exact Hs.
    - rewrite set_filter_rejects by (auto; discriminate). exact Hs. }
  split; [intros; unfold page_size_ok; cbn; lia|].
  split.
  { intros m s Hs. destruct m as [v|value|value|a b c|]; cbn [mutate].
    - unfold set_page_size, bind, assert_, q_get, q_put, ret, throw.
      destruct (1 <=? v) eqn:Ev; [|exact Hs].
      unfold page_size_ok. cbn. now apply Z.leb_le.
    - now apply Hsf.
    - unfold set_order, bind, assert_, lift, q_alloc, set_order_ref, q_get,
        q_put, ret, throw, alloc.
      destruct (truthy (JObj value)); [|exact Hs].
      destruct (dict_has "order_field" value
                && dict_has "order_direction" value); [|exact Hs].
      destruct (py_getitem (JObj value) "order_direction"); [|exact Hs].
      destruct (in_strs a ["asc"; "desc"]); exact Hs.
    - unfold make_filter. destruct (_ || _); now apply Hsf.
    - now apply Hsf. }
  split.
  { intros value s Hv. unfold set_page_size, bind, assert_.
    replace (1 <=? value) with false by (symmetry; apply Z.leb_gt; lia).
    reflexivity. }
  split.
  { intros n s Hs. rewrite get_page_unfold. specialize (Hmq n None s Hs).
    destruct (_make_query n None s) as [[x|e] s1]; [|exact Hmq].
    destruct (_ <- _ ;; _)%res; exact Hmq. }
  split; [exact Hcount|].
  intros s r s' Hs Ht Hr. subst r.
  unfold total_pages, bind at 1 in Ht.
  destruct (count s) as [[c|e] s1] eqn:Ec.
  - specialize (Hcount s Hs). rewrite Ec in Hcount. cbn [snd] in Hcount.
    unfold bind in Ht. cbn [q_get] in Ht.
    destruct (as_int c); [|discriminate Ht].
    unfold page_size_ok in Hcount.
    replace (Query._page_size (q_self s1) =? 0) with false in Ht
      by (symmetry; apply Z.eqb_neq; lia).
    discriminate Ht.
  - injection Ht as -> ->.
    destruct (is_None (Query._count_cached (q_self s))) eqn:En.
    + rewrite count_uncached in Ec by exact En.
      destruct (_make_query 1 (Some 1) s) as [[x|e] s2] eqn:Eq;
        [discriminate Ec|].
      injection Ec as -> ->. exact (make_query_never_divides _ _ _ _ Eq).
    + rewrite count_cached in Ec by exact En. discriminate Ec.
Qed.

(** ** A whole iteration *)

Lemma drive_finished self k s :
  drive self (nexts k) GenFinished s = repeat StopIteration k.
Proof.
  induction k as [|k IH]; [reflexivity|].
  cbn [nexts repeat drive act_all fold_left gen_next].
  f_equal. exact IH.
Qed.

Lemma firstn_repeat_le (A : Type) (x : A) k m :
  (k <= m)%nat -> firstn k (repeat x m) = repeat x k.
Proof.
  revert m. induction k as [|k IH]; intros m Hk; [reflexivity|].
  destruct m as [|m]; [lia|]. cbn [repeat firstn]. f_equal.
  apply IH. lia.
Qed.

(** The first of a run of [next] calls with the query left alone. *)
Lemma drive_step self k g s :
  drive self (nexts (S k)) g s =
  fst (fst (gen_next g s))
    :: drive self (nexts k) (snd (fst (gen_next g s))) (snd (gen_next g s)).
Proof.
  cbn [nexts repeat drive act_all fold_left].
  now destruct (gen_next g s) as [[item g'] s'].
Qed.

(** A suspended generator hands out the objects it still holds, then
    those of the pages still to come, page after page, then the way the
    loops end, and nothing but [StopIteration] after that. *)
Lemma drive_suspended self pages_left :
  forall qry page_number s rest k m,
    (k <= m)%nat ->
    drive self (nexts k) (GenSuspended qry pages_left page_number rest) s
    = firstn k
        (map Yield
           (rest ++ fst (fst (eager_pages pages_left qry page_number s)))
         ++ snd (fst (eager_pages pages_left qry page_number s))
              :: repeat StopIteration m)%list.
Proof.
  induction pages_left as [|n IHn]; intros qry p s rest.
  - induction rest as [|o rest IHr]; intros k m Hk.
    + destruct k as [|k]; [reflexivity|].
      rewrite drive_step. cbn [gen_next pages_loop fst snd eager_pages app map
        firstn].
      rewrite drive_finished, firstn_repeat_le by lia. reflexivity.
    + destruct k as [|k]; [reflexivity|].
      rewrite drive_step. cbn [gen_next fst snd app map firstn].
      f_equal. apply IHr. lia.
  - induction rest as [|o rest IHr]; intros k m Hk.
    + destruct k as [|k]; [reflexivity|].
      rewrite drive_step. cbn [gen_next pages_loop eager_pages].
      destruct (on_query qry (get_page p) s) as [[page|e] s1].
      * destruct page as [|o page].
        -- specialize (IHn qry (p + 1) s1 [] (S k) m Hk).
           rewrite drive_step in IHn. cbn [gen_next] in IHn.
           rewrite IHn.
           destruct (eager_pages n qry (p + 1) s1) as [[objs last] s2].
           reflexivity.
        -- cbn [fst snd].
           specialize (IHn qry (p + 1) s1 page k m ltac:(lia)).
           rewrite IHn.
           destruct (eager_pages n qry (p + 1) s1) as [[objs last] s2].
           reflexivity.
      * cbn [fst snd app map firstn].
        rewrite drive_finished, firstn_repeat_le by lia. reflexivity.
    + destruct k as [|k]; [reflexivity|].
      rewrite drive_step. cbn [gen_next fst snd app map firstn].
      f_equal. apply IHr. lia.
Qed.

(** X23: an iteration that is left to run hands out, one object per
    [next], the objects of pages 1 to [total_pages] in the order of the
    pages and within each page; after the last it answers
    [StopIteration] for good.  The pages are those of the copy the first
    [next] makes, and [total_pages] is read once, by that [next]; if
    that read fails, or a page cannot be fetched, the error comes out
    after the objects of the pages before it and the iteration is
    over. *)
Theorem iteration_yields_the_pages_in_order self s k m :
  (k <= m)%nat ->
  drive self (nexts k) (GenCreated self) s =
  let qry := fst (copy_copy self s) in
  match on_query qry total_pages (snd (copy_copy self s)) with
  | (Raise e, _) => firstn k (GenRaise e :: repeat StopIteration m)
  | (Ok n, s1) =>
      firstn k
        (map Yield (fst (fst (eager_pages (Z.to_nat n) qry 1 s1)))
         ++ snd (fst (eager_pages (Z.to_nat n) qry 1 s1))
              :: repeat StopIteration m)%list
  end.
Proof.
  intros Hk. cbv zeta. destruct k as [|k].
  { destruct (on_query _ total_pages _) as [[n|e] s1]; reflexivity. }
  rewrite drive_step. cbn [gen_next copy_copy fst snd].
  destruct (on_query (p_next s) total_pages _) as [[n|e] s1].
  - pose proof (drive_suspended self (Z.to_nat n) (p_next s) 1 s1 [] (S k) m
                  Hk) as H.
    rewrite drive_step in H. cbn [gen_next app] in H. exact H.
  - cbn [fst snd firstn]. rewrite drive_finished, firstn_repeat_le by lia.
    reflexivity.
Qed.

Lemma page_request_same_params qry qry' h n :
  same_params qry qry' -> page_request qry' h n = page_request qry h n.
Proof.
  intros (Ht & Hf & Hp & Ho). unfold page_request, query_request.
  cbn [q_self q_heap]. now rewrite Ht, Hf, Hp, Ho.
Qed.

Lemma page_requests_same_params qry qry' h p n :
  same_params qry qry' -> page_requests qry' h p n = page_requests qry h p n.
Proof.
  intros H. unfold page_requests. apply map_ext.
  intros i. now apply page_request_same_params.
Qed.

Lemma page_requests_cons qry h p n :
  page_requests qry h p (S n)
  = page_request qry h p :: page_requests qry h (p + 1) n.
Proof.
  unfold page_requests. cbn [seq map]. f_equal.
  - f_equal. cbn. lia.
  - rewrite <- seq_shift, map_map. apply map_ext.
    intros i. f_equal. lia.
Qed.

(** One fetch by the query object at [qry]: the request of that page,
    and nothing else of the program moves. *)
Lemma on_query_get_page_effect qry p s r s' :
  on_query qry (get_page p) s = (r, s') ->
  p_log s' = (p_log s ++ [page_request (p_objs s qry) (p_heap s) p])%list
  /\ p_heap s' = p_heap s
  /\ (forall r', r' <> qry -> p_objs s' r' = p_objs s r')
  /\ same_params (p_objs s qry) (p_objs s' qry).
Proof.
  intros H.
  pose proof (on_query_keeps_others _ qry (get_page p) s) as Hk.
  rewrite H in Hk. cbn [snd] in Hk.
  revert H. unfold on_query. rewrite get_page_unfold.
  destruct (_make_query p None (mk_qstate (p_objs s qry) (p_heap s) (p_log s)))
    as [x s1] eqn:E.
  destruct (make_query_effect _ _ _ _ _ E) as (Hl & Hh & Hp).
  cbn [q_log q_heap q_self] in Hl, Hh, Hp.
  assert (Hgo : forall y : result (list RemoteObject.t),
             (y, mk_pstate (put_obj qry (q_self s1) (p_objs s)) (p_next s)
                   (q_heap s1) (q_log s1))
             = (r, s') ->
             p_log s' = (p_log s ++ [page_request (p_objs s qry) (p_heap s) p])%list
             /\ p_heap s' = p_heap s
             /\ (forall r', r' <> qry -> p_objs s' r' = p_objs s r')
             /\ same_params (p_objs s qry) (p_objs s' qry)).
  { intros y H. injection H as _ <-. cbn [p_log p_heap p_objs].
    rewrite put_obj_eq. split; [exact Hl|]. split; [exact Hh|].
    split; [|exact Hp]. intros r' Hr. now apply put_obj_neq. }
  destruct x as [resp|e]; [|apply Hgo].
  destruct (_ <- _ ;; _)%res; apply Hgo.
Qed.

Lemma pages_loop_requests n :
  forall qry p s item g' s',
    pages_loop n qry p s = (item, g', s') ->
    exists m,
      (m <= n)%nat
      /\ p_log s'
         = (p_log s ++ page_requests (p_objs s qry) (p_heap s) p m)%list
      /\ p_heap s' = p_heap s
      /\ (forall r, r <> qry -> p_objs s' r = p_objs s r)
      /\ same_params (p_objs s qry) (p_objs s' qry)
      /\ match g' with
         | GenCreated _ => False
         | GenSuspended qry' n' p' _ =>
             qry' = qry /\ n' = (n - m)%nat
             /\ p' = p + Z.of_nat m /\ (1 <= m)%nat
         | GenFinished => item = StopIteration -> m = n
         end.
Proof.
  induction n as [|n IH]; intros qry p s item g' s'; cbn [pages_loop].
  - intros H. injection H as <- <- <-. exists 0%nat.
    unfold page_requests. cbn. rewrite app_nil_r.
    repeat split; auto.
  - destruct (on_query qry (get_page p) s) as [r s1] eqn:E.
    destruct (on_query_get_page_effect _ _ _ _ _ E) as (Hl & Hh & Ho & Hp).
    destruct r as [[|o rest]|e].
    + intros H.
      destruct (IH _ _ _ _ _ _ H) as (m & Hm & Hl' & Hh' & Ho' & Hp' & Hg).
      exists (S m). rewrite page_requests_cons.
      split; [lia|]. split.
      { rewrite Hl', Hl, Hh, <- app_assoc. cbn [app].
        now rewrite (page_requests_same_params _ _ _ _ _ Hp). }
      split; [congruence|].
      split; [intros r Hr; now rewrite (Ho' r Hr), (Ho r Hr)|].
      split; [exact (same_params_trans _ _ _ Hp Hp')|].
      destruct g' as [r|qry' n' p' rest'|]; [exact Hg| |].
      * destruct Hg as (Hq & Hn & Hp2 & _).
        split; [exact Hq|]. split; [lia|]. split; lia.
      * intros Hi. now rewrite (Hg Hi).
    + intros H. injection H as <- <- <-. exists 1%nat.
      split; [lia|]. split.
      { unfold page_requests. cbn [seq map]. rewrite Hl.
        do 3 f_equal. cbn. lia. }
      split; [exact Hh|]. split; [exact Ho|]. split; [exact Hp|].
      split; [reflexivity|]. split; [lia|]. split; lia.
    + intros H. injection H as <- <- <-. exists 1%nat.
      split; [lia|]. split.
      { unfold page_requests. cbn [seq map]. rewrite Hl.
        do 3 f_equal. cbn. lia. }
      split; [exact Hh|]. split; [exact Ho|]. split; [exact Hp|].
      discriminate.
Qed.

(** X24: a [next] on a started iteration sends nothing while objects
    of the current page are left; otherwise it asks for the pages that
    follow, one request each, in increasing order without a gap, until a
    page has an object, a fetch fails or the pages counted at the start
    are used up, and never for more pages than that.  The requests carry
    the parameters of the generator's own query object, on which the
    generator stays and which keeps them; it then stands right behind
    the last page asked for.  Every other query object, the caller's
    among them, and the dict store are not touched. *)
Theorem next_fetches_consecutive_pages qry n p rest s item g' s' :
  gen_next (GenSuspended qry n p rest) s = (item, g', s') ->
  exists m,
    (m <= n)%nat
    /\ (rest <> [] -> m = 0%nat)
    /\ p_log s' = (p_log s ++ page_requests (p_objs s qry) (p_heap s) p m)%list
    /\ p_heap s' = p_heap s
    /\ (forall r, r <> qry -> p_objs s' r = p_objs s r)
    /\ same_params (p_objs s qry) (p_objs s' qry)
    /\ match g' with
       | GenCreated _ => False
       | GenSuspended qry' n' p' _ =>
           qry' = qry /\ n' = (n - m)%nat /\ p' = p + Z.of_nat m
       | GenFinished => item = StopIteration -> m = n
       end.
Proof.
  destruct rest as [|o rest]; cbn [gen_next].
  - intros H. destruct (pages_loop_requests _ _ _ _ _ _ _ H)
      as (m & Hm & Hl & Hh & Ho & Hp & Hg).
    exists m. split; [exact Hm|]. split; [intros Hr; now contradiction Hr|].
    split; [exact Hl|]. split; [exact Hh|]. split; [exact Ho|].
    split; [exact Hp|].
    destruct g' as [r|qry' n' p' rest'|]; [exact Hg| |exact Hg].
    destruct Hg as (Hq & Hn & Hp2 & _).
    split; [exact Hq|]. split; [exact Hn|exact Hp2].
  - intros H. injection H as <- <- <-. exists 0%nat.
    unfold page_requests. cbn [seq map]. rewrite app_nil_r.
    split; [lia|]. split; [reflexivity|]. split; [reflexivity|].
    split; [reflexivity|]. split; [reflexivity|].
    split; [apply same_params_refl|]. split; [reflexivity|]. split; lia.
Qed.

(** ** Documents *)

(** X25: [get_invoice_pdf] asks for the URL of the billogram followed
    by [.pdf], with the letter id and the invoice number as parameters,
    each only when given; [get_attachment_pdf] asks for
    [/attachment.pdf] under the URL of the billogram and takes no notice
    of its two arguments.  Both send that one request, never change the
    object, and hand the [content] member of the answered data to the
    base64 decoder. *)
Theorem pdf_getters_request_and_decode o w url :
  _url o = Ok url ->
  let api := RemoteObject._api o in
  (forall letter_id invoice_no,
      let rq := get_request api (url ++ ".pdf")
                  (JObj (pdf_params letter_id invoice_no)) in
      snd (get_invoice_pdf letter_id invoice_no (o, w))
      = (o, (w ++ [rq])%list)
      /\ forall resp env,
          remote w rq = Reply resp ->
          _check_api_response resp (Some "application/json")
          = Ok (Decoded (JObj env)) ->
          fst (get_invoice_pdf letter_id invoice_no (o, w))
          = (d <- py_getitem (JObj env) "data" ;;
             c <- py_getitem d "content" ;; b64decode c)%res)
  /\ (forall letter_id invoice_no,
        let rq := get_request api (url ++ "/attachment.pdf") JNull in
        get_attachment_pdf letter_id invoice_no
        = get_attachment_pdf JNull JNull
        /\ snd (get_attachment_pdf letter_id invoice_no (o, w))
           = (o, (w ++ [rq])%list)
        /\ forall resp env,
            remote w rq = Reply resp ->
            _check_api_response resp (Some "application/json")
            = Ok (Decoded (JObj env)) ->
            fst (get_attachment_pdf letter_id invoice_no (o, w))
            = (d <- py_getitem (JObj env) "data" ;;
               c <- py_getitem d "content" ;; b64decode c)%res).
Proof.
  intros Hu. cbv zeta.
  assert (Hshape : forall path params,
             (self <- get_self ;;
              base <- lift (_url self) ;;
              resp <- on_world
                        (BillogramAPI_get (RemoteObject._api self)
                           (base ++ path) params (Some "application/json")) ;;
              d <- lift (retval_getitem resp "data") ;;
              c <- lift (py_getitem d "content") ;;
              lift (b64decode c)) (o, w)
             = let rq := get_request (RemoteObject._api o) (url ++ path)
                           params in
               (match remote w rq with
                | NoReply reason => Raise (TransportError reason)
                | Reply resp =>
                    (r <- _check_api_response resp (Some "application/json") ;;
                     d <- retval_getitem r "data" ;;
                     c <- py_getitem d "content" ;; b64decode c)%res
                end,
                (o, (w ++ [rq])%list))).
  { intros path params. cbv zeta.
    unfold bind at 1. cbn [get_self fst].
    unfold bind at 1, lift at 1. rewrite Hu.
    unfold bind at 1, on_world. cbn [fst snd].
    unfold BillogramAPI_get, bind at 1, perform.
    change (mk_request GET _ _ _ _ _)
      with (get_request (RemoteObject._api o) (url ++ path) params).
    destruct (remote w _) as [resp|reason]; [|reflexivity].
    unfold lift at 1.
    destruct (_check_api_response resp (Some "application/json"))
      as [r|e]; [|reflexivity].
    cbn [rbind]. unfold bind at 1, lift at 1.
    destruct (retval_getitem r "data") as [d|e]; [|reflexivity].
    cbn [rbind]. unfold bind at 1, lift at 1.
    destruct (py_getitem d "content") as [c|e]; reflexivity. }
  assert (Hparams : forall a b,
             (if truthy b
              then dict_set "invoice_no" b
                     (if truthy a then dict_set "letter_id" a [] else [])
              else if truthy a then dict_set "letter_id" a [] else [])
             = pdf_params a b).
  { intros a b. unfold pdf_params.
    destruct (truthy a), (truthy b); reflexivity. }
  split.
  - intros a b. unfold get_invoice_pdf. cbv zeta.
    rewrite Hparams, Hshape. cbv zeta. cbn [fst snd].
    split; [reflexivity|].
    intros resp env Hr Hc. now rewrite Hr, Hc.
  - intros a b. split; [reflexivity|].
    unfold get_attachment_pdf. rewrite Hshape. cbv zeta. cbn [fst snd].
    split; [reflexivity|].
    intros resp env Hr Hc. now rewrite Hr, Hc.
Qed.

(** ** Creating and sending in one step *)

Lemma create_logged self data w r w' :
  create self data w = (r, w') -> w' = (w ++ [create_request self data])%list.
Proof.
  unfold create, bind at 1.
  destruct (BillogramAPI_post (SimpleClass._api self)
              (SimpleClass._url_name self) data w) as [x w1] eqn:Hx.
  unfold BillogramAPI_post in Hx. apply exchange_logged in Hx. subst w1.
  destruct x as [resp|e]; [|intros H; now injection H as _ <-].
  unfold bind at 1, lift at 1.
  destruct (retval_getitem resp "data");
    intros H; now injection H as _ <-.
Qed.

Lemma send_ok_inv method b w b1 w1 :
  send method (b, w) = (Ok tt, (b1, w1)) ->
  in_strs method ["Email"; "Letter"; "Email+Letter"] = true
  /\ exists url d,
      _url b = Ok url
      /\ w1 = (w ++ [request_of
                       (PerformEvent "send" (JObj [("method", method)]))
                       b url])%list
      /\ b1 = RemoteObject.with_data b d.
Proof.
  unfold send, bind at 1, assert_.
  destruct (in_strs method _); [|discriminate].
  cbn [ret]. intros H. split; [reflexivity|].
  change (perform_event "send" (JObj [("method", method)]) (b, w))
    with (run_call (PerformEvent "send" (JObj [("method", method)])) (b, w))
    in H.
  rewrite snapshot_call_shape in H.
  destruct (_url b) as [url|e]; [|discriminate H].
  destruct ((resp <- perform _ ;; lift _) w) as [x w2] eqn:Hx.
  apply exchange_logged in Hx. subst w2.
  destruct x as [resp|e]; [|discriminate H].
  destruct (retval_getitem resp "data") as [d|e]; [|discriminate H].
  injection H as <- <-. now exists url, d.
Qed.

(** X26: [create_and_send] with a method that is not one of the three
    media raises an assertion error before anything is sent, so nothing
    is created.  With a valid method, a create step that fails passes
    its error on after its one request, and nothing is deleted.  When
    both steps go through, exactly two requests were sent, the POST
    that creates and the POST of the send event on the created object,
    and the billogram returned is the created one with its data replaced
    by what the send event answered. *)
Theorem create_and_send_outcomes self data method w :
  (in_strs method ["Email"; "Letter"; "Email+Letter"] = false ->
   create_and_send self data method w = (Raise (Builtin AssertionError), w))
  /\ (in_strs method ["Email"; "Letter"; "Email+Letter"] = true ->
      (forall e w1,
          create self data w = (Raise e, w1) ->
          create_and_send self data method w
          = (Raise e, (w ++ [create_request self data])%list))
      /\ (forall b w1 b1 w2,
            create self data w = (Ok b, w1) ->
            send method (b, w1) = (Ok tt, (b1, w2)) ->
            create_and_send self data method w = (Ok b1, w2)
            /\ exists url d,
                _url b = Ok url
                /\ w2 = (w ++ [create_request self data;
                               request_of
                                 (PerformEvent "send"
                                    (JObj [("method", method)]))
                                 b url])%list
                /\ b1 = RemoteObject.with_data b d)).
Proof.
  split.
  - intros Hm. unfold create_and_send, bind at 1, assert_. now rewrite Hm.
  - intros Hm. split.
    + intros e w1 Hc. rewrite <- (create_logged _ _ _ _ _ Hc).
      unfold create_and_send, bind at 1, assert_. rewrite Hm. cbn [ret].
      unfold bind at 1. now rewrite Hc.
    + intros b w1 b1 w2 Hc Hs. split.
      * unfold create_and_send, bind at 1, assert_. rewrite Hm. cbn [ret].
        unfold bind at 1. rewrite Hc.
        unfold with_object, try_except. now rewrite Hs.
      * destruct (send_ok_inv _ _ _ _ _ Hs) as (_ & url & d & Hu & Hw & Hb).
        exists url, d. split; [exact Hu|]. split; [|exact Hb].
        rewrite Hw, (create_logged _ _ _ _ _ Hc), <- app_assoc.
        reflexivity.
Qed.

End Client.

(** * The properties on concrete exchanges *)

(** ** The response classifier *)

(** C1 on the envelope [{"status": "NOT_AVAILABLE_YET", "data": {}}]
    served with status code 404. *)
Lemma C1_status_404_witness :
  exists e,
    _check_api_response sample_str
      (json_response 404 (envelope "NOT_AVAILABLE_YET" (JObj []))) None
    = Raise (APIError e)
    /\ err_class e = ObjectNotFoundError
    /\ err_message e =
         JStr (if eq_str (JStr "NOT_AVAILABLE_YET") "NOT_AVAILABLE_YET"
               then "Object not available yet" else "Object not found")
    /\ caught_by ObjectNotAvailableYetError (APIError e) = false
    /\ caught_by ObjectNotFoundError (APIError e) = true.
Proof.
  apply (C1_status_404_raises_plain_not_found sample_str
           (json_response 404 (envelope "NOT_AVAILABLE_YET" (JObj []))) None
           [("status", JStr "NOT_AVAILABLE_YET"); ("data", JObj [])]
           (JStr "NOT_AVAILABLE_YET"));
    reflexivity.
Defined.

(** The sibling branch, for a JSON answer where another content type was
    expected, does raise the dedicated class for the same status. *)
Example not_available_yet_on_content_type_mismatch :
  exists e,
    _check_api_response sample_str
      (json_response 200 (envelope "NOT_AVAILABLE_YET" (JObj [])))
      (Some "application/pdf")
    = Raise (APIError e)
    /\ err_class e = ObjectNotAvailableYetError.
Proof. eexists. split; reflexivity. Qed.

(** C2, as documented, fails on a response in the last branch whose
    data object has no [message]: the table gives [InvalidFieldValueError],
    but the constructor call fails and a [TypeError] comes out instead. *)
Lemma C2_counterexample_data_without_message :
  let resp := json_response 400 (envelope "INVALID_PARAMETER" (JObj [])) in
  table_branch_code (status_code resp)
  /\ content_type resp = Some "application/json"
  /\ json_body resp
     = Some (JObj [("status", JStr "INVALID_PARAMETER"); ("data", JObj [])])
  /\ _check_api_response sample_str resp None = Raise (Builtin TypeError)
  /\ ~ (exists e,
          _check_api_response sample_str resp None = Raise (APIError e)
          /\ err_class e = documented_kind "INVALID_PARAMETER").
Proof.
  cbv zeta. split; [|split; [|split; [|split]]]; try reflexivity.
  - repeat split; discriminate.
  - intros (e & H & _). discriminate H.
Qed.

(** C2 (amended) on a refused parameter that comes with a message and
    a field name. *)
Lemma C2_table_classification_witness :
  let d := [("message", JStr "bad value"); ("field", JStr "name")] in
  let resp := json_response 400 (envelope "INVALID_PARAMETER" (JObj d)) in
  exists e,
    _check_api_response sample_str resp None = Raise (APIError e)
    /\ err_class e = documented_kind "INVALID_PARAMETER"
    /\ err_message e = JStr "bad value"
    /\ err_field e = kw_get "field" d
    /\ err_field_path e = kw_get "field_path" d
    /\ err_extra_data e =
         (let rest :=
            dict_del "field_path" (dict_del "field" (dict_del "message" d)) in
          match rest with [] => JNull | _ => JObj rest end).
Proof.
  cbv zeta.
  apply (C2_table_classification sample_str
           (json_response 400
              (envelope "INVALID_PARAMETER"
                 (JObj [("message", JStr "bad value"); ("field", JStr "name")])))
           None
           [("status", JStr "INVALID_PARAMETER");
            ("data", JObj [("message", JStr "bad value");
                           ("field", JStr "name")])]
           "INVALID_PARAMETER"
           [("message", JStr "bad value"); ("field", JStr "name")]
           (JStr "bad value")).
  - repeat split; discriminate.
  - reflexivity.
  - left; reflexivity.
  - reflexivity.
  - reflexivity.
  - discriminate.
  - discriminate.
  - reflexivity.
  - reflexivity.
  - reflexivity.
Defined.

(** C10 on an error envelope whose data is an empty array. *)
Lemma C10_table_branch_witness :
  _check_api_response sample_str
    (json_response 400 (envelope "INVALID_PARAMETER" (JArr []))) None
  = Raise (Builtin TypeError).
Proof.
  apply (C10_table_branch_needs_message sample_str
           (json_response 400 (envelope "INVALID_PARAMETER" (JArr []))) None
           [("status", JStr "INVALID_PARAMETER"); ("data", JArr [])]
           (JStr "INVALID_PARAMETER") (JArr [])).
  - repeat split; discriminate.
  - reflexivity.
  - left; reflexivity.
  - reflexivity.
  - reflexivity.
  - reflexivity.
  - reflexivity.
  - reflexivity.
  - left. exists []. reflexivity.
Defined.

(** ** Remote objects *)


(** C6 on an [update] of the account settings with a wrong key. *)
Lemma C6_invalid_auth_witness :
  let remote :=
    scripted [Reply (json_response 403 (envelope "INVALID_AUTH" (JObj [])))] in
  let data := JObj [("name", JStr "Acme")] in
  exists e,
    update sample_str remote data (sample_settings, [])
    = (Raise (APIError e),
       (sample_settings,
        ([] ++ [request_of (Update data) sample_settings "settings"])%list))
    /\ err_class e = InvalidAuthenticationError
    /\ caught_by InvalidAuthenticationError (APIError e) = true
    /\ caught_by PermissionDeniedError (APIError e) = true.
Proof.
  cbv zeta.
  apply (C6_invalid_auth_keeps_snapshot sample_str
           (scripted [Reply (json_response 403
                               (envelope "INVALID_AUTH" (JObj [])))])
           sample_settings (JObj [("name", JStr "Acme")]) [] "settings"
           (json_response 403 (envelope "INVALID_AUTH" (JObj [])))
           [("status", JStr "INVALID_AUTH"); ("data", JObj [])]);
    reflexivity.
Defined.

(** C5, as documented, fails when the delete fails too: create
    succeeds, the send is refused with an invalid-object-state error and
    the compensating delete meets a server error; the caller gets the
    error of the delete, not the original send error. *)
Lemma C5_counterexample_failing_delete :
  let remote := scripted failing_send_and_delete in
  exists w1 e_send s2 e_raised w3,
    in_strs (JStr "Email") ["Email"; "Letter"; "Email+Letter"] = true
    /\ create sample_str remote sample_billograms (JObj []) []
       = (Ok created_billogram, w1)
    /\ send sample_str remote (JStr "Email") (created_billogram, w1)
       = (Raise e_send, s2)
    /\ create_and_send sample_str remote sample_billograms (JObj [])
         (JStr "Email") []
       = (Raise e_raised, w3)
    /\ caught_by InvalidObjectStateError e_send = true
    /\ caught_by ServiceMalfunctioningError e_raised = true
    /\ e_raised <> e_send.
Proof.
  cbv zeta. do 5 eexists.
  split; [reflexivity|]. split; [vm_compute; reflexivity|].
  split; [vm_compute; reflexivity|]. split; [vm_compute; reflexivity|].
  split; [reflexivity|]. split; [reflexivity|].
  discriminate.
Qed.

(** C5 (amended) when the send is refused and the delete goes through:
    the caller gets the send error. *)
Lemma C5_failed_send_witness :
  let remote := scripted failing_send in
  let b := created_billogram in
  let w1 := snd (create sample_str remote sample_billograms (JObj []) []) in
  let w2 := snd (snd (send sample_str remote (JStr "Email") (b, w1))) in
  let e_send :=
    APIError (mk_api_error InvalidObjectStateError (JStr "cannot send")
                JNull JNull JNull) in
  let rq := delete_request sample_api "billogram/b1" in
  exists r,
    BillogramAPI_delete sample_str remote sample_api "billogram/b1" w2
    = (r, (w2 ++ [rq])%list)
    /\ create_and_send sample_str remote sample_billograms (JObj [])
         (JStr "Email") []
       = (Raise (match r with Ok _ => e_send | Raise e' => e' end),
          (w2 ++ [rq])%list).
Proof.
  cbv zeta.
  exact (C5_failed_send_deletes_then_raises sample_str (scripted failing_send)
           sample_billograms (JObj []) (JStr "Email") []
           created_billogram _ _ created_billogram _
           eq_refl eq_refl eq_refl).
Defined.

(** ** Queries *)

(** The first [next] makes the copy at a new address, counts and
    fetches the first page; the caller's query is as it was. *)
Example first_next_suspends :
  let '(item, g', s') :=
    gen_next sample_str echo_remote (GenCreated 0%nat)
      (program small_pages_state) in
  g' = running_generator
  /\ p_objs s' 1%nat = running_copy
  /\ p_objs s' 0%nat = q_self small_pages_state
  /\ p_next s' = p_next running_state
  /\ p_heap s' = p_heap running_state
  /\ p_log s' = p_log running_state.
Proof. vm_compute. repeat split. Qed.

(** Changing the filter and the page size after the first item: the
    second page is still asked for without a filter and with the page
    size of the snapshot. *)
Example iteration_ignores_later_changes :
  map (fun item => match item with
                   | Yield o => RemoteObject._data o
                   | _ => JNull
                   end)
    (drive sample_str echo_remote 0%nat
       [[]; [Call (SetFilter name_filter); Call (SetPageSize 50)]; []]
       (GenCreated 0%nat) (program small_pages_state))
  = [ JObj [("page_size", JInt 1); ("page", JInt 1)];
      JObj [("page_size", JInt 1); ("page", JInt 2)];
      JNull ].
Proof. vm_compute. reflexivity. Qed.

(** The snapshot is taken by the first [next], not by the call of
    [iter_all]: a filter set before the first item is part of it. *)
Example changes_before_the_first_next_are_seen :
  map (fun item => match item with
                   | Yield o => RemoteObject._data o
                   | _ => JNull
                   end)
    (drive sample_str echo_remote 0%nat [[Call (SetFilter name_filter)]; []]
       (GenCreated 0%nat) (program small_pages_state))
  = [ JObj (("page_size", JInt 1) :: ("page", JInt 1) :: name_filter);
      JObj (("page_size", JInt 1) :: ("page", JInt 2) :: name_filter) ].
Proof. vm_compute. reflexivity. Qed.





(** C8, as documented, fails on a query with a cached count whose
    filter is assigned a value equal to the one it has, empty or not: the
    assignment is accepted and the cached count stays. *)
Lemma C8_counterexample_equal_filter_keeps_count :
  (let s1 := snd (count sample_str echo_remote sample_state) in
   let assigned := set_filter [] s1 in
   Query._count_cached (q_self s1) = JInt 2
   /\ fst assigned = Ok tt
   /\ Query._count_cached (q_self (snd assigned)) = JInt 2)
  /\ (let s1 := snd (set_filter name_filter sample_state) in
      let s2 := snd (count sample_str echo_remote s1) in
      let assigned := set_filter name_filter s2 in
      complete_filter name_filter = true
      /\ Query._count_cached (q_self s2) = JInt 2
      /\ fst assigned = Ok tt
      /\ Query._count_cached (q_self (snd assigned)) = JInt 2).
Proof. vm_compute. repeat split. Qed.

(** C8 (amended) on a specification that names only a type. *)
Lemma C8_filter_setter_witness :
  let value := [("filter_type", JStr "field")] in
  (unique_keys value /\ valid_filter sample_state
   /\ value <> [] /\ complete_filter value = false)
  /\ set_filter value sample_state
     = (Raise (Builtin AssertionError), sample_state).
Proof.
  cbv zeta.
  assert (Hu : unique_keys [("filter_type", JStr "field")]).
  { repeat constructor. intros []. }
  assert (Hv : valid_filter sample_state) by (left; reflexivity).
  assert (Hn : [("filter_type", JStr "field")] <> ([] : dict)) by discriminate.
  split; [repeat split; assumption|].
  exact (proj1 (C8_filter_setter_contract sample_state
                  [("filter_type", JStr "field")]) Hu Hv Hn eq_refl).
Defined.

(** C9 on 37 objects with 100 per page. *)
Lemma C9_total_pages_witness :
  (let s := mk_qstate (Query.mk sample_customers 0%nat (JInt 37) 100 1%nat)
              [[]; []] [] in
   total_pages sample_str echo_remote s = (Ok (ceiling_quotient 37 100), s)
   /\ ceiling_quotient 37 100 = 1)
  /\ (let remote := scripted [collection_page [] (JInt 37)] in
      exists s',
        count sample_str remote sample_state = (Ok (JInt 37), s')
        /\ total_pages sample_str remote sample_state = (Ok 1, s')
        /\ Query._count_cached (q_self s') = JInt 37).
Proof.
  cbv zeta. split; [split; [|reflexivity]|].
  - apply (proj1 (C9_total_pages_is_ceiling sample_str echo_remote));
      (reflexivity || lia).
  - apply (proj2 (C9_total_pages_is_ceiling sample_str
                    (scripted [collection_page [] (JInt 37)]))
             sample_state
             (json_response 200
                (JObj [ ("status", JStr "OK");
                        ("data", JArr []);
                        ("meta", JObj [("total_count", JInt 37)]) ]))
             [ ("status", JStr "OK");
               ("data", JArr []);
               ("meta", JObj [("total_count", JInt 37)]) ]);
      try reflexivity.
    split; [reflexivity|]. split; eexists; [|split]; reflexivity.
Defined.

(** ** Further properties *)

(** X1 on an answered object. *)
Lemma classifier_returns_envelope_witness :
  _check_api_response sample_str
    (json_response 200 (envelope "OK" (JObj [("id", JStr "b1")]))) None
  = Ok (Decoded (JObj [("status", JStr "OK");
                       ("data", JObj [("id", JStr "b1")])])).
Proof.
  apply (proj2 (classifier_returns_envelope_iff sample_str
                  (json_response 200 (envelope "OK" (JObj [("id", JStr "b1")])))
                  None
                  [("status", JStr "OK"); ("data", JObj [("id", JStr "b1")])])).
  split; [repeat split; discriminate|].
  split; [reflexivity|]. split; [reflexivity|]. split; [reflexivity|].
  split; [|reflexivity].
  exists (JStr "OK"). split; reflexivity.
Defined.

(** X2 on a document served as asked. *)
Lemma classifier_returns_content_witness :
  _check_api_response sample_str
    (mk_response 200 (Some "application/pdf") None "%PDF-1.4")
    (Some "application/pdf")
  = Ok (RawContent "%PDF-1.4").
Proof.
  apply (proj2 (classifier_returns_content_iff sample_str
                  (mk_response 200 (Some "application/pdf") None "%PDF-1.4")
                  (Some "application/pdf") "%PDF-1.4")).
  split; [reflexivity|]. split; [reflexivity|]. split; [|reflexivity].
  exists "application/pdf". split; [reflexivity|].
  split; [discriminate|reflexivity].
Defined.

(** X3 on an error page of the web server. *)
Lemma server_error_witness :
  exists e,
    _check_api_response sample_str
      (mk_response 500 (Some "text/html") None "Internal Server Error") None
    = Raise e
    /\ (forall a, e = APIError a -> err_class a = ServiceMalfunctioningError)
    /\ (forall ct,
          Some "text/html" = Some ct ->
          ct <> "application/json" ->
          e = APIError
                (mk_api_error ServiceMalfunctioningError
                   (JStr "Billogram API reported a server error")
                   JNull JNull JNull)).
Proof.
  apply (server_error_always_malfunction sample_str
           (mk_response 500 (Some "text/html") None "Internal Server Error")
           None).
  reflexivity.
Defined.

(** X4 on an envelope that has a status and nothing else. *)
Lemma malformed_envelope_witness :
  _check_api_response sample_str
    (json_response 200 (JObj [("status", JStr "OK")])) None
  = Raise (APIError
             (mk_api_error ServiceMalfunctioningError
                (JStr "Response data missing data field") JNull JNull JNull)).
Proof.
  apply (proj2 (malformed_envelope_is_malfunction sample_str
                  (json_response 200 (JObj [("status", JStr "OK")])) None
                  [("status", JStr "OK")]
                  eq_refl eq_refl eq_refl eq_refl));
    reflexivity.
Defined.

(** X5 on a document that is not ready: asked for as PDF, answered in
    JSON. *)
Lemma classifier_error_classes_witness :
  exists a,
    _check_api_response sample_str
      (json_response 200 (envelope "NOT_AVAILABLE_YET" (JObj [])))
      (Some "application/pdf")
    = Raise (APIError a)
    /\ err_class a = ObjectNotAvailableYetError.
Proof.
  apply (proj2 (proj1 (proj2 (classifier_error_classes sample_str
                  (json_response 200 (envelope "NOT_AVAILABLE_YET" (JObj [])))
                  (Some "application/pdf"))))).
  split; [reflexivity|]. split; [reflexivity|]. split; [discriminate|].
  exists (envelope "NOT_AVAILABLE_YET" (JObj [])), (JStr "NOT_AVAILABLE_YET").
  repeat split.
Defined.

(** X6 on a refused field that comes with one more entry. *)
Lemma error_keeps_server_data_witness :
  let d := [("message", JStr "bad value"); ("field", JStr "name");
            ("code", JInt 7)] in
  let e := mk_api_error InvalidFieldValueError (JStr "bad value")
             (JStr "name") JNull (JObj [("code", JInt 7)]) in
  new_error InvalidFieldValueError [] d = Ok e
  /\ extra_get "code" e = dict_get "code" d
  /\ extra_get "message" e = None.
Proof.
  cbv zeta. split; [reflexivity|].
  pose proof (error_keeps_server_data InvalidFieldValueError
                [("message", JStr "bad value"); ("field", JStr "name");
                 ("code", JInt 7)]
                (mk_api_error InvalidFieldValueError (JStr "bad value")
                   (JStr "name") JNull (JObj [("code", JInt 7)]))
                eq_refl) as (_ & _ & _ & _ & Hk & Hm & _).
  split; [|exact Hm].
  apply Hk; discriminate.
Defined.

(** X7 on the two steps from a wrong key to the root class. *)
Lemma error_hierarchy_witness :
  issubclass InvalidAuthenticationError PermissionDeniedError = true
  /\ issubclass PermissionDeniedError BillogramAPIError = true
  /\ issubclass InvalidAuthenticationError BillogramAPIError = true.
Proof.
  split; [reflexivity|]. split; [reflexivity|].
  apply (proj1 (proj2 error_hierarchy_is_rooted_order)
           InvalidAuthenticationError PermissionDeniedError BillogramAPIError);
    reflexivity.
Defined.

(** X10 on a billogram with its id and on one without. *)
Lemma no_url_no_request_witness :
  _url sample_str created_billogram = Ok "billogram/b1"
  /\ _url sample_str billogram_without_id = Raise (Builtin KeyError)
  /\ delete sample_str echo_remote (billogram_without_id, [])
     = (Raise (Builtin KeyError), (billogram_without_id, [])).
Proof.
  split.
  { apply (proj1 (proj2 (no_url_no_request sample_str echo_remote
                           created_billogram []))
             sample_billograms [("id", JStr "b1")] (JStr "b1"));
      reflexivity. }
  assert (H : _url sample_str billogram_without_id = Raise (Builtin KeyError)).
  { apply (proj1 (proj2 (proj2 (no_url_no_request sample_str echo_remote
                                  billogram_without_id [])))
             sample_billograms []);
      reflexivity. }
  split; [exact H|].
  apply (proj2 (proj2 (proj2 (no_url_no_request sample_str echo_remote
                                billogram_without_id [])))
           (Builtin KeyError) H).
Defined.

(** X11 on a refresh that meets a server error. *)
Lemma failed_call_keeps_object_witness :
  let r := run_call sample_str (scripted [server_error]) Refresh
             (sample_settings, []) in
  (exists e, fst r = Raise e) /\ fst (snd r) = sample_settings.
Proof.
  cbv zeta. split; [eexists; vm_compute; reflexivity|].
  eapply (proj1 (failed_call_keeps_object sample_str (scripted [server_error])
                   sample_settings [])
            Refresh).
  vm_compute. reflexivity.
Defined.

(** X12 on the customers of a new connection. *)
Lemma subresource_is_built_once_witness :
  let x := fst (Connection.access Connection.Customers sample_connection) in
  let c1 := snd (Connection.access Connection.Customers sample_connection) in
  Connection.access Connection.Customers c1 = (x, c1)
  /\ Connection.slot Connection.Items c1
     = Connection.slot Connection.Items sample_connection
  /\ fresh_for (Connection.api sample_connection) x.
Proof.
  cbv zeta.
  pose proof (subresource_is_built_once Connection.Customers sample_connection)
    as H. cbv zeta in H.
  destruct H as (_ & Ha & _ & Ho & _ & Hf).
  split; [exact Ha|]. split.
  - apply Ho. discriminate.
  - apply Hf. reflexivity.
Defined.

(** X13 on the first read of the name of the account. *)
Lemma settings_are_fetched_once_witness :
  let remote :=
    scripted [Reply (json_response 200
                       (envelope "OK" (JObj [("name", JStr "Acme")])))] in
  let first :=
    on_settings (__getitem__ sample_str remote "name")
      (sample_connection, []) in
  snd (snd first)
  = ([] ++ [get_request (Connection.api sample_connection) "settings" JNull])%list
  /\ (forall v,
        fst first = Ok v ->
        exists d,
          option_map RemoteObject._data (Connection._settings (fst (snd first)))
          = Some (JObj d)
          /\ dict_get "name" d = Some v
          /\ forall key',
              on_settings (__getitem__ sample_str remote key') (snd first)
              = (py_getitem (JObj d) key', snd first)).
Proof.
  cbv zeta.
  apply (settings_are_fetched_once sample_str
           (scripted [Reply (json_response 200
                               (envelope "OK" (JObj [("name", JStr "Acme")])))])
           sample_connection [] "name").
  reflexivity.
Defined.

(** X14 on the creation of a billogram, on a customer fetched by its
    number, and on a fetch without an id. *)
Lemma create_wraps_the_answer_witness :
  (let remote := scripted failing_send in
   let data := JObj [("customer", JInt 1)] in
   exists resp env d,
     remote [] (create_request sample_billograms data) = Reply resp
     /\ json_body resp = Some (JObj env)
     /\ dict_get "data" env = Some d
     /\ created_billogram
        = RemoteObject.mk (SimpleClass._api sample_billograms)
            (RemoteObject.Class sample_billograms) d)
  /\ (let remote := scripted [customer_reply] in
      get sample_str remote sample_customers (JInt 7) []
      = (Ok fetched_customer, [get_request sample_api "customer/7" JNull])
      /\ _url sample_str fetched_customer = Ok "customer/7")
  /\ get sample_str (scripted [customer_reply]) sample_customers JNull []
     = (Raise (Builtin TypeError), []).
Proof.
  cbv zeta. split; [|split].
  - refine (proj2 (proj1 (create_and_get_wrap_the_answer sample_str
                            (scripted failing_send) sample_billograms [])
                     (JObj [("customer", JInt 1)]) (Ok created_billogram)
                     [create_request sample_billograms
                        (JObj [("customer", JInt 1)])] _)
              created_billogram eq_refl).
    vm_compute. reflexivity.
  - assert (H : get sample_str (scripted [customer_reply]) sample_customers
                 (JInt 7) []
               = (Ok fetched_customer,
                  [get_request sample_api "customer/7" JNull])).
    { vm_compute. reflexivity. }
    split; [exact H|].
    exact (proj2 (proj2 (proj1 (proj2 (create_and_get_wrap_the_answer
                                         sample_str (scripted [customer_reply])
                                         sample_customers []))
                           (JInt 7) (Ok fetched_customer) _ eq_refl H)
                    fetched_customer eq_refl)
             [("customer_no", JInt 7); ("name", JStr "Acme")] eq_refl
             eq_refl).
  - exact (proj2 (proj2 (create_and_get_wrap_the_answer sample_str
                           (scripted [customer_reply]) sample_customers []))).
Defined.

(** X15 on data with one entry. *)
Lemma create_and_sell_marks_the_data_witness :
  let data := [("customer", JInt 1)] in
  let body := dict_set "_event" (JStr "sell") data in
  dict_get "customer" body = dict_get "customer" data
  /\ snd (snd (create_and_sell sample_str (scripted failing_send)
                 sample_billograms (data, [])))
     = ([] ++ [create_request sample_billograms (JObj body)])%list
  /\ fst (snd (create_and_sell sample_str (scripted failing_send)
                 sample_billograms (data, [])))
     = body.
Proof.
  cbv zeta.
  pose proof (create_and_sell_marks_the_data sample_str (scripted failing_send)
                sample_billograms [("customer", JInt 1)] []) as H.
  cbv zeta in H. destruct H as (_ & Hk & Hc & Hw).
  split; [apply Hk; discriminate|].
  split.
  - exact (eq_trans (f_equal (fun x => snd (snd x)) Hc) Hw).
  - exact (f_equal (fun x => fst (snd x)) Hc).
Defined.

(** X16 on a filter on the name of the customer. *)
Lemma filter_helpers_witness :
  filter_field (JStr "name") (JStr "Acme") sample_state
  = (Ok tt, after_filter sample_state name_filter)
  /\ filter_field JNull (JStr "Acme") sample_state
     = remove_filter sample_state.
Proof.
  split.
  - apply (proj1 (filter_helpers_always_accepted sample_state
                    (JStr "name") (JStr "Acme")));
      reflexivity.
  - apply (proj1 (proj2 (filter_helpers_always_accepted sample_state
                           JNull (JStr "Acme")))).
    left. reflexivity.
Defined.

(** X17 on a list of states that holds a number. *)
Lemma filter_state_any_witness :
  filter_state_any [JArr [JStr "Unattested"; JInt 1]] sample_state
  = (Raise (Builtin AssertionError), sample_state)
  /\ filter_state_any [JStr "Unattested"; JStr "Sent"] sample_state
     = (Ok tt,
        after_filter sample_state
          (filter_spec (JStr "field") (JStr "state")
             (JStr "Unattested,Sent"))).
Proof.
  split.
  - apply (proj2 (filter_state_any_joins_states sample_state)).
    reflexivity.
  - exact (proj2 (proj1 (filter_state_any_joins_states sample_state)
                    ["Unattested"; "Sent"])).
Defined.

(** X18 on an order without a direction and on a complete one. *)
Lemma order_setter_witness :
  let partial := [("order_field", JStr "name")] in
  let full := [("order_field", JStr "name"); ("order_direction", JStr "asc")] in
  set_order partial sample_state
  = (Raise (Builtin AssertionError), sample_state)
  /\ set_order full sample_state = (Ok tt, order_assigned sample_state full)
  /\ Query._count_cached (q_self (order_assigned sample_state full))
     = Query._count_cached (q_self sample_state).
Proof.
  cbv zeta. split.
  - apply (proj1 (order_setter_contract sample_state
                    [("order_field", JStr "name")]));
      [discriminate|reflexivity].
  - pose proof (proj2 (order_setter_contract sample_state
                         [("order_field", JStr "name");
                          ("order_direction", JStr "asc")])
                  (or_intror eq_refl)) as (Hs & _ & _ & Hc & _).
    split; [exact Hs|exact Hc].
Defined.

(** X19 on the third page of a new query. *)
Lemma query_request_parameters_witness :
  exists params,
    req_params (query_request sample_state 3 None) = JObj params
    /\ dict_get "page" params = Some (JInt 3)
    /\ dict_get "page_size" params = Some (JInt 100)
    /\ dict_get "filter_type" params = None.
Proof.
  pose proof (query_request_parameters sample_str echo_remote sample_state 3
                None) as H.
  cbv zeta in H. destruct H as (_ & _ & _ & params & Hp & Hk).
  exists params. split; [exact Hp|].
  assert (Hu : unique_keys []) by constructor.
  split; [|split].
  - exact (Hk "page" Hu Hu).
  - exact (Hk "page_size" Hu Hu).
  - exact (Hk "filter_type" Hu Hu).
Defined.

(** X20 on the first page of the customers. *)
Lemma get_page_witness :
  exists objs s',
    get_page sample_str echo_remote 1 sample_state = (Ok objs, s')
    /\ exists resp env items total_count meta,
        echo_remote (q_log sample_state) (query_request sample_state 1 None)
        = Reply resp
        /\ json_body resp = Some (JObj env)
        /\ (d <- py_getitem (JObj env) "data" ;; py_iter d)%res = Ok items
        /\ objs = wrap_items (Query._type_class (q_self sample_state)) items
        /\ List.length objs = List.length items
        /\ dict_get "meta" env = Some meta
        /\ py_getitem meta "total_count" = Ok total_count
        /\ s' = mk_qstate (with_count (q_self sample_state) total_count)
                  (q_heap sample_state)
                  (q_log sample_state
                   ++ [query_request sample_state 1 None])%list
        /\ (is_None total_count = false ->
            count sample_str echo_remote s' = (Ok total_count, s')).
Proof.
  eexists. eexists. split.
  2: { eapply (get_page_wraps_items_and_caches_count sample_str echo_remote
                 sample_state 1).
       vm_compute. reflexivity. }
  vm_compute. reflexivity.
Defined.

(** X21 on a response without a content type. *)
Lemma classifier_builtin_errors_witness :
  let resp := mk_response 200 None None "" in
  _check_api_response sample_str resp None = Raise (Builtin KeyError)
  /\ ((KeyError = KeyError /\ content_type resp = None)
      \/ (KeyError = ValueError /\ json_body resp = None)
      \/ KeyError = AttributeError \/ KeyError = TypeError).
Proof.
  cbv zeta. split; [reflexivity|].
  apply (classifier_builtin_errors sample_str (mk_response 200 None None "")
           None (Builtin KeyError)).
  reflexivity.
Defined.

(** X22 on a new query: a page size of zero is refused, and a fetched
    page leaves the page size in range. *)
Lemma page_size_witness :
  set_page_size 0 sample_state = (Raise (Builtin AssertionError), sample_state)
  /\ page_size_ok (snd (get_page sample_str echo_remote 1 sample_state))
  /\ fst (total_pages sample_str echo_remote sample_state)
     <> Raise (Builtin ZeroDivisionError).
Proof.
  assert (Hok : page_size_ok sample_state) by (unfold page_size_ok; cbn; lia).
  pose proof (page_size_stays_positive sample_str echo_remote)
    as (_ & _ & Hset & Hpage & _ & Htotal).
  split; [apply Hset; lia|].
  split; [apply Hpage; exact Hok|].
  apply (Htotal sample_state _
           (snd (total_pages sample_str echo_remote sample_state)) Hok).
  now destruct (total_pages sample_str echo_remote sample_state).
Defined.

(** X23 on a query over two pages of one object, asked four times. *)
Lemma iteration_witness :
  let s := program small_pages_state in
  drive sample_str echo_remote 0%nat (nexts 4) (GenCreated 0%nat) s
  = let qry := fst (copy_copy 0%nat s) in
    match on_query qry (total_pages sample_str echo_remote)
            (snd (copy_copy 0%nat s)) with
    | (Raise e, _) => firstn 4 (GenRaise e :: repeat StopIteration 4)
    | (Ok n, s1) =>
        firstn 4
          (map Yield
             (fst (fst (eager_pages sample_str echo_remote (Z.to_nat n) qry 1
                          s1)))
           ++ snd (fst (eager_pages sample_str echo_remote (Z.to_nat n) qry 1
                          s1))
                :: repeat StopIteration 4)%list
    end.
Proof.
  cbv zeta.
  apply (iteration_yields_the_pages_in_order sample_str echo_remote 0%nat
           (program small_pages_state) 4 4).
  lia.
Defined.

(** The run of that iteration: the two objects, then the end. *)
Example iteration_on_two_pages :
  map (fun item => match item with
                   | Yield o => Some (RemoteObject._data o)
                   | _ => None
                   end)
    (drive sample_str echo_remote 0%nat (nexts 4) (GenCreated 0%nat)
       (program small_pages_state))
  = [ Some (JObj [("page_size", JInt 1); ("page", JInt 1)]);
      Some (JObj [("page_size", JInt 1); ("page", JInt 2)]);
      None; None ].
Proof. vm_compute. reflexivity. Qed.

(** X24 on the generator after its first object, one page to go. *)
Lemma next_fetches_witness :
  exists item g' s',
    gen_next sample_str echo_remote running_generator running_state
    = (item, g', s')
    /\ exists m,
        (m <= 1)%nat
        /\ (@nil RemoteObject.t <> [] -> m = 0%nat)
        /\ p_log s'
           = (p_log running_state
              ++ page_requests (p_objs running_state 1%nat)
                   (p_heap running_state) 2 m)%list
        /\ p_heap s' = p_heap running_state
        /\ (forall r, r <> 1%nat -> p_objs s' r = p_objs running_state r)
        /\ same_params (p_objs running_state 1%nat) (p_objs s' 1%nat)
        /\ match g' with
           | GenCreated _ => False
           | GenSuspended qry' n' p' _ =>
               qry' = 1%nat /\ n' = (1 - m)%nat /\ p' = 2 + Z.of_nat m
           | GenFinished => item = StopIteration -> m = 1%nat
           end.
Proof.
  eexists. eexists. eexists. split.
  2: { eapply (next_fetches_consecutive_pages sample_str echo_remote
                 1%nat 1 2 [] running_state).
       vm_compute. reflexivity. }
  vm_compute. reflexivity.
Defined.

(** X25 on the invoice of a billogram, asked for by invoice number. *)
Lemma pdf_getters_witness :
  let rq := get_request sample_api "billogram/b1.pdf"
              (JObj [("invoice_no", JInt 7)]) in
  let r := get_invoice_pdf sample_str (scripted [pdf_reply]) sample_b64decode
             JNull (JInt 7) (created_billogram, []) in
  snd r = (created_billogram, ([] ++ [rq])%list)
  /\ fst r = Ok "JVBERi0=".
Proof.
  cbv zeta.
  pose proof (pdf_getters_request_and_decode sample_str (scripted [pdf_reply])
                sample_b64decode created_billogram [] "billogram/b1" eq_refl)
    as H.
  cbv zeta in H. destruct H as (H & _).
  destruct (H JNull (JInt 7)) as (Hs & Hf).
  split; [exact Hs|].
  exact (Hf (json_response 200
               (envelope "OK" (JObj [("content", JStr "JVBERi0=")])))
            [("status", JStr "OK");
             ("data", JObj [("content", JStr "JVBERi0=")])]
            eq_refl eq_refl).
Defined.

(** X26 on a billogram that is created and sent by e-mail, and on a
    medium the call does not know. *)
Lemma create_and_send_outcomes_witness :
  let remote :=
    scripted
      [ Reply (json_response 200 (envelope "OK" (JObj [("id", JStr "b1")])));
        Reply (json_response 200
                 (envelope "OK"
                    (JObj [("id", JStr "b1"); ("state", JStr "Unpaid")]))) ] in
  let data := JObj [("customer", JInt 1)] in
  create_and_send sample_str remote sample_billograms data (JStr "Email") []
  = (Ok (RemoteObject.with_data created_billogram
           (JObj [("id", JStr "b1"); ("state", JStr "Unpaid")])),
     [ create_request sample_billograms data;
       request_of (PerformEvent "send" (JObj [("method", JStr "Email")]))
         created_billogram "billogram/b1" ])
  /\ create_and_send sample_str remote sample_billograms data (JStr "Fax") []
     = (Raise (Builtin AssertionError), []).
Proof.
  cbv zeta. split.
  - refine (proj1 (proj2 (proj2 (create_and_send_outcomes sample_str _
                                   sample_billograms _ (JStr "Email") [])
                            eq_refl)
                     created_billogram _ _ _ _ _)).
    + vm_compute. reflexivity.
    + vm_compute. reflexivity.
  - apply (proj1 (create_and_send_outcomes sample_str _ sample_billograms _
                    (JStr "Fax") [])).
    reflexivity.
Defined.
